(** * Conversation agent with sentiment tracking: model and properties

    A shallow embedding of the stateful core of the chatbot repository:
    - [chatbot.py]: [ConversationRole], [Message], [ConversationState],
      [Chatbot] and [SmartChatbot];
    - [analytics.py]: [ConversationAnalytics._calculate_statistics] and
      [ReportGenerator.generate_text_report].

    Python values are modelled as follows.
    - [str] is [string], the bytes of the text in UTF-8; a value that may be
      [None] is an [option].  A value annotated [Any] is a [value], one of the
      seven kinds a decoded JSON document is made of.
    - [float] is the kernel's binary64 [float], so sums and quotients are the
      ones the interpreter computes.
    - A dictionary with a fixed set of string keys is a record of [option]
      fields, [None] standing for an absent key, so that [d.get(k, default)]
      is [default] applied to the field.  A dictionary used as a counter is
      an association list in insertion order, the order Python iterates in.
    - Objects are records; a method takes the object and returns the updated
      one.  Everything outside the agent (the Gemini service behind
      [GeminiAIClient], the wall clock) is an abstract [World] threaded through
      the calls that reach it.  The two tables of the interpreter that are not
      written out here ([repr] of numbers and containers, the case mappings of
      characters outside ASCII) are parameters as well. *)

From Stdlib Require Import Ascii String Floats.
From stdpp Require Import base option list strings gmap pretty sorting.

Open Scope string_scope.
Set Warnings "-inexact-float,-register-all".

(** ** Exceptions *)

(** An exception that leaves a call: the code under study has no handler, so a
    failure of the service goes up to the caller of the method. *)
Inductive exn : Type :=
  | Error (message : string).

Inductive outcome (A : Type) : Type :=
  | Return (a : A)
  | Raise (e : exn).
Arguments Return {A} a.
Arguments Raise {A} e.

Definition returned {A} (o : outcome A) : Prop :=
  match o with Return _ => True | Raise _ => False end.

(** One statement after the other: the first that raises ends the block. *)
Definition and_then {A B} (o : outcome A) (k : A -> outcome B) : outcome B :=
  match o with
  | Return a => k a
  | Raise e => Raise e
  end.

(** ** Values annotated [Any] *)

(** What a dictionary annotated [Dict[str, Any]] holds under a key, and what
    the JSON body of a request decodes to: [None], a [bool], an [int], a
    [float], a [str], a [list], or a [dict] with text keys (its entries in
    insertion order, the keys distinct). *)
Inductive value : Type :=
  | VNone
  | VBool (b : bool)
  | VInt (n : Z)
  | VFloat (x : float)
  | VStr (s : string)
  | VList (items : list value)
  | VDict (entries : list (string * value)).

(** [type(v).__name__] *)
Definition type_name (v : value) : string :=
  match v with
  | VNone => "NoneType"
  | VBool _ => "bool"
  | VInt _ => "int"
  | VFloat _ => "float"
  | VStr _ => "str"
  | VList _ => "list"
  | VDict _ => "dict"
  end.

(** [bool(v)]: [None], [False], zero and the empty text, list and dictionary
    are false. *)
Definition truth (v : value) : bool :=
  match v with
  | VNone => false
  | VBool b => b
  | VInt n => negb (n =? 0)%Z
  | VFloat x => negb (PrimFloat.eqb x 0%float)
  | VStr s => match s with EmptyString => false | String _ _ => true end
  | VList items => match items with [] => false | _ :: _ => true end
  | VDict entries => match entries with [] => false | _ :: _ => true end
  end.

(** [d.get(key)] is true: the key is present and its value is. *)
Definition truthy (o : option value) : bool :=
  match o with
  | Some v => truth v
  | None => false
  end.

(** [d.get(key)] for the entries of a dictionary. *)
Fixpoint dict_get (key : string) (entries : list (string * value)) : option value :=
  match entries with
  | [] => None
  | (k, v) :: entries' =>
      if bool_decide (k = key) then Some v else dict_get key entries'
  end.

(** ** Sentiment results (module [sentiment], consumed here) *)

Module SentimentResult.

(** Modelled from the spec: the record [SentimentResult] of the module
    [sentiment], which is not among the sources.  Its fields are
    [{sentiment, emotion, emotion_intensity, confidence, reasoning}];
    [emotion_intensity] may be left absent ([None]). *)
Record t : Type := Build {
  sentiment : string;
  emotion : string;
  emotion_intensity : option string;
  confidence : float;
  reasoning : string;
}.

End SentimentResult.

(** A sentiment result as a dictionary ([SentimentResult.to_dict], and the
    items of the [sentiment_history] lists the analytics read): any key may be
    absent. *)
Module SentimentDict.

Record t : Type := Build {
  sentiment : option string;
  emotion : option string;
  emotion_intensity : option string;
  confidence : option float;
  reasoning : option string;
}.

End SentimentDict.

(** Modelled from the spec: [SentimentResult.to_dict], one key per field. *)
Definition SentimentResult_to_dict (r : SentimentResult.t) : SentimentDict.t :=
  {| SentimentDict.sentiment := Some (SentimentResult.sentiment r);
     SentimentDict.emotion := Some (SentimentResult.emotion r);
     SentimentDict.emotion_intensity := SentimentResult.emotion_intensity r;
     SentimentDict.confidence := Some (SentimentResult.confidence r);
     SentimentDict.reasoning := Some (SentimentResult.reasoning r) |}.

(** ** [ConversationState] *)

Module ConversationState.

Record t : Type := Build {
  mood : string;
  engagement_level : string;
  topics_discussed : list string;
  sentiment_trend : string;
  last_emotion : string;
}.

(** [ConversationState.__init__] *)
Definition init : t :=
  {| mood := "neutral";
     engagement_level := "normal";
     topics_discussed := [];
     sentiment_trend := "stable";
     last_emotion := "neutral" |}.

(** [ConversationState.update]: the three assignments, in order. *)
Definition update (self : t) (sentiment_result : SentimentResult.t) : t :=
  let self :=
    {| mood := SentimentResult.sentiment sentiment_result;
       engagement_level := engagement_level self;
       topics_discussed := topics_discussed self;
       sentiment_trend := sentiment_trend self;
       last_emotion := last_emotion self |} in
  let self :=
    {| mood := mood self;
       engagement_level := engagement_level self;
       topics_discussed := topics_discussed self;
       sentiment_trend := sentiment_trend self;
       last_emotion := SentimentResult.emotion sentiment_result |} in
  let level :=
    if bool_decide (SentimentResult.emotion_intensity sentiment_result = Some "high")
    then "high"
    else if bool_decide (SentimentResult.emotion_intensity sentiment_result = Some "low")
    then "low"
    else "normal" in
  {| mood := mood self;
     engagement_level := level;
     topics_discussed := topics_discussed self;
     sentiment_trend := sentiment_trend self;
     last_emotion := last_emotion self |}.

(** [ConversationState.to_dict]: every key is present, so the dictionary
    carries the same five values. *)
Definition to_dict (self : t) : t := self.

End ConversationState.

(** ** Messages *)

Inductive ConversationRole : Type := USER | ASSISTANT | SYSTEM.

#[global] Instance ConversationRole_eq_dec : EqDecision ConversationRole.
Proof. solve_decision. Defined.

(** [ConversationRole.value] *)
Definition role_value (r : ConversationRole) : string :=
  match r with
  | USER => "user"
  | ASSISTANT => "assistant"
  | SYSTEM => "system"
  end.

(** [Message.to_dict]: the four keys are always present; ["sentiment"] holds
    [None] for a message without one. *)
Module MessageDict.

Record t : Type := Build {
  role : string;
  content : string;
  timestamp : string;
  sentiment : option SentimentDict.t;
}.

End MessageDict.

(** The dictionary [TrendData.to_dict] returns and the answer of the trend
    analysis it is filled from, with the types of the fields of [TrendData]:
    any key may be absent. *)
Module TrendDict.

Record t : Type := Build {
  trend : option string;
  direction : option string;
  mood_shifts : option (list string);
  emotional_peaks : option (list string);
  analysis : option string;
  prediction : option string;
}.

End TrendDict.

(** The answers of [extract_keywords] and [summarize_conversation] are
    annotated [Dict[str, Any]]: the keys the report reads, each absent or
    holding any value. *)
Module KeywordsDict.

Record t : Type := Build {
  keywords : option value;
  themes : option value;
  topics_of_interest : option value;
}.

End KeywordsDict.

Module SummaryDict.

Record t : Type := Build {
  summary : option value;
  overall_tone : option value;
  user_mood_journey : option value;
  key_points : option value;
}.

End SummaryDict.

(** ** What lies outside the agent *)

(** The modules [ai_client] and [sentiment] are not among the sources, and the
    clock is the operating system's.  Their state is one abstract [World]; a
    call takes the world and returns the next one.  No handler stands between
    the service and the callers of the agent, so a call of the service either
    returns or raises.  Sentiment classification goes through
    [SentimentAnalyzer.analyze], which falls back to safe defaults and always
    returns. *)
Class Externals : Type := {
  World : Type;
  (** [datetime.now()] and [datetime.isoformat] *)
  datetime : Type;
  datetime_now : World -> World * datetime;
  isoformat : datetime -> string;
  (** the classification [SentimentAnalyzer.analyze] obtains for a text *)
  classify : string -> World -> World * SentimentResult.t;
  (** what [SentimentAnalyzer.get_summary_stats] reports besides
      [total_messages] *)
  Aggregates : Type;
  summary_aggregates : list SentimentResult.t -> Aggregates;
  (** [GeminiAIClient] *)
  generate_reply :
    string -> list (string * string) -> string -> string ->
    World -> World * outcome string;
  generate_trend_analysis :
    list SentimentDict.t -> World -> World * outcome TrendDict.t;
  extract_keywords :
    list MessageDict.t -> World -> World * outcome KeywordsDict.t;
  summarize_conversation :
    list MessageDict.t -> World -> World * outcome SummaryDict.t;
  generate_ascii_mood_graph :
    list SentimentDict.t -> World -> World * outcome string;
  generate_emotion_profile :
    list SentimentDict.t -> World -> World * outcome string;
  (** the interpreter: [repr] of a value, read for the floats, lists and
      dictionaries, and [str.capitalize] of a text, read for the texts with a
      character outside ASCII *)
  repr : value -> string;
  capitalize_unicode : string -> string;
}.

Module Message.
Section WithExternals.
Context `{Externals}.

Record t : Type := Build {
  role : ConversationRole;
  content : string;
  timestamp : datetime;
  sentiment : option SentimentResult.t;
}.

(** The constructor call [Message(role=..., content=..., sentiment=...)]:
    the default factory of [timestamp] reads the clock. *)
Definition new (role : ConversationRole) (content : string)
    (sentiment : option SentimentResult.t) (w : World) : World * t :=
  let '(w, now) := datetime_now w in
  (w, {| role := role; content := content; timestamp := now;
         sentiment := sentiment |}).

Definition to_dict (self : t) : MessageDict.t :=
  {| MessageDict.role := role_value (role self);
     MessageDict.content := content self;
     MessageDict.timestamp := isoformat (timestamp self);
     MessageDict.sentiment := SentimentResult_to_dict <$> sentiment self |}.

End WithExternals.
End Message.

(** ** [SentimentAnalyzer] *)

Module SentimentAnalyzer.
Section WithExternals.
Context `{Externals}.

(** Modelled from the spec: the class [SentimentAnalyzer] of the module
    [sentiment], which is not among the sources.  It owns the ordered
    sentiment history; [analyze] appends the result before returning it,
    [clear_history] empties the sequence, [get_summary_stats] reports
    aggregates over the history, at least [total_messages], and
    [get_history_dicts] lists the results as dictionaries. *)
Record t : Type := Build {
  history : list SentimentResult.t;
}.

Definition init : t := {| history := [] |}.

Definition analyze (self : t) (text : string) (w : World)
    : World * t * SentimentResult.t :=
  let '(w, result) := classify text w in
  (w, {| history := history self ++ [result] |}, result).

Definition clear_history (self : t) : t := {| history := [] |}.

Record SummaryStats : Type := {
  total_messages : nat;
  aggregates : Aggregates;
}.

Definition get_summary_stats (self : t) : SummaryStats :=
  {| total_messages := length (history self);
     aggregates := summary_aggregates (history self) |}.

Definition get_history_dicts (self : t) : list SentimentDict.t :=
  SentimentResult_to_dict <$> history self.

End WithExternals.
End SentimentAnalyzer.

(** ** Strings of the interpreter *)

(** The characters [str.strip] removes are those [str.isspace] accepts.  Of
    one byte in UTF-8: the blank, the controls 9 to 13 (tab, line feed,
    vertical tab, form feed, carriage return) and the separators 28 to 31. *)
Definition is_space (a : ascii) : bool :=
  let n := nat_of_ascii a in
  ((n =? 32) || ((9 <=? n) && (n <=? 13)) || ((28 <=? n) && (n <=? 31)))%nat.

(** Of two bytes: U+0085 (C2 85) and U+00A0 (C2 A0). *)
Definition is_space2 (a b : ascii) : bool :=
  let x := nat_of_ascii a in
  let y := nat_of_ascii b in
  ((x =? 194) && ((y =? 133) || (y =? 160)))%nat.

(** Of three bytes: U+1680 (E1 9A 80), U+2000 to U+200A (E2 80 80 to
    E2 80 8A), U+2028, U+2029 and U+202F (E2 80 A8, A9, AF), U+205F
    (E2 81 9F) and U+3000 (E3 80 80). *)
Definition is_space3 (a b c : ascii) : bool :=
  let x := nat_of_ascii a in
  let y := nat_of_ascii b in
  let z := nat_of_ascii c in
  (((x =? 225) && (y =? 154) && (z =? 128))
   || ((x =? 226) && (y =? 128) &&
       (((128 <=? z) && (z <=? 138)) || (z =? 168) || (z =? 169) || (z =? 175)))
   || ((x =? 226) && (y =? 129) && (z =? 159))
   || ((x =? 227) && (y =? 128) && (z =? 128)))%nat.

(** [str.lstrip()] *)
Fixpoint lstrip (s : string) : string :=
  match s with
  | String a s1 =>
      if is_space a then lstrip s1
      else
        match s1 with
        | String b s2 =>
            if is_space2 a b then lstrip s2
            else
              match s2 with
              | String c s3 => if is_space3 a b c then lstrip s3 else s
              | EmptyString => s
              end
        | EmptyString => s
        end
  | EmptyString => EmptyString
  end.

(** [str.rstrip()] on the bytes read from the end: the last byte of a
    character comes first. *)
Fixpoint rstrip_reversed (s : string) : string :=
  match s with
  | String c s1 =>
      if is_space c then rstrip_reversed s1
      else
        match s1 with
        | String b s2 =>
            if is_space2 b c then rstrip_reversed s2
            else
              match s2 with
              | String a s3 => if is_space3 a b c then rstrip_reversed s3 else s
              | EmptyString => s
              end
        | EmptyString => s
        end
  | EmptyString => EmptyString
  end.

(** [str.strip()] *)
Definition strip (s : string) : string :=
  String.rev (rstrip_reversed (String.rev (lstrip s))).

(** How an f-string prints a value that may be [None]. *)
Definition str_of_optional (o : option string) : string :=
  default "None" o.

(** The slice [l[-n:]]: the last [n] items, all of them when there are fewer;
    for [n = 0] the start index is [-0 = 0] and the slice is the whole list. *)
Definition last_items {A} (n : nat) (l : list A) : list A :=
  match n with
  | O => l
  | S _ => drop (length l - n) l
  end.

(** The item [l[-k]] for a positive [k]; Python raises [IndexError] when the
    list has fewer than [k] items ([None] here). *)
Definition item_from_end {A} (k : nat) (l : list A) : option A :=
  if (k <=? length l)%nat then l !! (length l - k)%nat else None.

(** ** [Chatbot] *)

Module Chatbot.
Section WithExternals.
Context `{Externals}.

(** The attributes of a [Chatbot].  [ai_client] is a handle on the service,
    whose state is in the world, and holds nothing of its own. *)
Record t : Type := Build {
  sentiment_analyzer : SentimentAnalyzer.t;
  history : list Message.t;
  state : ConversationState.t;
  system_prompt : string;
}.

Definition set_sentiment_analyzer (a : SentimentAnalyzer.t) (self : t) : t :=
  {| sentiment_analyzer := a; history := history self;
     state := state self; system_prompt := system_prompt self |}.
Definition set_history (h : list Message.t) (self : t) : t :=
  {| sentiment_analyzer := sentiment_analyzer self; history := h;
     state := state self; system_prompt := system_prompt self |}.
Definition set_state (s : ConversationState.t) (self : t) : t :=
  {| sentiment_analyzer := sentiment_analyzer self; history := history self;
     state := s; system_prompt := system_prompt self |}.
Definition set_system_prompt (p : string) (self : t) : t :=
  {| sentiment_analyzer := sentiment_analyzer self; history := history self;
     state := state self; system_prompt := p |}.

Definition default_system_prompt : string :=
  "You are a friendly, intelligent AI assistant. " ++
  "You are empathetic, helpful, and adapt your communication style " ++
  "based on the user's emotional state.".

(** [Chatbot._add_system_message] *)
Definition _add_system_message (self : t) (content : string) (w : World)
    : World * t :=
  let '(w, message) := Message.new SYSTEM content None w in
  (w, set_history (history self ++ [message]) self).

(** [Chatbot._add_message] *)
Definition _add_message (self : t) (role : ConversationRole)
    (content : string) (sentiment : option SentimentResult.t) (w : World)
    : World * t * Message.t :=
  let '(w, message) := Message.new role content sentiment w in
  (w, set_history (history self ++ [message]) self, message).

(** [Chatbot.__init__]: [system_prompt or default] takes the default for
    [None] and for the empty string. *)
Definition init (system_prompt : option string) (w : World) : World * t :=
  let prompt :=
    match system_prompt with
    | Some p => if bool_decide (p = "") then default_system_prompt else p
    | None => default_system_prompt
    end in
  let self :=
    {| sentiment_analyzer := SentimentAnalyzer.init;
       history := [];
       state := ConversationState.init;
       system_prompt := prompt |} in
  _add_system_message self prompt w.

(** [Chatbot._generate_response] *)
Definition _generate_response (self : t) (user_message : string)
    (sentiment : SentimentResult.t) (w : World) : World * outcome string :=
  let history_for_ai :=
    (fun msg => (role_value (Message.role msg), Message.content msg))
      <$> last_items 10 (history self) in
  let sentiment_context :=
    "User sentiment: " ++ SentimentResult.sentiment sentiment ++ " | " ++
    "Emotion: " ++ SentimentResult.emotion sentiment ++
    " (" ++ str_of_optional (SentimentResult.emotion_intensity sentiment) ++ ") | " ++
    "Reason: " ++ SentimentResult.reasoning sentiment in
  match generate_reply user_message history_for_ai
          (ConversationState.mood (state self)) sentiment_context w with
  | (w, Return response) => (w, Return (strip response))
  | (w, Raise e) => (w, Raise e)
  end.

(** [Chatbot._get_mood_context] *)
Definition _get_mood_context (self : t) : string :=
  let stats := SentimentAnalyzer.get_summary_stats (sentiment_analyzer self) in
  "Current mood: " ++ ConversationState.mood (state self) ++ " | " ++
  "Emotion: " ++ ConversationState.last_emotion (state self) ++ " | " ++
  "Engagement: " ++ ConversationState.engagement_level (state self) ++ " | " ++
  "Messages: " ++ pretty (SentimentAnalyzer.total_messages stats).

(** The dictionary [chat] returns. *)
Record ChatResult : Type := {
  response : string;
  sentiment : SentimentDict.t;
  result_state : ConversationState.t;
  mood_context : string;
}.

(** [Chatbot.chat]: the five steps in order.  When step 4 raises, the
    exception leaves [chat] with the object as steps 1 to 3 left it. *)
Definition chat (self : t) (user_message : string) (w : World)
    : World * t * outcome ChatResult :=
  (* Step 1: analyze user message sentiment *)
  let '(w, analyzer, sentiment_result) :=
    SentimentAnalyzer.analyze (sentiment_analyzer self) user_message w in
  let self := set_sentiment_analyzer analyzer self in
  (* Step 2: update conversation state *)
  let self := set_state (ConversationState.update (state self) sentiment_result) self in
  (* Step 3: add user message to history *)
  let '(w, self, _) := _add_message self USER user_message (Some sentiment_result) w in
  (* Step 4: generate contextual response *)
  match _generate_response self user_message sentiment_result w with
  | (w, Raise e) => (w, self, Raise e)
  | (w, Return response) =>
      (* Step 5: add assistant response to history *)
      let '(w, self, _) := _add_message self ASSISTANT response None w in
      (w, self,
       Return {| response := response;
                 sentiment := SentimentResult_to_dict sentiment_result;
                 result_state := ConversationState.to_dict (state self);
                 mood_context := _get_mood_context self |})
  end.

(** [Chatbot.get_history] *)
Definition get_history (self : t) : list MessageDict.t :=
  Message.to_dict <$> history self.

(** [Chatbot.get_user_messages] *)
Definition get_user_messages (self : t) : list string :=
  Message.content <$> filter (fun msg => Message.role msg = USER) (history self).

(** [Chatbot.get_sentiment_history] *)
Definition get_sentiment_history (self : t) : list SentimentDict.t :=
  SentimentAnalyzer.get_history_dicts (sentiment_analyzer self).

(** The dictionary [get_statistics] returns. *)
Record Statistics : Type := {
  total_messages : Z;
  user_messages : nat;
  assistant_messages : nat;
  sentiment_stats : SentimentAnalyzer.SummaryStats;
  conversation_state : ConversationState.t;
}.

(** [Chatbot.get_statistics] *)
Definition get_statistics (self : t) : Statistics :=
  let user_msgs :=
    length (filter (fun m => Message.role m = USER) (history self)) in
  let assistant_msgs :=
    length (filter (fun m => Message.role m = ASSISTANT) (history self)) in
  {| total_messages := (Z.of_nat (length (history self)) - 1)%Z;
     user_messages := user_msgs;
     assistant_messages := assistant_msgs;
     sentiment_stats := SentimentAnalyzer.get_summary_stats (sentiment_analyzer self);
     conversation_state := ConversationState.to_dict (state self) |}.

(** [Chatbot.reset] *)
Definition reset (self : t) (w : World) : World * t :=
  let self := set_history [] self in
  let self := set_state ConversationState.init self in
  let self :=
    set_sentiment_analyzer
      (SentimentAnalyzer.clear_history (sentiment_analyzer self)) self in
  _add_system_message self (system_prompt self) w.

(** [Chatbot.set_personality]: [self.history[0] = Message(...)] is an
    assignment at index 0, guarded by a non-empty history. *)
Definition set_personality (self : t) (personality : string) (w : World)
    : World * t :=
  let self := set_system_prompt personality self in
  match history self with
  | first :: _ =>
      if bool_decide (Message.role first = SYSTEM) then
        let '(w, message) := Message.new SYSTEM personality None w in
        (w, set_history (<[0%nat := message]> (history self)) self)
      else (w, self)
  | [] => (w, self)
  end.

End WithExternals.
End Chatbot.

(** ** [SmartChatbot] *)

Module SmartChatbot.
Section WithExternals.
Context `{Externals}.

(** A [SmartChatbot] is a [Chatbot] with two more attributes; the inherited
    methods act on the inherited attributes ([base]). *)
Record t : Type := Build {
  base : Chatbot.t;
  mood_shift_threshold : nat;
  previous_moods : list string;
}.

Definition set_base (b : Chatbot.t) (self : t) : t :=
  {| base := b; mood_shift_threshold := mood_shift_threshold self;
     previous_moods := previous_moods self |}.
Definition set_previous_moods (l : list string) (self : t) : t :=
  {| base := base self; mood_shift_threshold := mood_shift_threshold self;
     previous_moods := l |}.

(** [SmartChatbot.__init__]: the base class gets no system prompt. *)
Definition init (w : World) : World * t :=
  let '(w, b) := Chatbot.init None w in
  (w, {| base := b; mood_shift_threshold := 2; previous_moods := [] |}).

(** The inherited [reset] and [set_personality]. *)
Definition reset (self : t) (w : World) : World * t :=
  let '(w, b) := Chatbot.reset (base self) w in (w, set_base b self).

Definition set_personality (self : t) (personality : string) (w : World)
    : World * t :=
  let '(w, b) := Chatbot.set_personality (base self) personality w in
  (w, set_base b self).

(** The dictionary [_detect_mood_shift] returns. *)
Record MoodShift : Type := {
  direction : string;
  from : string;
  to : string;
}.

(** [mood_values.get(label, 0)] *)
Definition mood_values (label : string) : Z :=
  if bool_decide (label = "positive") then 1
  else if bool_decide (label = "neutral") then 0
  else if bool_decide (label = "negative") then (-1)
  else 0.

(** [SmartChatbot._detect_mood_shift] *)
Definition _detect_mood_shift (self : t) : option MoodShift :=
  if (length (previous_moods self) <? mood_shift_threshold self)%nat then None
  else
    let recent := last_items (mood_shift_threshold self) (previous_moods self) in
    (* Check if there's a consistent shift *)
    if (size (list_to_set recent : gset string) =? 1)%nat then None
    else if (2 <=? length recent)%nat then
      match item_from_end 2 recent, item_from_end 1 recent with
      | Some prev, Some curr =>
          let prev_val := mood_values prev in
          let curr_val := mood_values curr in
          if (prev_val <? curr_val)%Z then
            Some {| direction := "improving"; from := prev; to := curr |}
          else if (curr_val <? prev_val)%Z then
            Some {| direction := "declining"; from := prev; to := curr |}
          else None
      | _, _ => None
      end
    else None.

(** The dictionary [SmartChatbot.chat] returns: the base result and the
    detected shift.  (Its entry [ui_hints] is a table lookup on the
    sentiment dictionary that reads and writes no attribute; it is not part
    of this model.) *)
Record ChatResult : Type := {
  base_result : Chatbot.ChatResult;
  mood_shift_detected : option MoodShift;
}.

(** [SmartChatbot.chat].  [result["sentiment"]["sentiment"]] raises
    [KeyError] on an absent key. *)
Definition chat (self : t) (user_message : string) (w : World)
    : World * t * outcome ChatResult :=
  match Chatbot.chat (base self) user_message w with
  | (w, b, Raise e) => (w, set_base b self, Raise e)
  | (w, b, Return result) =>
      let self := set_base b self in
      match SentimentDict.sentiment (Chatbot.sentiment result) with
      | None => (w, self, Raise (Error "KeyError: 'sentiment'"))
      | Some label =>
          (* Track mood for shift detection *)
          let self := set_previous_moods (previous_moods self ++ [label]) self in
          (* Detect mood shifts *)
          let mood_shift := _detect_mood_shift self in
          (w, self,
           Return {| base_result := result; mood_shift_detected := mood_shift |})
      end
  end.

End WithExternals.
End SmartChatbot.

(** The two shifts the detector reports. *)
Definition improving (a b : string) : SmartChatbot.MoodShift :=
  {| SmartChatbot.direction := "improving";
     SmartChatbot.from := a; SmartChatbot.to := b |}.

Definition declining (a b : string) : SmartChatbot.MoodShift :=
  {| SmartChatbot.direction := "declining";
     SmartChatbot.from := a; SmartChatbot.to := b |}.

(** ** More strings of the interpreter *)

(** The line feed of ["\n"]. *)
Definition nl : string := String (ascii_of_nat 10) EmptyString.

(** [s * n] *)
Definition str_repeat (s : string) (n : nat) : string :=
  String.concat "" (replicate n s).

(** [sep.join(l)] *)
Definition join (sep : string) (l : list string) : string :=
  String.concat sep l.

Definition upper (a : ascii) : ascii :=
  let n := nat_of_ascii a in
  if ((97 <=? n) && (n <=? 122))%nat then ascii_of_nat (n - 32) else a.

Definition lower (a : ascii) : ascii :=
  let n := nat_of_ascii a in
  if ((65 <=? n) && (n <=? 90))%nat then ascii_of_nat (n + 32) else a.

Fixpoint str_map (f : ascii -> ascii) (s : string) : string :=
  match s with
  | EmptyString => EmptyString
  | String a s' => String (f a) (str_map f s')
  end.

(** Whether every character of the text is an ASCII one. *)
Fixpoint is_ascii (s : string) : bool :=
  match s with
  | EmptyString => true
  | String a s' => (nat_of_ascii a <? 128)%nat && is_ascii s'
  end.

(** Whether the byte continues a UTF-8 sequence (10xxxxxx). *)
Definition continues (a : ascii) : bool :=
  let n := nat_of_ascii a in
  ((128 <=? n) && (n <? 192))%nat.

(** The characters of a text, each as a text: a byte that continues a
    sequence goes with the byte before it. *)
Fixpoint characters (s : string) : list string :=
  match s with
  | EmptyString => []
  | String a s' =>
      match characters s' with
      | String b c :: cs =>
          if continues b then String a (String b c) :: cs
          else String a EmptyString :: String b c :: cs
      | cs => String a EmptyString :: cs
      end
  end.

(** [iter(v)]: the items of a list, the characters of a text, the keys of a
    dictionary; the other values raise [TypeError]. *)
Definition iterate (v : value) : outcome (list value) :=
  match v with
  | VList items => Return items
  | VStr s => Return (VStr <$> characters s)
  | VDict entries => Return ((fun entry => VStr entry.1) <$> entries)
  | _ => Raise (Error ("'" ++ type_name v ++ "' object is not iterable"))
  end.

(** The check [str.join] makes of its items, in order: the first item that is
    no text raises [TypeError]. *)
Fixpoint texts_from (i : nat) (items : list value) : outcome (list string) :=
  match items with
  | [] => Return []
  | VStr s :: items' =>
      match texts_from (S i) items' with
      | Return texts => Return (s :: texts)
      | Raise e => Raise e
      end
  | v :: _ =>
      Raise (Error ("sequence item " ++ pretty i ++ ": expected str instance, "
                    ++ type_name v ++ " found"))
  end.

(** [sep.join(v)] for a value [v] *)
Definition join_value (sep : string) (v : value) : outcome string :=
  match iterate v with
  | Return items =>
      match texts_from 0 items with
      | Return texts => Return (join sep texts)
      | Raise e => Raise e
      end
  | Raise _ => Raise (Error "can only join an iterable")
  end.

Section Interpreter.
Context `{Externals}.

(** [str.capitalize()]: the first character in upper case, the others in
    lower case; written out for ASCII texts. *)
Definition capitalize (s : string) : string :=
  if is_ascii s then
    match s with
    | EmptyString => EmptyString
    | String a s' => String (upper a) (str_map lower s')
    end
  else capitalize_unicode s.

(** How an f-string prints a value, [format(v, "")]: a text as it is, [None],
    the booleans and the integers by name and in decimal, the others by their
    [repr]. *)
Definition format_value (v : value) : string :=
  match v with
  | VStr s => s
  | VNone => "None"
  | VBool true => "True"
  | VBool false => "False"
  | VInt n => pretty n
  | _ => repr v
  end.

End Interpreter.

(** [float(n)] for the length of a list (below [2^63]). *)
Definition float_of_nat (n : nat) : float :=
  PrimFloat.of_uint63 (Uint63.of_Z (Z.of_nat n)).

(** The integer nearest to [n / 2^k], ties to the even one. *)
Definition round_half_even_shift (n : Z) (k : Z) : Z :=
  let d := (2 ^ k)%Z in
  let q := (n / d)%Z in
  let r := (n mod d)%Z in
  match (2 * r ?= d)%Z with
  | Lt => q
  | Gt => (q + 1)%Z
  | Eq => if Z.even q then q else (q + 1)%Z
  end.

(** [format(x, ".1%")]: the interpreter multiplies by 100 in binary64, prints
    the product with one correctly rounded decimal and appends the percent
    sign. *)
Definition format_percent (x : float) : string :=
  match Prim2SF (PrimFloat.mul x 100%float) with
  | S754_nan => "nan%"
  | S754_infinity s => (if s then "-inf%" else "inf%")
  | S754_zero s => (if s then "-0.0%" else "0.0%")
  | S754_finite s m e =>
      let tenths :=
        if (0 <=? e)%Z then (Z.pos m * 10 * 2 ^ e)%Z
        else round_half_even_shift (Z.pos m * 10) (- e) in
      (if s then "-" else "") ++
      pretty (tenths / 10)%Z ++ "." ++ pretty (tenths mod 10)%Z ++ "%"
  end.

(** [needle in s] *)
Definition mentions (needle s : string) : bool :=
  match String.index 0 needle s with
  | Some _ => true
  | None => false
  end.

(** ** Dictionaries used as counters *)

(** A [dict] from labels to counts, in insertion order. *)
Abbreviation counter := (list (string * nat)).

(** [d.get(key, 0)] *)
Fixpoint counter_get (key : string) (d : counter) : nat :=
  match d with
  | [] => 0
  | (k, c) :: d' => if bool_decide (k = key) then c else counter_get key d'
  end.

(** [d[key] = value]: an existing key keeps its place, a new one goes last. *)
Fixpoint counter_set (key : string) (value : nat) (d : counter) : counter :=
  match d with
  | [] => [(key, value)]
  | (k, c) :: d' =>
      if bool_decide (k = key) then (k, value) :: d'
      else (k, c) :: counter_set key value d'
  end.

(** [d[label] = d.get(label, 0) + 1] *)
Definition count_label (d : counter) (label : string) : counter :=
  counter_set label (counter_get label d + 1) d.

(** The loop of [max(d, key=d.get)] over the keys that remain: the candidate
    changes only for a strictly greater count. *)
Fixpoint max_from (best : string) (best_count : nat) (d : counter) : string :=
  match d with
  | [] => best
  | (k, c) :: d' =>
      if (best_count <? c)%nat then max_from k c d' else max_from best best_count d'
  end.

(** [max(d, key=d.get)]; it raises [ValueError] on an empty dictionary
    ([None] here). *)
Definition max_key (d : counter) : option string :=
  match d with
  | [] => None
  | (k, c) :: d' => Some (max_from k c d')
  end.

(** [sorted(d.items(), key=lambda x: -x[1])]: by decreasing count, items of
    equal count in the order of the dictionary (the sort is stable). *)
Fixpoint insert_by_count (x : string * nat) (l : list (string * nat))
    : list (string * nat) :=
  match l with
  | [] => [x]
  | y :: l' =>
      if (x.2 <? y.2)%nat then y :: insert_by_count x l' else x :: y :: l'
  end.

Definition sorted_by_count_desc (d : counter) : list (string * nat) :=
  foldr insert_by_count [] d.

(** The number of times a label occurs in a list of labels. *)
Definition occurrences (label : string) (labels : list string) : nat :=
  length (filter (fun l => l = label) labels).

(** [k] is the first key of greatest count in the iteration order of [d]:
    no key has a greater count, and the keys before it have smaller ones. *)
Definition first_maximum (d : counter) (k : string) : Prop :=
  exists (i c : nat),
    d !! i = Some (k, c) /\
    forall (j : nat) (k' : string) (c' : nat),
      d !! j = Some (k', c') -> (c' <= c)%nat /\ ((j < i)%nat -> (c' < c)%nat).

(** The arithmetic mean in binary64: the sum from the left, starting at zero,
    divided by the number of terms. *)
Definition mean (xs : list float) : float :=
  PrimFloat.div (foldl PrimFloat.add 0%float xs) (float_of_nat (length xs)).

(** ** [ConversationAnalytics] *)

(** The dictionary [_calculate_statistics] returns: four keys for an empty
    history, six otherwise. *)
Module StatsDict.

Record t : Type := Build {
  total_messages : option nat;
  sentiment_distribution : option counter;
  emotion_distribution : option counter;
  average_confidence : option float;
  dominant_sentiment : option string;
  dominant_emotion : option string;
}.

End StatsDict.

(** The dictionary [get_full_report] returns, read with [report.get]. *)
Module Report.

Record t : Type := Build {
  summary : option SummaryDict.t;
  trends : option TrendDict.t;
  keywords : option KeywordsDict.t;
  statistics : option StatsDict.t;
  mood_graph : option string;
  emotion_profile : option string;
}.

End Report.

Module TrendData.

Record t : Type := Build {
  trend : string;
  direction : string;
  mood_shifts : list string;
  emotional_peaks : list string;
  analysis : string;
  prediction : string;
}.

Definition to_dict (self : t) : TrendDict.t :=
  {| TrendDict.trend := Some (trend self);
     TrendDict.direction := Some (direction self);
     TrendDict.mood_shifts := Some (mood_shifts self);
     TrendDict.emotional_peaks := Some (emotional_peaks self);
     TrendDict.analysis := Some (analysis self);
     TrendDict.prediction := Some (prediction self) |}.

End TrendData.

Module ConversationAnalytics.

(** The state of the loop of [_calculate_statistics]. *)
Record tally : Type := {
  sentiment_dist : counter;
  emotion_dist : counter;
  total_confidence : float;
}.

(** [item.get("sentiment", "neutral")], [item.get("emotion", "neutral")] and
    [float(item.get("confidence", 0.5))] *)
Definition sentiment_of (item : SentimentDict.t) : string :=
  default "neutral" (SentimentDict.sentiment item).

Definition emotion_of (item : SentimentDict.t) : string :=
  default "neutral" (SentimentDict.emotion item).

Definition confidence_of (item : SentimentDict.t) : float :=
  default 0.5%float (SentimentDict.confidence item).

(** One iteration of the loop. *)
Definition count_item (acc : tally) (item : SentimentDict.t) : tally :=
  let sentiment := sentiment_of item in
  let sentiment_dist := count_label (sentiment_dist acc) sentiment in
  let emotion := emotion_of item in
  let emotion_dist := count_label (emotion_dist acc) emotion in
  {| sentiment_dist := sentiment_dist;
     emotion_dist := emotion_dist;
     total_confidence :=
       PrimFloat.add (total_confidence acc) (confidence_of item) |}.

(** [max(d, key=d.get) if d else "neutral"] *)
Definition dominant (d : counter) : string :=
  default "neutral" (max_key d).

(** [ConversationAnalytics._calculate_statistics] *)
Definition _calculate_statistics (sentiment_history : list SentimentDict.t)
    : StatsDict.t :=
  match sentiment_history with
  | [] =>
      {| StatsDict.total_messages := Some 0%nat;
         StatsDict.sentiment_distribution := Some [];
         StatsDict.emotion_distribution := Some [];
         StatsDict.average_confidence := Some 0%float;
         StatsDict.dominant_sentiment := None;
         StatsDict.dominant_emotion := None |}
  | _ :: _ =>
      let acc :=
        foldl count_item
          {| sentiment_dist := []; emotion_dist := [];
             total_confidence := 0%float |}
          sentiment_history in
      {| StatsDict.total_messages := Some (length sentiment_history);
         StatsDict.sentiment_distribution := Some (sentiment_dist acc);
         StatsDict.emotion_distribution := Some (emotion_dist acc);
         StatsDict.average_confidence :=
           Some (PrimFloat.div (total_confidence acc)
                   (float_of_nat (length sentiment_history)));
         StatsDict.dominant_sentiment := Some (dominant (sentiment_dist acc));
         StatsDict.dominant_emotion := Some (dominant (emotion_dist acc)) |}
  end.

Section WithExternals.
Context `{Externals}.

(** A call that reaches the service: it returns or raises, and leaves the
    world changed either way. *)
Definition call (A : Type) : Type := World -> World * outcome A.

Definition ret {A} (a : A) : call A := fun w => (w, Return a).

Definition bind {A B} (c : call A) (k : A -> call B) : call B :=
  fun w =>
    match c w with
    | (w, Return a) => k a w
    | (w, Raise e) => (w, Raise e)
    end.

Notation "x <- c ;; k" := (bind c (fun x => k))
  (at level 100, c at next level, right associativity).

(** [ConversationAnalytics.analyze_trends] *)
Definition analyze_trends (sentiment_history : list SentimentDict.t)
    : call TrendData.t :=
  result <- generate_trend_analysis sentiment_history ;;
  ret {| TrendData.trend := default "stable" (TrendDict.trend result);
         TrendData.direction := default "neutral" (TrendDict.direction result);
         TrendData.mood_shifts := default [] (TrendDict.mood_shifts result);
         TrendData.emotional_peaks := default [] (TrendDict.emotional_peaks result);
         TrendData.analysis :=
           default "No analysis available." (TrendDict.analysis result);
         TrendData.prediction :=
           default "Unable to predict." (TrendDict.prediction result) |}.

(** [ConversationAnalytics.get_full_report] *)
Definition get_full_report (conversation_history : list MessageDict.t)
    (sentiment_history : list SentimentDict.t) : call Report.t :=
  trends <- analyze_trends sentiment_history ;;
  keywords <- extract_keywords conversation_history ;;
  summary <- summarize_conversation conversation_history ;;
  mood_graph <- generate_ascii_mood_graph sentiment_history ;;
  emotion_profile <- generate_emotion_profile sentiment_history ;;
  let stats := _calculate_statistics sentiment_history in
  ret {| Report.summary := Some summary;
         Report.trends := Some (TrendData.to_dict trends);
         Report.keywords := Some keywords;
         Report.statistics := Some stats;
         Report.mood_graph := Some mood_graph;
         Report.emotion_profile := Some emotion_profile |}.

End WithExternals.
End ConversationAnalytics.

(** ** [ReportGenerator] *)

Module ReportGenerator.

(** The empty dictionary that stands in for an absent section. *)
Definition no_summary : SummaryDict.t :=
  {| SummaryDict.summary := None; SummaryDict.overall_tone := None;
     SummaryDict.user_mood_journey := None; SummaryDict.key_points := None |}.

Definition no_trends : TrendDict.t :=
  {| TrendDict.trend := None; TrendDict.direction := None;
     TrendDict.mood_shifts := None; TrendDict.emotional_peaks := None;
     TrendDict.analysis := None; TrendDict.prediction := None |}.

Definition no_keywords : KeywordsDict.t :=
  {| KeywordsDict.keywords := None; KeywordsDict.themes := None;
     KeywordsDict.topics_of_interest := None |}.

Definition no_statistics : StatsDict.t :=
  {| StatsDict.total_messages := None;
     StatsDict.sentiment_distribution := None;
     StatsDict.emotion_distribution := None;
     StatsDict.average_confidence := None;
     StatsDict.dominant_sentiment := None;
     StatsDict.dominant_emotion := None |}.

(** [d.get(key, [])] for a list of texts, and whether [d.get(key)] is true:
    present and not empty. *)
Definition items {A} (o : option (list A)) : list A := default [] o.

Definition nonempty {A} (o : option (list A)) : bool :=
  match o with
  | Some (_ :: _) => true
  | _ => false
  end.

Section WithInterpreter.
Context `{Externals}.

(** The heading and the bullets of [key_points], when [summary.get] of the key
    is true: the loop iterates over the value and prints each item. *)
Definition bullets (heading bullet : string) (o : option value)
    : outcome (list string) :=
  if truthy o then
    and_then (iterate (default (VList []) o)) (fun points =>
    Return ((nl ++ heading) :: ((fun x => bullet ++ format_value x) <$> points)))
  else Return [].

(** The heading and the bullets of [mood_shifts], a list of texts. *)
Definition text_bullets (heading bullet : string) (o : option (list string))
    : list string :=
  if nonempty o then (nl ++ heading) :: ((fun x => bullet ++ x) <$> items o)
  else [].

(** A line joining the items, when [keywords.get] of the key is true. *)
Definition listing (label : string) (o : option value) : outcome (list string) :=
  if truthy o then
    and_then (join_value ", " (default (VList []) o)) (fun text =>
    Return [label ++ text])
  else Return [].

Definition count_line (item : string * nat) : string :=
  "  " ++ capitalize item.1 ++ ": " ++ pretty item.2.

(** The list [lines] of [generate_text_report] at its [return], given the
    lines of the four statements that can raise. *)
Definition lines_around (report : Report.t)
    (key_points keyword_line theme_line topic_line : list string) : list string :=
  let summary := default no_summary (Report.summary report) in
  let trends := default no_trends (Report.trends report) in
  let stats := default no_statistics (Report.statistics report) in
  let sentiment_dist := default [] (StatsDict.sentiment_distribution stats) in
  let emotion_dist := default [] (StatsDict.emotion_distribution stats) in
  [ str_repeat "=" 60;
    "           CONVERSATION ANALYTICS REPORT";
    str_repeat "=" 60;
    "";
    (* Summary Section *)
    "📊 CONVERSATION SUMMARY";
    str_repeat "-" 40;
    "Summary: " ++
      format_value (default (VStr "N/A") (SummaryDict.summary summary));
    "Overall Tone: " ++
      format_value (default (VStr "N/A") (SummaryDict.overall_tone summary));
    "Mood Journey: " ++
      format_value (default (VStr "N/A") (SummaryDict.user_mood_journey summary)) ]
  ++ key_points
  ++ [ "";
    (* Trends Section *)
    "📈 SENTIMENT TRENDS";
    str_repeat "-" 40;
    "Trend: " ++ default "N/A" (TrendDict.trend trends);
    "Direction: " ++ default "N/A" (TrendDict.direction trends);
    "Analysis: " ++ default "N/A" (TrendDict.analysis trends);
    "Prediction: " ++ default "N/A" (TrendDict.prediction trends) ]
  ++ text_bullets "Mood Shifts:" "  ↔ " (TrendDict.mood_shifts trends)
  ++ [ "";
    (* Keywords Section *)
    "🔑 KEYWORDS & THEMES";
    str_repeat "-" 40 ]
  ++ keyword_line
  ++ theme_line
  ++ topic_line
  ++ [ "";
    (* Statistics Section *)
    "📉 STATISTICS";
    str_repeat "-" 40;
    "Total Messages Analyzed: " ++
      pretty (default 0%nat (StatsDict.total_messages stats));
    "Average Confidence: " ++
      format_percent (default 0%float (StatsDict.average_confidence stats));
    "Dominant Sentiment: " ++ default "N/A" (StatsDict.dominant_sentiment stats);
    "Dominant Emotion: " ++ default "N/A" (StatsDict.dominant_emotion stats) ]
  ++ (match sentiment_dist with
      | [] => []
      | _ :: _ =>
          (nl ++ "Sentiment Distribution:") :: (count_line <$> sentiment_dist)
      end)
  ++ (match emotion_dist with
      | [] => []
      | _ :: _ =>
          (nl ++ "Emotion Distribution:")
          :: (count_line <$> take 5 (sorted_by_count_desc emotion_dist))
      end)
  ++ [ "";
    (* Mood Graph Section *)
    "📊 MOOD VISUALIZATION";
    str_repeat "-" 40;
    default "No visualization available." (Report.mood_graph report);
    "";
    (* Emotion Profile Section *)
    "🎭 EMOTION PROFILE";
    str_repeat "-" 40;
    default "No profile available." (Report.emotion_profile report);
    "";
    str_repeat "=" 60;
    "           END OF REPORT";
    str_repeat "=" 60 ].

(** The list [lines] of [generate_text_report] at its [return], or the
    exception of the first statement that raised: the loop over the key
    points, then the three joins. *)
Definition report_lines (report : Report.t) : outcome (list string) :=
  let summary := default no_summary (Report.summary report) in
  let keywords := default no_keywords (Report.keywords report) in
  and_then (bullets "Key Points:" "  • " (SummaryDict.key_points summary))
    (fun key_points =>
  and_then (listing "Keywords: " (KeywordsDict.keywords keywords))
    (fun keyword_line =>
  and_then (listing "Themes: " (KeywordsDict.themes keywords))
    (fun theme_line =>
  and_then (listing "Topics of Interest: " (KeywordsDict.topics_of_interest keywords))
    (fun topic_line =>
  Return (lines_around report key_points keyword_line theme_line topic_line))))).

(** The text [generate_text_report] builds from the report it obtained. *)
Definition render (report : Report.t) : outcome string :=
  and_then (report_lines report) (fun lines => Return (join nl lines)).

End WithInterpreter.

(** The report with no key at all. *)
Definition no_report : Report.t :=
  {| Report.summary := None; Report.trends := None; Report.keywords := None;
     Report.statistics := None; Report.mood_graph := None;
     Report.emotion_profile := None |}.

Section WithExternals.
Context `{Externals}.

(** [ReportGenerator.generate_text_report] *)
Definition generate_text_report (conversation_history : list MessageDict.t)
    (sentiment_history : list SentimentDict.t)
    : ConversationAnalytics.call string :=
  ConversationAnalytics.bind
    (ConversationAnalytics.get_full_report conversation_history sentiment_history)
    (fun report w => (w, render report)).

(** [ReportGenerator.generate_json_report] *)
Definition generate_json_report (conversation_history : list MessageDict.t)
    (sentiment_history : list SentimentDict.t)
    : ConversationAnalytics.call Report.t :=
  ConversationAnalytics.get_full_report conversation_history sentiment_history.

End WithExternals.
End ReportGenerator.

(** ** Sessions: what a caller does with one agent *)

Module Session.

(** The calls of the request layer that change a [Chatbot]. *)
Inductive op : Type :=
  | Chat (user_message : string)
  | Reset
  | SetPersonality (personality : string).

(** The completed turns since the agent was constructed or last reset. *)
Definition count_turn (n : nat) (o : op) : nat :=
  match o with
  | Chat _ => S n
  | Reset => 0
  | SetPersonality _ => n
  end.

Definition turns_since_reset (ops : list op) : nat :=
  foldl count_turn 0 ops.

(** The roles of a history that holds [n] completed turns. *)
Definition roles_after (n : nat) : list ConversationRole :=
  (SYSTEM :: concat (replicate n [USER; ASSISTANT]))%list.

Section WithExternals.
Context `{Externals}.

Definition step (self : Chatbot.t) (o : op) (w : World)
    : World * Chatbot.t * outcome unit :=
  match o with
  | Chat user_message =>
      match Chatbot.chat self user_message w with
      | (w, self, Return _) => (w, self, Return ())
      | (w, self, Raise e) => (w, self, Raise e)
      end
  | Reset =>
      let '(w, self) := Chatbot.reset self w in (w, self, Return ())
  | SetPersonality personality =>
      let '(w, self) := Chatbot.set_personality self personality w in
      (w, self, Return ())
  end.

(** The calls in order; the first exception ends the run. *)
Fixpoint run (ops : list op) (self : Chatbot.t) (w : World)
    : World * Chatbot.t * outcome unit :=
  match ops with
  | [] => (w, self, Return ())
  | o :: ops' =>
      match step self o w with
      | (w, self, Return _) => run ops' self w
      | (w, self, Raise e) => (w, self, Raise e)
      end
  end.

(** What a turn leaves behind whether or not the reply came: the state follows
    the new sentiment result, the analyzer has recorded it, the prompt is
    untouched. *)
Definition turn_recorded (self self' : Chatbot.t) (result : SentimentResult.t)
    : Prop :=
  Chatbot.state self' = ConversationState.update (Chatbot.state self) result /\
  SentimentAnalyzer.history (Chatbot.sentiment_analyzer self') =
    (SentimentAnalyzer.history (Chatbot.sentiment_analyzer self) ++ [result])%list /\
  Chatbot.system_prompt self' = Chatbot.system_prompt self.

(** What the analytics and statistics calls of an agent return. *)
Record observation : Type := {
  seen_statistics : Chatbot.Statistics;
  seen_history : list MessageDict.t;
  seen_sentiment_history : list SentimentDict.t;
  seen_calculated : StatsDict.t;
}.

Definition observe (self : Chatbot.t) : observation :=
  {| seen_statistics := Chatbot.get_statistics self;
     seen_history := Chatbot.get_history self;
     seen_sentiment_history := Chatbot.get_sentiment_history self;
     seen_calculated :=
       ConversationAnalytics._calculate_statistics
         (Chatbot.get_sentiment_history self) |}.

End WithExternals.
End Session.

(** ** A scripted service, for running the model on concrete inputs *)

Module Scripted.

(** The user's text is its own sentiment label; the intensity is medium. *)
Definition classify_text (text : string) : SentimentResult.t :=
  {| SentimentResult.sentiment := text;
     SentimentResult.emotion := "neutral";
     SentimentResult.emotion_intensity := Some "medium";
     SentimentResult.confidence := 0.5%float;
     SentimentResult.reasoning := "scripted" |}.

(** The keywords the scripted service answers with: none for an empty
    conversation, and otherwise the number of messages where texts are
    expected. *)
Definition counted_keywords (conversation_history : list MessageDict.t)
    : KeywordsDict.t :=
  match conversation_history with
  | [] => ReportGenerator.no_keywords
  | _ :: _ =>
      {| KeywordsDict.keywords :=
           Some (VList [VInt (Z.of_nat (length conversation_history))]);
         KeywordsDict.themes := None;
         KeywordsDict.topics_of_interest := None |}
  end.

(** The world is a clock that ticks at each reading.  Reply generation
    raises on the message ["fail"] and answers any other one; the analytics
    calls answer with empty dictionaries and empty texts, but for the
    keywords.  The two tables of the interpreter are stand-ins: the examples
    print texts and integers and capitalize ASCII labels. *)
#[local] Instance externals : Externals := {|
  World := nat;
  datetime := nat;
  datetime_now := fun w => (S w, w);
  isoformat := pretty;
  classify := fun text w => (w, classify_text text);
  Aggregates := unit;
  summary_aggregates := fun _ => ();
  generate_reply := fun user_message _ _ _ w =>
    if bool_decide (user_message = "fail")
    then (w, Raise (Error "service unavailable"))
    else (w, Return (" You said: " ++ user_message ++ " "));
  generate_trend_analysis := fun _ w => (w, Return ReportGenerator.no_trends);
  extract_keywords := fun conversation_history w =>
    (w, Return (counted_keywords conversation_history));
  summarize_conversation := fun _ w => (w, Return ReportGenerator.no_summary);
  generate_ascii_mood_graph := fun _ w => (w, Return "");
  generate_emotion_profile := fun _ w => (w, Return "");
  repr := fun v => "<" ++ type_name v ++ ">";
  capitalize_unicode := fun s => s;
|}.

(** A fresh [Chatbot] with the default prompt, and a fresh [SmartChatbot]. *)
Definition fresh : Chatbot.t := (Chatbot.init None 0%nat).2.

Definition fresh_smart : SmartChatbot.t := (SmartChatbot.init 0%nat).2.

(** A session: two turns around a change of personality, a reset, one more
    turn. *)
Definition script : list Session.op :=
  [ Session.Chat "positive";
    Session.SetPersonality "You are a pirate.";
    Session.Chat "negative";
    Session.Reset;
    Session.Chat "neutral" ].

(** The agent in the middle of that session, before the reset. *)
Definition talkative : Chatbot.t :=
  (Session.run (take 3 script) fresh 1%nat).1.2.

(** A [SmartChatbot] after one turn classified as negative. *)
Definition gloomy : SmartChatbot.t :=
  (SmartChatbot.chat fresh_smart "negative" 1%nat).1.2.

(** Four turns in which negative and positive occur twice each, negative
    first. *)
Definition tied_turns : list SentimentDict.t :=
  [ {| SentimentDict.sentiment := Some "negative"; SentimentDict.emotion := Some "sad";
       SentimentDict.emotion_intensity := None;
       SentimentDict.confidence := Some 0.5%float; SentimentDict.reasoning := None |};
    {| SentimentDict.sentiment := Some "positive"; SentimentDict.emotion := None;
       SentimentDict.emotion_intensity := None;
       SentimentDict.confidence := None; SentimentDict.reasoning := None |};
    {| SentimentDict.sentiment := Some "positive"; SentimentDict.emotion := Some "happy";
       SentimentDict.emotion_intensity := None;
       SentimentDict.confidence := Some 0.5%float; SentimentDict.reasoning := None |};
    {| SentimentDict.sentiment := Some "negative"; SentimentDict.emotion := Some "sad";
       SentimentDict.emotion_intensity := None;
       SentimentDict.confidence := Some 0.5%float; SentimentDict.reasoning := None |} ].

(** An agent with a detection window of 3 that recorded a negative and two
    positive turns. *)
Definition patient : SmartChatbot.t :=
  {| SmartChatbot.base := fresh;
     SmartChatbot.mood_shift_threshold := 3;
     SmartChatbot.previous_moods := ["negative"; "neutral"; "positive"] |}.

(** A conversation of one message, as [get_history] lists it. *)
Definition greeting : MessageDict.t :=
  {| MessageDict.role := "user";
     MessageDict.content := "hello";
     MessageDict.timestamp := "0";
     MessageDict.sentiment := None |}.

(** A sentiment item with the three keys the statistics read. *)
Definition item (sentiment emotion : string) (confidence : float)
    : SentimentDict.t :=
  {| SentimentDict.sentiment := Some sentiment;
     SentimentDict.emotion := Some emotion;
     SentimentDict.emotion_intensity := None;
     SentimentDict.confidence := Some confidence;
     SentimentDict.reasoning := None |}.

(** Two happy turns and a sad one. *)
Definition three_turns : list SentimentDict.t :=
  [ item "positive" "happy" 0.9%float;
    item "positive" "happy" 0.7%float;
    item "negative" "sad" 0.5%float ].

End Scripted.


(** ** Requests served one after the other *)

(** The request layer catches an exception of a call and keeps the agent, so
    the calls that follow act on the agent as the failed call left it. *)
Module Requests.

(** The texts of the [chat] calls since the construction or the last reset. *)
Definition record_text (texts : list string) (o : Session.op) : list string :=
  match o with
  | Session.Chat user_message => (texts ++ [user_message])%list
  | Session.Reset => []
  | Session.SetPersonality _ => texts
  end.

Definition texts_since_reset (ops : list Session.op) : list string :=
  foldl record_text [] ops.

Section WithExternals.
Context `{Externals}.

(** One call, its exception caught. *)
Definition serve (self : Chatbot.t) (o : Session.op) (w : World)
    : World * Chatbot.t :=
  let '(w, self, _) := Session.step self o w in (w, self).

Fixpoint serve_all (ops : list Session.op) (self : Chatbot.t) (w : World)
    : World * Chatbot.t :=
  match ops with
  | [] => (w, self)
  | o :: ops' => let '(w, self) := serve self o w in serve_all ops' self w
  end.

(** What a turn leaves in the history: the user message with its sentiment,
    followed by the reply unless its generation raised. *)
Definition is_turn (t : list Message.t) : Prop :=
  match t with
  | [user] =>
      Message.role user = USER /\ is_Some (Message.sentiment user)
  | [user; assistant] =>
      Message.role user = USER /\ is_Some (Message.sentiment user) /\
      Message.role assistant = ASSISTANT /\ Message.sentiment assistant = None
  | _ => False
  end.

(** The shape of an agent that calls of the request layer have acted on. *)
Record consistent (self : Chatbot.t) : Prop := {
  (** the history is the system message, carrying the stored prompt, followed
      by turns *)
  seeded :
    exists (system : Message.t) (turns : list (list Message.t)),
      Chatbot.history self = (system :: concat turns)%list /\
      Message.role system = SYSTEM /\
      Message.content system = Chatbot.system_prompt self /\
      Message.sentiment system = None /\
      Forall is_turn turns;
  (** the sentiments attached to the messages are the sentiment history *)
  sentiments_attached :
    omap Message.sentiment (Chatbot.history self) =
    SentimentAnalyzer.history (Chatbot.sentiment_analyzer self);
  (** the state is the initial one advanced by each result in turn *)
  state_follows :
    Chatbot.state self =
    foldl ConversationState.update ConversationState.init
      (SentimentAnalyzer.history (Chatbot.sentiment_analyzer self));
}.

End WithExternals.
End Requests.


(** ** [SmartChatbot._generate_ui_hints] *)

Module UiHints.

(** [table.get(key, fallback)] for a table written as a dictionary display. *)
Fixpoint table_get {A} (key : string) (table : list (string * A)) (fallback : A) : A :=
  match table with
  | [] => fallback
  | (k, v) :: table' =>
      if bool_decide (k = key) then v else table_get key table' fallback
  end.

Definition color_map : list (string * string) :=
  [ ("happy", "#4CAF50");
    ("excited", "#FF9800");
    ("sad", "#2196F3");
    ("angry", "#F44336");
    ("confused", "#9C27B0");
    ("anxious", "#607D8B");
    ("neutral", "#9E9E9E");
    ("frustrated", "#E91E63");
    ("hopeful", "#00BCD4");
    ("surprised", "#FFEB3B") ].

(** The icons, as the bytes of the source file. *)
Definition icon_map : list (string * string) :=
  [ ("happy", "ğŸ˜Š");
    ("excited", "ğŸ‰");
    ("sad", "ğŸ˜¢");
    ("angry", "ğŸ˜ ");
    ("confused", "ğŸ˜•");
    ("anxious", "ğŸ˜°");
    ("neutral", "ğŸ˜");
    ("frustrated", "ğŸ˜¤");
    ("hopeful", "ğŸŒŸ");
    ("surprised", "ğŸ˜®") ].

Definition intensity_map : list (string * Z) :=
  [ ("low", 1%Z); ("medium", 2%Z); ("high", 3%Z) ].

(** The dictionary [_generate_ui_hints] returns. *)
Record t : Type := Build {
  suggested_color : string;
  emotion_icon : string;
  intensity_level : Z;
}.

(** [SmartChatbot._generate_ui_hints].  An [emotion_intensity] that is [None]
    is looked up as [None], which is no key of the table; like the fallback
    label ["medium"] it gives the level 2. *)
Definition _generate_ui_hints (sentiment : SentimentDict.t) : t :=
  let emotion := default "neutral" (SentimentDict.emotion sentiment) in
  let intensity := default "medium" (SentimentDict.emotion_intensity sentiment) in
  {| suggested_color := table_get emotion color_map "#9E9E9E";
     emotion_icon := table_get emotion icon_map "ğŸ˜";
     intensity_level := table_get intensity intensity_map 2%Z |}.

End UiHints.


(** ** Labels in order of first occurrence *)

(** The label is added at the end unless it is there already. *)
Definition note_label (seen : list string) (label : string) : list string :=
  if bool_decide (label ∈ seen) then seen else (seen ++ [label])%list.

(** The distinct labels of a list, each at the place of its first
    occurrence. *)
Definition distinct_in_order (labels : list string) : list string :=
  foldl note_label [] labels.


(** ** [create_simple_ascii_graph] *)

Module AsciiGraph.

(** [max(values)] and [min(values)] on a non-empty list: the candidate changes
    for an item that compares strictly greater (smaller). *)
Definition py_max (first : float) (others : list float) : float :=
  foldl (fun m v => if PrimFloat.ltb m v then v else m) first others.

Definition py_min (first : float) (others : list float) : float :=
  foldl (fun m v => if PrimFloat.ltb v m then v else m) first others.

(** [a / b] on floats raises [ZeroDivisionError] for a zero divisor. *)
Definition float_truediv (a b : float) : outcome float :=
  if PrimFloat.eqb b 0%float then Raise (Error "float division by zero")
  else Return (PrimFloat.div a b).

(** [float(n)] for an integer (of magnitude below [2^53]). *)
Definition float_of_Z (n : Z) : float :=
  if (n <? 0)%Z then PrimFloat.opp (PrimFloat.of_uint63 (Uint63.of_Z (- n)))
  else PrimFloat.of_uint63 (Uint63.of_Z n).

(** [a / b] on integers raises [ZeroDivisionError] for a zero divisor. *)
Definition int_truediv (a b : Z) : outcome float :=
  if (b =? 0)%Z then Raise (Error "division by zero")
  else Return (PrimFloat.div (float_of_Z a) (float_of_Z b)).

(** [[(v - min_val) / range_val for v in values]] *)
Fixpoint normalize (values : list float) (min_val range_val : float)
    : outcome (list float) :=
  match values with
  | [] => Return []
  | v :: values' =>
      match float_truediv (PrimFloat.sub v min_val) range_val with
      | Raise e => Raise e
      | Return n =>
          match normalize values' min_val range_val with
          | Raise e => Raise e
          | Return ns => Return (n :: ns)
          end
      end
  end.

(** [range(height, -1, -1)] *)
Definition rows (height : Z) : list Z := reverse (seqZ 0 (height + 1)).

(** The inner loop: one cell per value. *)
Definition draw_row (threshold : float) (normalized : list float) : string :=
  foldl (fun line val =>
           if PrimFloat.leb threshold val then (line ++ "█")%string
           else (line ++ " ")%string)
    "│" normalized.

(** The outer loop over the rows that remain. *)
Fixpoint draw_rows (remaining : list Z) (height : Z) (normalized : list float)
    : outcome (list string) :=
  match remaining with
  | [] => Return []
  | row :: remaining' =>
      match int_truediv row height with
      | Raise e => Raise e
      | Return threshold =>
          match draw_rows remaining' height normalized with
          | Raise e => Raise e
          | Return lines => Return (draw_row threshold normalized :: lines)
          end
      end
  end.

(** The x-axis. *)
Definition axis (values : list float) : string :=
  ("└" ++ str_repeat "─" (length values))%string.

(** [create_simple_ascii_graph] *)
Definition create_simple_ascii_graph (values : list float) (width height : Z)
    : outcome string :=
  match values with
  | [] => Return "No data to display."
  | first :: others =>
      let max_val :=
        if PrimFloat.ltb 0%float (py_max first others) then py_max first others
        else 1%float in
      let min_val :=
        if PrimFloat.ltb (py_min first others) max_val then py_min first others
        else 0%float in
      let range_val :=
        if negb (PrimFloat.eqb max_val min_val) then PrimFloat.sub max_val min_val
        else 1%float in
      match normalize values min_val range_val with
      | Raise e => Raise e
      | Return normalized =>
          match draw_rows (rows height) height normalized with
          | Raise e => Raise e
          | Return lines => Return (join nl (lines ++ [axis values])%list)
          end
      end
  end.

End AsciiGraph.


(** ** The delegating methods of [ConversationAnalytics] *)

Module Delegations.
Section WithExternals.
Context `{Externals}.

(** [ConversationAnalytics.extract_keywords] *)
Definition extract_keywords (conversation_history : list MessageDict.t)
    : ConversationAnalytics.call KeywordsDict.t :=
  extract_keywords conversation_history.

(** [ConversationAnalytics.get_summary] *)
Definition get_summary (conversation_history : list MessageDict.t)
    : ConversationAnalytics.call SummaryDict.t :=
  summarize_conversation conversation_history.

(** [ConversationAnalytics.generate_mood_graph] *)
Definition generate_mood_graph (sentiment_history : list SentimentDict.t)
    : ConversationAnalytics.call string :=
  generate_ascii_mood_graph sentiment_history.

(** [ConversationAnalytics.generate_emotion_profile] *)
Definition generate_emotion_profile (sentiment_history : list SentimentDict.t)
    : ConversationAnalytics.call string :=
  generate_emotion_profile sentiment_history.

End WithExternals.
End Delegations.

(** ** The request handlers of [web_app.py] *)

(** A handler is modelled on what it reads and writes: the [session_id] of
    the session cookie ([None] when the cookie has none), the JSON body, the
    dictionary [chatbot_instances] and the world.  An agent fetched from the
    dictionary is the stored object, so what a call does to it is stored
    again under its key. *)
Module WebApp.

(** What a handler answers: a status code with a JSON payload, or with the
    dictionary [{'error': text}]. *)
Inductive reply (A : Type) : Type :=
  | Json (status : nat) (payload : A)
  | ErrorJson (status : nat) (error : string).
Arguments Json {A} status payload.
Arguments ErrorJson {A} status error.

Definition status {A} (r : reply A) : nat :=
  match r with
  | Json status _ => status
  | ErrorJson status _ => status
  end.

(** [str(e)] *)
Definition exn_str (e : exn) : string :=
  match e with Error message => message end.

(** [session.get('session_id', 'default')] *)
Definition session_key (cookie : option string) : string :=
  default "default" cookie.

(** The text of [/graph] for a session without sentiment history. *)
Definition no_graph_yet : string :=
  "📊 No conversation data yet." ++ nl ++ nl ++
  "Start chatting to see your mood graph!" ++ nl ++ nl ++
  "The graph will show:" ++ nl ++
  "• Your emotional journey over time" ++ nl ++
  "• Sentiment trends (positive/neutral/negative)" ++ nl ++
  "• Visual representation of mood shifts".

(** [data.get('message', '')]: only a dictionary has the method [get]. *)
Definition get_message (data : value) : outcome value :=
  match data with
  | VDict entries => Return (default (VStr "") (dict_get "message" entries))
  | _ =>
      Raise (Error ("'" ++ type_name data ++ "' object has no attribute 'get'"))
  end.

(** [v.strip()]: only a text has the method [strip]. *)
Definition strip_value (v : value) : outcome string :=
  match v with
  | VStr s => Return (strip s)
  | _ =>
      Raise (Error ("'" ++ type_name v ++ "' object has no attribute 'strip'"))
  end.

(** The first two statements of the handler of [/chat]:
    [data = request.json] and [message = data.get('message', '').strip()]. *)
Definition message (body : outcome value) : outcome string :=
  and_then body (fun data => and_then (get_message data) strip_value).

Section WithExternals.
Context `{Externals}.

(** [get_chatbot] *)
Definition get_chatbot (session_id : string)
    (chatbot_instances : gmap string SmartChatbot.t) (w : World)
    : World * gmap string SmartChatbot.t * SmartChatbot.t :=
  match chatbot_instances !! session_id with
  | Some chatbot => (w, chatbot_instances, chatbot)
  | None =>
      let '(w, chatbot) := SmartChatbot.init w in
      (w, <[session_id := chatbot]> chatbot_instances, chatbot)
  end.

(** The payload of [/chat]. *)
Record ChatPayload : Type := {
  response : string;
  sentiment : SentimentDict.t;
  mood_shift : option SmartChatbot.MoodShift;
  ui_hints : UiHints.t;
  state : ConversationState.t;
}.

(** The handler of [/chat].  [body] is what [request.json] evaluates to: the
    decoded body, or the exception of a request without one.  The handler
    catches every exception and answers it with status 500.  The entry
    [ui_hints] of the result of [SmartChatbot.chat] is [_generate_ui_hints] of
    its entry [sentiment]. *)
Definition chat (cookie : option string) (body : outcome value)
    (chatbot_instances : gmap string SmartChatbot.t) (w : World)
    : World * gmap string SmartChatbot.t * reply ChatPayload :=
  match message body with
  | Raise e => (w, chatbot_instances, ErrorJson 500 (exn_str e))
  | Return message =>
      if bool_decide (message = "") then
        (w, chatbot_instances, ErrorJson 400 "Message cannot be empty")
      else
        let session_id := session_key cookie in
        let '(w, chatbot_instances, chatbot) :=
          get_chatbot session_id chatbot_instances w in
        match SmartChatbot.chat chatbot message w with
        | (w, chatbot, Return result) =>
            (w, <[session_id := chatbot]> chatbot_instances,
             Json 200
               {| response := Chatbot.response (SmartChatbot.base_result result);
                  sentiment := Chatbot.sentiment (SmartChatbot.base_result result);
                  mood_shift := SmartChatbot.mood_shift_detected result;
                  ui_hints :=
                    UiHints._generate_ui_hints
                      (Chatbot.sentiment (SmartChatbot.base_result result));
                  state := Chatbot.result_state (SmartChatbot.base_result result) |})
        | (w, chatbot, Raise e) =>
            (w, <[session_id := chatbot]> chatbot_instances,
             ErrorJson 500 (exn_str e))
        end
  end.

(** The handler of [/stats]. *)
Definition get_stats (cookie : option string)
    (chatbot_instances : gmap string SmartChatbot.t) (w : World)
    : World * gmap string SmartChatbot.t * reply Chatbot.Statistics :=
  let session_id := session_key cookie in
  let '(w, chatbot_instances, chatbot) :=
    get_chatbot session_id chatbot_instances w in
  (w, chatbot_instances, Json 200 (Chatbot.get_statistics (SmartChatbot.base chatbot))).

(** The handler of [/history]. *)
Definition get_history (cookie : option string)
    (chatbot_instances : gmap string SmartChatbot.t) (w : World)
    : World * gmap string SmartChatbot.t * reply (list MessageDict.t) :=
  let session_id := session_key cookie in
  let '(w, chatbot_instances, chatbot) :=
    get_chatbot session_id chatbot_instances w in
  (w, chatbot_instances, Json 200 (Chatbot.get_history (SmartChatbot.base chatbot))).

(** The handler of [/reset]; its payload is the fixed success message. *)
Definition reset_chat (cookie : option string)
    (chatbot_instances : gmap string SmartChatbot.t) (w : World)
    : World * gmap string SmartChatbot.t * reply string :=
  let session_id := session_key cookie in
  match chatbot_instances !! session_id with
  | Some chatbot =>
      let '(w, chatbot) := SmartChatbot.reset chatbot w in
      (w, <[session_id := chatbot]> chatbot_instances, Json 200 "Conversation reset")
  | None => (w, chatbot_instances, Json 200 "Conversation reset")
  end.

(** The handler of [/graph]: an exception is answered with status 200 too. *)
Definition get_graph (cookie : option string)
    (chatbot_instances : gmap string SmartChatbot.t) (w : World)
    : World * gmap string SmartChatbot.t * reply string :=
  let session_id := session_key cookie in
  let '(w, chatbot_instances, chatbot) :=
    get_chatbot session_id chatbot_instances w in
  let sentiment_history := Chatbot.get_sentiment_history (SmartChatbot.base chatbot) in
  match sentiment_history with
  | [] => (w, chatbot_instances, Json 200 no_graph_yet)
  | _ :: _ =>
      match Delegations.generate_mood_graph sentiment_history w with
      | (w, Return graph) => (w, chatbot_instances, Json 200 graph)
      | (w, Raise e) =>
          (w, chatbot_instances,
           Json 200
             ("Error generating graph: " ++ exn_str e ++ nl ++ nl ++
              "Please try again after sending a few messages."))
      end
  end.

(** The handler of [/profile]. *)
Definition get_profile (cookie : option string)
    (chatbot_instances : gmap string SmartChatbot.t) (w : World)
    : World * gmap string SmartChatbot.t * reply string :=
  let session_id := session_key cookie in
  let '(w, chatbot_instances, chatbot) :=
    get_chatbot session_id chatbot_instances w in
  let sentiment_history := Chatbot.get_sentiment_history (SmartChatbot.base chatbot) in
  match Delegations.generate_emotion_profile sentiment_history w with
  | (w, Return profile) => (w, chatbot_instances, Json 200 profile)
  | (w, Raise e) => (w, chatbot_instances, ErrorJson 500 (exn_str e))
  end.

(** The handler of [/trends]. *)
Definition get_trends (cookie : option string)
    (chatbot_instances : gmap string SmartChatbot.t) (w : World)
    : World * gmap string SmartChatbot.t * reply TrendDict.t :=
  let session_id := session_key cookie in
  let '(w, chatbot_instances, chatbot) :=
    get_chatbot session_id chatbot_instances w in
  let sentiment_history := Chatbot.get_sentiment_history (SmartChatbot.base chatbot) in
  match ConversationAnalytics.analyze_trends sentiment_history w with
  | (w, Return trends) => (w, chatbot_instances, Json 200 (TrendData.to_dict trends))
  | (w, Raise e) => (w, chatbot_instances, ErrorJson 500 (exn_str e))
  end.

(** The handler of [/report]. *)
Definition get_report (cookie : option string)
    (chatbot_instances : gmap string SmartChatbot.t) (w : World)
    : World * gmap string SmartChatbot.t * reply Report.t :=
  let session_id := session_key cookie in
  let '(w, chatbot_instances, chatbot) :=
    get_chatbot session_id chatbot_instances w in
  let conversation_history := Chatbot.get_history (SmartChatbot.base chatbot) in
  let sentiment_history := Chatbot.get_sentiment_history (SmartChatbot.base chatbot) in
  match ReportGenerator.generate_json_report conversation_history
          sentiment_history w with
  | (w, Return report) => (w, chatbot_instances, Json 200 report)
  | (w, Raise e) => (w, chatbot_instances, ErrorJson 500 (exn_str e))
  end.

End WithExternals.
End WebApp.


(** ** [Chatbot.get_conversation_summary] and [Chatbot.get_keywords] *)

(** The two methods call [summarize_conversation] and [extract_keywords] of
    the client with entries [{role, content}], not with the message
    dictionaries the analytics pass: the same two calls of the service, on
    entries of that shape. *)
Class TurnServices `{Externals} : Type := {
  summarize_turns :
    list (string * string) -> World -> World * outcome SummaryDict.t;
  keywords_of_turns :
    list (string * string) -> World -> World * outcome KeywordsDict.t;
}.

Module Summaries.
Section WithExternals.
Context `{TurnServices}.

(** [Chatbot.get_conversation_summary] *)
Definition get_conversation_summary (self : Chatbot.t) (w : World)
    : World * outcome SummaryDict.t :=
  let history_for_summary :=
    (fun msg => (role_value (Message.role msg), Message.content msg))
      <$> filter (fun msg => Message.role msg <> SYSTEM) (Chatbot.history self) in
  summarize_turns history_for_summary w.

(** [Chatbot.get_keywords] *)
Definition get_keywords (self : Chatbot.t) (w : World)
    : World * outcome KeywordsDict.t :=
  let history_for_keywords :=
    (fun msg => (role_value (Message.role msg), Message.content msg))
      <$> filter (fun msg => Message.role msg <> SYSTEM) (Chatbot.history self) in
  keywords_of_turns history_for_keywords w.

End WithExternals.
End Summaries.


(** * Properties *)

Open Scope list_scope.

(** ** [ConversationState.update] *)

Lemma engagement_level_update (st : ConversationState.t) (r : SentimentResult.t) :
  ConversationState.engagement_level (ConversationState.update st r) =
  match SentimentResult.emotion_intensity r with
  | Some i =>
      if bool_decide (i = "high") then "high"
      else if bool_decide (i = "low") then "low" else "normal"
  | None => "normal"
  end.
Proof.
  unfold ConversationState.update; cbn.
  destruct (SentimentResult.emotion_intensity r) as [i|]; [|done].
  repeat case_bool_decide; simplify_eq; done.
Qed.

(** C3.  [update] overwrites [mood] and [last_emotion] with the sentiment and
    the emotion of the result, whatever the state was, and the engagement level
    it leaves depends on the emotion intensity of the result alone: high gives
    high, low gives low, and anything else (medium, another label, or an absent
    intensity) gives normal. *)
Theorem update_engagement_from_intensity_alone
    (st : ConversationState.t) (r : SentimentResult.t) :
  let st' := ConversationState.update st r in
  ConversationState.mood st' = SentimentResult.sentiment r /\
  ConversationState.last_emotion st' = SentimentResult.emotion r /\
  (SentimentResult.emotion_intensity r = Some "high" ->
     ConversationState.engagement_level st' = "high") /\
  (SentimentResult.emotion_intensity r = Some "low" ->
     ConversationState.engagement_level st' = "low") /\
  (SentimentResult.emotion_intensity r = Some "medium" ->
     ConversationState.engagement_level st' = "normal") /\
  (SentimentResult.emotion_intensity r = None ->
     ConversationState.engagement_level st' = "normal") /\
  (SentimentResult.emotion_intensity r <> Some "high" ->
   SentimentResult.emotion_intensity r <> Some "low" ->
     ConversationState.engagement_level st' = "normal") /\
  (forall (st2 : ConversationState.t) (r2 : SentimentResult.t),
     SentimentResult.emotion_intensity r2 = SentimentResult.emotion_intensity r ->
     ConversationState.engagement_level (ConversationState.update st2 r2) =
     ConversationState.engagement_level st').
Proof.
  intros st'; subst st'.
  split; [done|]. split; [done|].
  rewrite engagement_level_update.
  repeat split.
  - by intros ->.
  - by intros ->.
  - by intros ->.
  - by intros ->.
  - intros Hh Hl. destruct (SentimentResult.emotion_intensity r) as [i|]; [|done].
    repeat case_bool_decide; simplify_eq; done.
  - intros st2 r2 Heq. by rewrite engagement_level_update, Heq.
Qed.

(** ** [SmartChatbot._detect_mood_shift] *)

Lemma last_items_two_app {A} (pre : list A) (a b : A) :
  last_items 2 (pre ++ [a; b]) = [a; b].
Proof.
  unfold last_items. rewrite length_app; cbn [length].
  replace (length pre + 2 - 2)%nat with (length pre + 0)%nat by lia.
  by rewrite drop_app_add.
Qed.

Lemma distinct_labels_one (a b : string) :
  (size (list_to_set [a; b] : gset string) =? 1)%nat = bool_decide (a = b).
Proof.
  cbn [list_to_set foldr]. rewrite union_empty_r_L.
  case_bool_decide as Hab.
  - subst b. rewrite union_idemp_L, size_singleton. done.
  - rewrite size_union by set_solver. rewrite !size_singleton. done.
Qed.

Section MoodShift.
Context `{Externals}.

(** With a window of two, the detector looks at the last two labels only. *)
Lemma detect_mood_shift_last_two (self : SmartChatbot.t) (pre : list string)
    (a b : string) :
  SmartChatbot.mood_shift_threshold self = 2%nat ->
  SmartChatbot.previous_moods self = pre ++ [a; b] ->
  SmartChatbot._detect_mood_shift self =
    if bool_decide (a = b) then None
    else if (SmartChatbot.mood_values a <? SmartChatbot.mood_values b)%Z
         then Some (improving a b)
    else if (SmartChatbot.mood_values b <? SmartChatbot.mood_values a)%Z
         then Some (declining a b)
    else None.
Proof.
  intros Hn Hmoods. unfold SmartChatbot._detect_mood_shift.
  rewrite Hn, Hmoods, last_items_two_app, distinct_labels_one.
  rewrite length_app; cbn [length].
  replace (length pre + 2 <? 2)%nat with false
    by (symmetry; apply Nat.ltb_ge; lia).
  case_bool_decide; done.
Qed.

Lemma detect_mood_shift_short (self : SmartChatbot.t) :
  SmartChatbot.mood_shift_threshold self = 2%nat ->
  (length (SmartChatbot.previous_moods self) < 2)%nat ->
  SmartChatbot._detect_mood_shift self = None.
Proof.
  intros Hn Hlen. unfold SmartChatbot._detect_mood_shift. rewrite Hn.
  by apply Nat.ltb_lt in Hlen as ->.
Qed.

End MoodShift.

(** C1.  With the detection window of 2: fewer than two recorded labels give no
    shift; two equal trailing labels give no shift; otherwise, with the
    ordinals positive 1, neutral 0, negative -1, a strictly greater ordinal of
    the last label gives improving, a strictly smaller one declining, both with
    the second-to-last label as [from] and the last as [to], and equal ordinals
    give no shift.  In particular [positive, positive] gives no shift,
    [negative, positive] gives improving and [positive, negative] gives
    declining. *)
Theorem detect_mood_shift_window_two `{Externals} (self : SmartChatbot.t) :
  SmartChatbot.mood_shift_threshold self = 2%nat ->
  ((length (SmartChatbot.previous_moods self) < 2)%nat ->
     SmartChatbot._detect_mood_shift self = None) /\
  (forall (pre : list string) (a b : string),
     SmartChatbot.previous_moods self = pre ++ [a; b] ->
     (a = b -> SmartChatbot._detect_mood_shift self = None) /\
     (a <> b -> (SmartChatbot.mood_values a < SmartChatbot.mood_values b)%Z ->
        SmartChatbot._detect_mood_shift self = Some (improving a b)) /\
     (a <> b -> (SmartChatbot.mood_values b < SmartChatbot.mood_values a)%Z ->
        SmartChatbot._detect_mood_shift self = Some (declining a b)) /\
     (a <> b -> SmartChatbot.mood_values a = SmartChatbot.mood_values b ->
        SmartChatbot._detect_mood_shift self = None)) /\
  SmartChatbot.mood_values "positive" = 1%Z /\
  SmartChatbot.mood_values "neutral" = 0%Z /\
  SmartChatbot.mood_values "negative" = (-1)%Z /\
  (SmartChatbot.previous_moods self = ["positive"; "positive"] ->
     SmartChatbot._detect_mood_shift self = None) /\
  (SmartChatbot.previous_moods self = ["negative"; "positive"] ->
     SmartChatbot._detect_mood_shift self = Some (improving "negative" "positive")) /\
  (SmartChatbot.previous_moods self = ["positive"; "negative"] ->
     SmartChatbot._detect_mood_shift self = Some (declining "positive" "negative")).
Proof.
  intros Hn.
  split; [by apply detect_mood_shift_short|].
  split.
  { intros pre a b Hmoods.
    rewrite (detect_mood_shift_last_two self pre a b Hn Hmoods).
    repeat split.
    - intros ->. by rewrite bool_decide_eq_true_2.
    - intros Hne Hlt. rewrite bool_decide_eq_false_2 by done.
      by apply Z.ltb_lt in Hlt as ->.
    - intros Hne Hlt. rewrite bool_decide_eq_false_2 by done.
      replace (SmartChatbot.mood_values a <? SmartChatbot.mood_values b)%Z
        with false by (symmetry; apply Z.ltb_ge; lia).
      by apply Z.ltb_lt in Hlt as ->.
    - intros Hne Heq. rewrite bool_decide_eq_false_2 by done.
      rewrite Heq, Z.ltb_irrefl. done. }
  repeat split.
  - intros Hmoods. by rewrite (detect_mood_shift_last_two self [] _ _ Hn Hmoods).
  - intros Hmoods. by rewrite (detect_mood_shift_last_two self [] _ _ Hn Hmoods).
  - intros Hmoods. by rewrite (detect_mood_shift_last_two self [] _ _ Hn Hmoods).
Qed.

(** The detector run on the labels negative then positive. *)
Lemma detect_mood_shift_window_two_witness :
  SmartChatbot._detect_mood_shift (H := Scripted.externals)
    (SmartChatbot.set_previous_moods ["negative"; "positive"] Scripted.fresh_smart)
  = Some (improving "negative" "positive").
Proof.
  apply (detect_mood_shift_window_two (H := Scripted.externals)
           (SmartChatbot.set_previous_moods ["negative"; "positive"]
              Scripted.fresh_smart) eq_refl).
  reflexivity.
Defined.

(** ** Counters *)

Lemma counter_get_set_eq (k : string) (v : nat) (d : counter) :
  counter_get k (counter_set k v d) = v.
Proof.
  induction d as [|[k' c'] d IH]; cbn.
  - by rewrite bool_decide_eq_true_2.
  - case_bool_decide as Hk; cbn.
    + by rewrite bool_decide_eq_true_2.
    + by rewrite bool_decide_eq_false_2.
Qed.

Lemma counter_get_set_ne (k k' : string) (v : nat) (d : counter) :
  k <> k' -> counter_get k' (counter_set k v d) = counter_get k' d.
Proof.
  intros Hne. induction d as [|[k0 c0] d IH]; cbn.
  - by rewrite bool_decide_eq_false_2.
  - case_bool_decide as Hk; cbn.
    + subst k0. by rewrite !bool_decide_eq_false_2.
    + by rewrite IH.
Qed.

Lemma counter_set_keys (k k' : string) (v : nat) (d : counter) :
  k' ∈ (counter_set k v d).*1 <-> k' = k \/ k' ∈ d.*1.
Proof.
  induction d as [|[k0 c0] d IH]; cbn.
  - rewrite list_elem_of_singleton, elem_of_nil. tauto.
  - case_bool_decide as Hk; cbn.
    + subst k0. rewrite elem_of_cons. tauto.
    + rewrite !elem_of_cons, IH. tauto.
Qed.

Lemma counter_set_NoDup (k : string) (v : nat) (d : counter) :
  NoDup d.*1 -> NoDup (counter_set k v d).*1.
Proof.
  induction d as [|[k0 c0] d IH]; cbn; intros Hnd.
  - apply NoDup_singleton.
  - apply NoDup_cons in Hnd as [Hnotin Hnd].
    case_bool_decide as Hk; cbn.
    + by apply NoDup_cons.
    + apply NoDup_cons. split; [|by apply IH].
      rewrite counter_set_keys. intros [->|?]; done.
Qed.

(** Under distinct keys, the count stored with a key is the one [get] reads. *)
Lemma counter_get_lookup (d : counter) (i : nat) (k : string) (c : nat) :
  NoDup d.*1 -> d !! i = Some (k, c) -> counter_get k d = c.
Proof.
  revert i. induction d as [|[k0 c0] d IH]; intros i Hnd Hi; [done|].
  apply NoDup_cons in Hnd as [Hnotin Hnd]. cbn.
  destruct i as [|i]; cbn in Hi.
  - simplify_eq. by rewrite bool_decide_eq_true_2.
  - case_bool_decide as Hk; [|by eapply IH].
    subst k0. exfalso. apply Hnotin.
    apply list_elem_of_lookup_2 in Hi.
    by apply (list_elem_of_fmap_2 fst) in Hi.
Qed.

Lemma occurrences_snoc (label l : string) (labels : list string) :
  occurrences label (labels ++ [l]) =
  (occurrences label labels + (if bool_decide (l = label) then 1 else 0))%nat.
Proof.
  unfold occurrences. rewrite filter_app, length_app. f_equal.
  rewrite filter_cons, filter_nil.
  case_decide; [by rewrite bool_decide_eq_true_2|by rewrite bool_decide_eq_false_2].
Qed.

Lemma occurrences_pos (label : string) (labels : list string) :
  (0 < occurrences label labels)%nat <-> label ∈ labels.
Proof.
  unfold occurrences. split.
  - intros Hpos. destruct (filter _ labels) as [|x xs] eqn:Hf; [cbn in Hpos; lia|].
    assert (x ∈ filter (fun l => l = label) labels) as Hx by (rewrite Hf; left).
    apply list_elem_of_filter in Hx as [-> ?]. done.
  - intros Hin.
    assert (label ∈ filter (fun l => l = label) labels) as Hx
      by (by apply list_elem_of_filter).
    destruct (filter _ labels); [by apply elem_of_nil in Hx|cbn; lia].
Qed.

Lemma count_labels_frequency (labels seen : list string) (d : counter) :
  NoDup d.*1 ->
  (forall l, l ∈ d.*1 <-> l ∈ seen) ->
  (forall l, counter_get l d = occurrences l seen) ->
  let d' := foldl count_label d labels in
  NoDup d'.*1 /\
  (forall l, l ∈ d'.*1 <-> l ∈ seen ++ labels) /\
  (forall l, counter_get l d' = occurrences l (seen ++ labels)).
Proof.
  revert seen d. induction labels as [|x labels IH]; intros seen d Hnd Hkeys Hget; cbn.
  - by rewrite app_nil_r.
  - replace (seen ++ x :: labels) with ((seen ++ [x]) ++ labels)
      by (by rewrite <- app_assoc).
    apply IH.
    + by apply counter_set_NoDup.
    + intros l. unfold count_label.
      rewrite counter_set_keys, Hkeys, elem_of_app, list_elem_of_singleton. tauto.
    + intros l. unfold count_label. rewrite occurrences_snoc.
      case_bool_decide as Hl.
      * subst l. by rewrite counter_get_set_eq, Hget.
      * rewrite counter_get_set_ne by done. rewrite Hget. lia.
Qed.

(** ** [max] over a counter *)

Lemma max_from_first_maximum (d p : counter) (i : nat) (best : string) (bc : nat) :
  p !! i = Some (best, bc) ->
  (forall j k c, p !! j = Some (k, c) -> (c <= bc)%nat /\ ((j < i)%nat -> (c < bc)%nat)) ->
  first_maximum (p ++ d) (max_from best bc d).
Proof.
  revert p i best bc.
  induction d as [|[k c] d IH]; intros p i best bc Hbest Hmax; cbn [max_from].
  - rewrite app_nil_r. by exists i, bc.
  - replace (p ++ (k, c) :: d) with ((p ++ [(k, c)]) ++ d)
      by (by rewrite <- app_assoc).
    pose proof (lookup_lt_Some _ _ _ Hbest) as Hi.
    destruct (bc <? c)%nat eqn:Hlt.
    + apply Nat.ltb_lt in Hlt.
      apply (IH _ (length p)).
      * by apply list_lookup_middle.
      * intros j k' c' Hj.
        destruct (decide (j < length p)%nat) as [Hjp|Hjp].
        -- rewrite lookup_app_l in Hj by done.
           destruct (Hmax _ _ _ Hj) as [Hle _]. lia.
        -- pose proof (lookup_lt_Some _ _ _ Hj) as Hjl.
           rewrite length_app in Hjl; cbn in Hjl.
           assert (j = length p) as -> by lia.
           rewrite list_lookup_middle in Hj by done. simplify_eq. lia.
    + apply Nat.ltb_ge in Hlt.
      apply (IH _ i).
      * by rewrite lookup_app_l.
      * intros j k' c' Hj.
        destruct (decide (j < length p)%nat) as [Hjp|Hjp].
        -- rewrite lookup_app_l in Hj by done. exact (Hmax _ _ _ Hj).
        -- pose proof (lookup_lt_Some _ _ _ Hj) as Hjl.
           rewrite length_app in Hjl; cbn in Hjl.
           assert (j = length p) as -> by lia.
           rewrite list_lookup_middle in Hj by done. simplify_eq. lia.
Qed.

Lemma dominant_first_maximum (d : counter) :
  d <> [] -> first_maximum d (ConversationAnalytics.dominant d).
Proof.
  destruct d as [|[k c] d]; [done|]; intros _.
  unfold ConversationAnalytics.dominant; cbn.
  apply (max_from_first_maximum d [(k, c)] 0); [done|].
  intros [|j] k' c' Hj; cbn in Hj; [|done]. simplify_eq. lia.
Qed.

(** ** [_calculate_statistics] *)

Lemma tally_sentiments (h : list SentimentDict.t) (acc : ConversationAnalytics.tally) :
  ConversationAnalytics.sentiment_dist (foldl ConversationAnalytics.count_item acc h) =
  foldl count_label (ConversationAnalytics.sentiment_dist acc)
    (ConversationAnalytics.sentiment_of <$> h).
Proof. revert acc. induction h as [|x h IH]; intros acc; cbn; [done|]. by rewrite IH. Qed.

Lemma tally_emotions (h : list SentimentDict.t) (acc : ConversationAnalytics.tally) :
  ConversationAnalytics.emotion_dist (foldl ConversationAnalytics.count_item acc h) =
  foldl count_label (ConversationAnalytics.emotion_dist acc)
    (ConversationAnalytics.emotion_of <$> h).
Proof. revert acc. induction h as [|x h IH]; intros acc; cbn; [done|]. by rewrite IH. Qed.

Lemma tally_confidence (h : list SentimentDict.t) (acc : ConversationAnalytics.tally) :
  ConversationAnalytics.total_confidence (foldl ConversationAnalytics.count_item acc h) =
  foldl PrimFloat.add (ConversationAnalytics.total_confidence acc)
    (ConversationAnalytics.confidence_of <$> h).
Proof. revert acc. induction h as [|x h IH]; intros acc; cbn; [done|]. by rewrite IH. Qed.

(** A counter filled from the empty one is the frequency map of the labels,
    and its dominant label is a first maximum. *)
Lemma frequency_map (labels : list string) :
  labels <> [] ->
  let d := foldl count_label [] labels in
  NoDup d.*1 /\
  (forall l, l ∈ d.*1 <-> l ∈ labels) /\
  (forall l, counter_get l d = occurrences l labels) /\
  first_maximum d (ConversationAnalytics.dominant d).
Proof.
  intros Hne. cbn zeta.
  destruct (count_labels_frequency labels [] []) as (Hnd & Hkeys & Hget);
    [apply NoDup_nil_2|done|done|].
  change ([] ++ labels) with labels in Hkeys, Hget.
  repeat split; try done; try apply Hkeys.
  apply dominant_first_maximum. intros Hd.
  destruct labels as [|x labels]; [done|].
  assert (x ∈ (foldl count_label [] (x :: labels)).*1) as Hx
    by (apply Hkeys; left).
  rewrite Hd in Hx. by apply elem_of_nil in Hx.
Qed.

(** C5.  On the empty history the statistics are: 0 messages, two empty
    distributions, average confidence 0.0, and no dominant label (the two keys
    are absent). *)
Theorem calculate_statistics_empty :
  ConversationAnalytics._calculate_statistics [] =
  {| StatsDict.total_messages := Some 0%nat;
     StatsDict.sentiment_distribution := Some [];
     StatsDict.emotion_distribution := Some [];
     StatsDict.average_confidence := Some 0%float;
     StatsDict.dominant_sentiment := None;
     StatsDict.dominant_emotion := None |}.
Proof. reflexivity. Qed.

(** C4.  On a non-empty history the statistics hold: the length as
    [total_messages]; the two distributions as frequency maps of the sentiment
    and emotion labels, an absent label counted as neutral (distinct keys, the
    keys are the labels that occur, each with its number of occurrences); the
    mean of the confidences as [average_confidence], an absent confidence
    counted as 0.5; and as dominant labels the first key of greatest count in
    the iteration order of each map.  For two positive/happy items of
    confidence 0.9 and 0.7 and a negative/sad one of confidence 0.5 they are 3
    messages, an average within 1e-9 of 0.7, positive and happy. *)
Theorem calculate_statistics_nonempty :
  (forall h : list SentimentDict.t,
     h <> [] ->
     let stats := ConversationAnalytics._calculate_statistics h in
     let sentiments := ConversationAnalytics.sentiment_of <$> h in
     let emotions := ConversationAnalytics.emotion_of <$> h in
     StatsDict.total_messages stats = Some (length h) /\
     StatsDict.average_confidence stats =
       Some (mean (ConversationAnalytics.confidence_of <$> h)) /\
     (exists (sd : counter) (ds : string),
        StatsDict.sentiment_distribution stats = Some sd /\
        StatsDict.dominant_sentiment stats = Some ds /\
        NoDup sd.*1 /\
        (forall l, l ∈ sd.*1 <-> l ∈ sentiments) /\
        (forall l, counter_get l sd = occurrences l sentiments) /\
        first_maximum sd ds) /\
     (exists (ed : counter) (de : string),
        StatsDict.emotion_distribution stats = Some ed /\
        StatsDict.dominant_emotion stats = Some de /\
        NoDup ed.*1 /\
        (forall l, l ∈ ed.*1 <-> l ∈ emotions) /\
        (forall l, counter_get l ed = occurrences l emotions) /\
        first_maximum ed de)) /\
  (let stats := ConversationAnalytics._calculate_statistics Scripted.three_turns in
   StatsDict.total_messages stats = Some 3%nat /\
   (exists avg : float,
      StatsDict.average_confidence stats = Some avg /\
      PrimFloat.ltb (PrimFloat.abs (PrimFloat.sub avg 0.7%float)) 1e-9%float = true) /\
   StatsDict.dominant_sentiment stats = Some "positive" /\
   StatsDict.dominant_emotion stats = Some "happy").
Proof.
  split.
  - intros h Hne. cbn zeta.
    destruct h as [|x h]; [done|].
    unfold ConversationAnalytics._calculate_statistics; cbv beta iota zeta.
    set (l := x :: h) in *.
    cbn [StatsDict.total_messages StatsDict.average_confidence
         StatsDict.sentiment_distribution StatsDict.dominant_sentiment
         StatsDict.emotion_distribution StatsDict.dominant_emotion].
    rewrite tally_sentiments, tally_emotions, tally_confidence.
    cbn [ConversationAnalytics.sentiment_dist ConversationAnalytics.emotion_dist
         ConversationAnalytics.total_confidence].
    split; [done|]. split; [unfold mean; by rewrite length_fmap|].
    split.
    + eexists _, _. split; [done|]. split; [done|].
      apply frequency_map. by subst l.
    + eexists _, _. split; [done|]. split; [done|].
      apply frequency_map. by subst l.
  - cbn zeta. split; [done|]. split; [|done].
    eexists. split; [reflexivity|]. vm_compute. reflexivity.
Qed.

(** The statistics of two happy turns and a sad one count three messages. *)
Lemma calculate_statistics_nonempty_witness :
  StatsDict.total_messages
    (ConversationAnalytics._calculate_statistics Scripted.three_turns)
  = Some (length Scripted.three_turns).
Proof.
  destruct (proj1 calculate_statistics_nonempty Scripted.three_turns) as [Htotal _].
  - discriminate.
  - exact Htotal.
Defined.

(** ** One turn of [Chatbot.chat] *)

Section Turn.
Context `{Externals}.

(** The effect of one call of [chat] on the agent, in both outcomes. *)
Lemma chat_effect (self : Chatbot.t) (user_message : string) (w : World) :
  let result := (classify user_message w).2 in
  exists user : Message.t,
    Message.role user = USER /\
    Message.content user = user_message /\
    Message.sentiment user = Some result /\
    match Chatbot.chat self user_message w with
    | (_, self', Return r) =>
        exists assistant : Message.t,
          Chatbot.history self' = Chatbot.history self ++ [user; assistant] /\
          Message.role assistant = ASSISTANT /\
          Message.content assistant = Chatbot.response r /\
          Message.sentiment assistant = None /\
          Chatbot.sentiment r = SentimentResult_to_dict result /\
          Session.turn_recorded self self' result
    | (_, self', Raise _) =>
        Chatbot.history self' = Chatbot.history self ++ [user] /\
        Session.turn_recorded self self' result
    end.
Proof.
  unfold Chatbot.chat, SentimentAnalyzer.analyze, Chatbot._add_message,
    Chatbot._generate_response, Message.new, Session.turn_recorded.
  destruct (classify user_message w) as [w1 result]; cbn [snd].
  destruct (datetime_now w1) as [w2 t1].
  eexists {| Message.role := USER; Message.content := user_message;
             Message.timestamp := t1; Message.sentiment := Some result |}.
  do 3 (split; [reflexivity|]).
  match goal with
  | |- context [generate_reply ?a ?b ?c ?d ?e] =>
      destruct (generate_reply a b c d e) as [w3 [response|e']]
  end.
  - destruct (datetime_now w3) as [w4 t2]. cbn.
    eexists. split; [by rewrite <- app_assoc|]. by repeat split.
  - cbn. by repeat split.
Qed.

(** A completed turn appends the user message and the reply. *)
Lemma chat_return_length (self self' : Chatbot.t) (user_message : string)
    (w w' : World) (r : Chatbot.ChatResult) :
  Chatbot.chat self user_message w = (w', self', Return r) ->
  length (Chatbot.history self') = (length (Chatbot.history self) + 2)%nat.
Proof.
  intros Hchat.
  destruct (chat_effect self user_message w) as (user & _ & _ & _ & Heff).
  rewrite Hchat in Heff. destruct Heff as (assistant & -> & _).
  by rewrite length_app.
Qed.

Lemma add_system_message_history (self : Chatbot.t) (content : string) (w : World) :
  exists m : Message.t,
    Chatbot.history (Chatbot._add_system_message self content w).2 =
      Chatbot.history self ++ [m] /\
    Message.role m = SYSTEM /\ Message.content m = content /\
    Message.sentiment m = None.
Proof.
  unfold Chatbot._add_system_message, Message.new.
  destruct (datetime_now w) as [w1 t]. by eexists.
Qed.

Lemma init_history_length (system_prompt : option string) (w : World) :
  length (Chatbot.history (Chatbot.init system_prompt w).2) = 1%nat.
Proof.
  unfold Chatbot.init.
  edestruct add_system_message_history as (m & -> & _). done.
Qed.

Lemma reset_history_length (self : Chatbot.t) (w : World) :
  length (Chatbot.history (Chatbot.reset self w).2) = 1%nat.
Proof.
  unfold Chatbot.reset.
  edestruct add_system_message_history as (m & -> & _). done.
Qed.

Lemma set_personality_history_length (self : Chatbot.t) (personality : string)
    (w : World) :
  length (Chatbot.history (Chatbot.set_personality self personality w).2) =
  length (Chatbot.history self).
Proof.
  unfold Chatbot.set_personality, Message.new.
  destruct self as [analyzer [|first rest] state prompt]; cbn; [done|].
  case_bool_decide; [|done].
  destruct (datetime_now w) as [w1 t]. done.
Qed.

Lemma set_personality_prompt (self : Chatbot.t) (personality : string)
    (w : World) :
  Chatbot.system_prompt (Chatbot.set_personality self personality w).2 = personality.
Proof.
  unfold Chatbot.set_personality, Message.new.
  destruct self as [analyzer [|first rest] state prompt]; cbn; [done|].
  case_bool_decide; [|done]. by destruct (datetime_now w).
Qed.

(** The invariant of a run in which every turn completed. *)
Lemma run_history_length (ops : list Session.op) (self self' : Chatbot.t)
    (w w' : World) (n : nat) :
  length (Chatbot.history self) = (1 + 2 * n)%nat ->
  Session.run ops self w = (w', self', Return ()) ->
  length (Chatbot.history self') = (1 + 2 * foldl Session.count_turn n ops)%nat.
Proof.
  revert self w n. induction ops as [|o ops IH]; intros self w n Hlen Hrun.
  - cbn in Hrun. by simplify_eq.
  - cbn [Session.run] in Hrun. cbn [foldl].
    destruct (Session.step self o w) as [[w1 self1] [[]|e]] eqn:Hstep; [|done].
    refine (IH self1 w1 _ _ Hrun). clear IH Hrun.
    destruct o as [user_message| |personality];
      cbn [Session.step] in Hstep; cbn [Session.count_turn].
    + destruct (Chatbot.chat self user_message w) as [[w2 self2] [r|e]] eqn:Hchat;
        [|done].
      simplify_eq. rewrite (chat_return_length _ _ _ _ _ _ Hchat). lia.
    + pose proof (reset_history_length self w) as Hreset.
      destruct (Chatbot.reset self w) as [w2 self2]. simplify_eq.
      cbn [snd] in Hreset. lia.
    + pose proof (set_personality_history_length self personality w) as Hset.
      destruct (Chatbot.set_personality self personality w) as [w2 self2].
      simplify_eq. cbn [snd] in Hset. lia.
Qed.

End Turn.

(** ** History length *)

(** C2.  After any run of completed turns from a fresh [Chatbot], with resets
    and changes of personality in between, the history holds the system
    message and two messages for each turn completed since the construction or
    the last reset: a completed turn appends one user message and one assistant
    message, and construction and [reset] leave the system message alone. *)
Theorem history_length_counts_completed_turns `{Externals} :
  (forall (system_prompt : option string) (ops : list Session.op)
          (w w' : World) (self' : Chatbot.t),
     Session.run ops (Chatbot.init system_prompt w).2 (Chatbot.init system_prompt w).1
       = (w', self', Return ()) ->
     length (Chatbot.history self') = (1 + 2 * Session.turns_since_reset ops)%nat) /\
  (forall (self self' : Chatbot.t) (user_message : string) (w w' : World)
          (r : Chatbot.ChatResult),
     Chatbot.chat self user_message w = (w', self', Return r) ->
     exists user assistant : Message.t,
       Chatbot.history self' = Chatbot.history self ++ [user; assistant] /\
       Message.role user = USER /\ Message.role assistant = ASSISTANT) /\
  (forall (system_prompt : option string) (w : World),
     length (Chatbot.history (Chatbot.init system_prompt w).2) = 1%nat) /\
  (forall (self : Chatbot.t) (w : World),
     length (Chatbot.history (Chatbot.reset self w).2) = 1%nat).
Proof.
  repeat split.
  - intros system_prompt ops w w' self' Hrun.
    apply (run_history_length ops _ _ _ _ 0 (init_history_length system_prompt w) Hrun).
  - intros self self' user_message w w' r Hchat.
    destruct (chat_effect self user_message w) as (user & Hrole & _ & _ & Heff).
    rewrite Hchat in Heff. destruct Heff as (assistant & Hhist & Hrole' & _).
    by exists user, assistant.
  - apply init_history_length.
  - apply reset_history_length.
Qed.

(** The scripted session: one turn since the reset, three messages. *)
Lemma history_length_counts_completed_turns_witness :
  length (Chatbot.history
            (Session.run (H := Scripted.externals) Scripted.script
               Scripted.fresh 1%nat).1.2)
  = (1 + 2 * Session.turns_since_reset Scripted.script)%nat.
Proof.
  apply (proj1 (history_length_counts_completed_turns (H := Scripted.externals))
           None Scripted.script 0%nat
           (Session.run (H := Scripted.externals) Scripted.script
              Scripted.fresh 1%nat).1.1).
  vm_compute. reflexivity.
Defined.

(** ** A turn whose reply fails *)

(** C7, as the code has it.  When reply generation raises, [chat] raises, and
    the user message with its sentiment stays appended to the history without
    an assistant reply; the conversation state and the sentiment history have
    recorded the turn as well. *)
Theorem chat_raise_leaves_user_message `{Externals}
    (self self' : Chatbot.t) (user_message : string) (w w' : World) (e : exn) :
  Chatbot.chat self user_message w = (w', self', Raise e) ->
  exists (user : Message.t) (result : SentimentResult.t),
    Chatbot.history self' = Chatbot.history self ++ [user] /\
    Message.role user = USER /\
    Message.content user = user_message /\
    Message.sentiment user = Some result /\
    Chatbot.state self' = ConversationState.update (Chatbot.state self) result /\
    SentimentAnalyzer.history (Chatbot.sentiment_analyzer self') =
      SentimentAnalyzer.history (Chatbot.sentiment_analyzer self) ++ [result] /\
    Chatbot.system_prompt self' = Chatbot.system_prompt self.
Proof.
  intros Hchat.
  destruct (chat_effect self user_message w) as (user & Hrole & Hcontent & Hsent & Heff).
  rewrite Hchat in Heff. destruct Heff as (Hhist & Hstate & Hrecorded & Hprompt).
  by exists user, (classify user_message w).2.
Qed.

(** The scripted service fails on the message ["fail"]. *)
Lemma chat_raise_leaves_user_message_witness :
  exists (user : Message.t) (result : SentimentResult.t),
    Chatbot.history
      (Chatbot.chat (H := Scripted.externals) Scripted.fresh "fail" 1%nat).1.2
      = Chatbot.history Scripted.fresh ++ [user] /\
    Message.role user = USER /\
    Message.content user = "fail" /\
    Message.sentiment user = Some result /\
    Chatbot.state
      (Chatbot.chat (H := Scripted.externals) Scripted.fresh "fail" 1%nat).1.2
      = ConversationState.update (Chatbot.state Scripted.fresh) result /\
    SentimentAnalyzer.history
      (Chatbot.sentiment_analyzer
         (Chatbot.chat (H := Scripted.externals) Scripted.fresh "fail" 1%nat).1.2)
      = SentimentAnalyzer.history (Chatbot.sentiment_analyzer Scripted.fresh)
          ++ [result] /\
    Chatbot.system_prompt
      (Chatbot.chat (H := Scripted.externals) Scripted.fresh "fail" 1%nat).1.2
      = Chatbot.system_prompt Scripted.fresh.
Proof.
  apply (chat_raise_leaves_user_message (H := Scripted.externals)
           Scripted.fresh _ "fail" 1%nat
           (Chatbot.chat (H := Scripted.externals) Scripted.fresh "fail" 1%nat).1.1
           (Error "service unavailable")).
  vm_compute. reflexivity.
Defined.

(** C7, as stated, fails: on a fresh agent whose reply generation raises, the
    call raises and the history, which held the system message alone, ends
    with a user message that no assistant message follows. *)
Lemma chat_failure_is_not_atomic :
  (Chatbot.chat (H := Scripted.externals) Scripted.fresh "fail" 1%nat).2
    = Raise (Error "service unavailable") /\
  Message.role <$> Chatbot.history Scripted.fresh = [SYSTEM] /\
  Message.role <$>
    Chatbot.history
      (Chatbot.chat (H := Scripted.externals) Scripted.fresh "fail" 1%nat).1.2
    = [SYSTEM; USER] /\
  Chatbot.history
    (Chatbot.chat (H := Scripted.externals) Scripted.fresh "fail" 1%nat).1.2
    <> Chatbot.history Scripted.fresh.
Proof.
  repeat split; try (vm_compute; reflexivity).
  vm_compute. discriminate.
Qed.

(** ** [reset] *)

(** C6, as the code has it.  Whatever state an agent is in (so in every state
    reached by turns, completed or not, and changes of personality), if its
    stored system prompt is not empty then [reset] leaves the agent that the
    constructor makes at the same moment when given that prompt:
    [get_statistics], [get_history], [get_sentiment_history] and the
    statistics calculated over the sentiment history return the same on
    both; more generally [reset] equals every constructor call that stores
    the agent's prompt.  If the stored prompt is empty, no constructor call
    stores it, and the history after [reset], whose system message is empty,
    is the history of no fresh agent. *)
Theorem reset_like_fresh `{Externals} (self : Chatbot.t) (w : World) :
  let after := (Chatbot.reset self w).2 in
  (Chatbot.system_prompt self <> "" ->
   let fresh := (Chatbot.init (Some (Chatbot.system_prompt self)) w).2 in
   Chatbot.system_prompt fresh = Chatbot.system_prompt self /\
   Chatbot.get_statistics after = Chatbot.get_statistics fresh /\
   Chatbot.get_history after = Chatbot.get_history fresh /\
   Chatbot.get_sentiment_history after = Chatbot.get_sentiment_history fresh /\
   ConversationAnalytics._calculate_statistics (Chatbot.get_sentiment_history after) =
     ConversationAnalytics._calculate_statistics (Chatbot.get_sentiment_history fresh) /\
   Session.observe after = Session.observe fresh /\
   Chatbot.reset self w = Chatbot.init (Some (Chatbot.system_prompt self)) w) /\
  (forall system_prompt : option string,
     Chatbot.system_prompt (Chatbot.init system_prompt w).2 = Chatbot.system_prompt self ->
     Chatbot.reset self w = Chatbot.init system_prompt w) /\
  (Chatbot.system_prompt self = "" ->
   MessageDict.content <$> Chatbot.get_history after = [""] /\
   forall (system_prompt : option string) (w0 : World),
     Chatbot.system_prompt (Chatbot.init system_prompt w0).2 <> "" /\
     Chatbot.get_history (Chatbot.init system_prompt w0).2 <> Chatbot.get_history after).
Proof.
  assert (forall system_prompt : option string,
            Chatbot.system_prompt (Chatbot.init system_prompt w).2
              = Chatbot.system_prompt self ->
            Chatbot.reset self w = Chatbot.init system_prompt w) as Hsame.
  { intros system_prompt.
    unfold Chatbot.reset, Chatbot.init, Chatbot._add_system_message, Message.new.
    destruct (datetime_now w) as [w1 t]. cbn. by intros ->. }
  assert (forall (system_prompt : option string) (w0 : World),
            Message.content <$> Chatbot.history (Chatbot.init system_prompt w0).2
              = [Chatbot.system_prompt (Chatbot.init system_prompt w0).2] /\
            Chatbot.system_prompt (Chatbot.init system_prompt w0).2 <> "") as Hinit.
  { intros system_prompt w0.
    unfold Chatbot.init, Chatbot._add_system_message, Message.new.
    destruct (datetime_now w0) as [w1 t]. cbn. split; [done|].
    destruct system_prompt as [p|]; [|done].
    by case_bool_decide. }
  assert (Message.content <$> Chatbot.history (Chatbot.reset self w).2
            = [Chatbot.system_prompt self]) as Hreset.
  { unfold Chatbot.reset, Chatbot._add_system_message, Message.new.
    by destruct (datetime_now w). }
  assert (forall b : Chatbot.t,
            MessageDict.content <$> Chatbot.get_history b
              = Message.content <$> Chatbot.history b) as Hcontents.
  { intros b. unfold Chatbot.get_history. rewrite <- list_fmap_compose. done. }
  cbn zeta. split; [|split; [done|]].
  - intros Hprompt.
    assert (Chatbot.system_prompt
              (Chatbot.init (Some (Chatbot.system_prompt self)) w).2
            = Chatbot.system_prompt self) as Hstored.
    { unfold Chatbot.init, Chatbot._add_system_message, Message.new.
      rewrite bool_decide_eq_false_2 by done. by destruct (datetime_now w). }
    by rewrite (Hsame _ Hstored).
  - intros Hempty. split.
    + by rewrite Hcontents, Hreset, Hempty.
    + intros system_prompt w0. destruct (Hinit system_prompt w0) as [Hseed Hne].
      split; [done|]. intros Heq.
      apply (f_equal (fmap MessageDict.content)) in Heq.
      rewrite !Hcontents, Hseed, Hreset, Hempty in Heq. by simplify_eq.
Qed.

(** The scripted agent after two turns and a change of personality, against a
    fresh agent given the new personality. *)
Lemma reset_like_fresh_witness :
  Session.observe (H := Scripted.externals)
    (Chatbot.reset (H := Scripted.externals) Scripted.talkative 7%nat).2
  = Session.observe (H := Scripted.externals)
      (Chatbot.init (H := Scripted.externals) (Some "You are a pirate.") 7%nat).2.
Proof.
  apply (proj1 (reset_like_fresh (H := Scripted.externals) Scripted.talkative 7%nat)).
  vm_compute. discriminate.
Defined.

(** C6, as stated, fails for an agent whose personality was set to the empty
    text: after [reset] its history is one system message with no content,
    while the constructor stores the default prompt when it is given the
    empty text or none, so that the fresh agent with the same prompt, and
    every other fresh agent, shows another history. *)
Lemma reset_after_empty_personality_unlike_fresh :
  let quiet :=
    (Chatbot.set_personality (H := Scripted.externals) Scripted.talkative "" 7%nat).2 in
  let after := (Chatbot.reset (H := Scripted.externals) quiet 8%nat).2 in
  Chatbot.system_prompt quiet = "" /\
  MessageDict.content <$> Chatbot.get_history after = [""] /\
  MessageDict.content <$>
    Chatbot.get_history (Chatbot.init (H := Scripted.externals) (Some "") 8%nat).2
    = [Chatbot.default_system_prompt] /\
  Chatbot.get_history after
    <> Chatbot.get_history (Chatbot.init (H := Scripted.externals) (Some "") 8%nat).2 /\
  Chatbot.get_history after
    <> Chatbot.get_history (Chatbot.init (H := Scripted.externals) None 8%nat).2.
Proof.
  cbn zeta. split; [vm_compute; reflexivity|].
  split; [vm_compute; reflexivity|].
  split; [vm_compute; reflexivity|].
  split; vm_compute; discriminate.
Qed.

(** ** [set_personality] *)

(** C9.  [set_personality] stores the text as the system prompt.  A history
    whose first entry is a system message gets a new system message carrying
    the text in its place; the length of the history and every entry of index
    other than 0 are unchanged.  An empty history, or one whose first entry is
    not a system message, is left as it was. *)
Theorem set_personality_in_place `{Externals}
    (self : Chatbot.t) (text : string) (w : World) :
  let self' := (Chatbot.set_personality self text w).2 in
  Chatbot.system_prompt self' = text /\
  length (Chatbot.history self') = length (Chatbot.history self) /\
  (forall i : nat, i <> 0%nat ->
     Chatbot.history self' !! i = Chatbot.history self !! i) /\
  (forall (first : Message.t) (rest : list Message.t),
     Chatbot.history self = first :: rest ->
     Message.role first = SYSTEM ->
     exists m : Message.t,
       Chatbot.history self' = m :: rest /\
       Message.role m = SYSTEM /\
       Message.content m = text /\
       Message.sentiment m = None) /\
  (Chatbot.history self = [] -> Chatbot.history self' = []) /\
  (forall (first : Message.t) (rest : list Message.t),
     Chatbot.history self = first :: rest ->
     Message.role first <> SYSTEM ->
     Chatbot.history self' = Chatbot.history self) /\
  Chatbot.state self' = Chatbot.state self /\
  Chatbot.sentiment_analyzer self' = Chatbot.sentiment_analyzer self.
Proof.
  cbn zeta.
  split; [apply set_personality_prompt|].
  split; [apply set_personality_history_length|].
  unfold Chatbot.set_personality, Message.new.
  destruct self as [analyzer [|first rest] state prompt]; cbn.
  - by repeat split.
  - case_bool_decide as Hrole.
    + destruct (datetime_now w) as [w1 t]. cbn.
      repeat split; try done.
      * by intros [|i] ?.
      * intros first' rest' ? _. simplify_eq. by eexists.
      * intros first' rest' ? ?. by simplify_eq.
    + cbn. repeat split; try done.
      intros first' rest' ? ?. by simplify_eq.
Qed.

(** ** [SmartChatbot]: the mood labels across a reset *)

Section SmartTurn.
Context `{Externals}.

(** A completed turn records the label of the new sentiment result and runs
    the detector on the extended sequence; a turn that raises records none. *)
Lemma smart_chat_effect (self : SmartChatbot.t) (user_message : string) (w : World) :
  let label := SentimentResult.sentiment (classify user_message w).2 in
  match SmartChatbot.chat self user_message w with
  | (_, self', Return r) =>
      SmartChatbot.previous_moods self' = SmartChatbot.previous_moods self ++ [label] /\
      SmartChatbot.mood_shift_threshold self' = SmartChatbot.mood_shift_threshold self /\
      SmartChatbot.mood_shift_detected r = SmartChatbot._detect_mood_shift self'
  | (_, self', Raise _) =>
      SmartChatbot.previous_moods self' = SmartChatbot.previous_moods self /\
      SmartChatbot.mood_shift_threshold self' = SmartChatbot.mood_shift_threshold self
  end.
Proof.
  cbn zeta. unfold SmartChatbot.chat.
  destruct (chat_effect (SmartChatbot.base self) user_message w)
    as (user & _ & _ & _ & Heff).
  destruct (Chatbot.chat (SmartChatbot.base self) user_message w)
    as [[w1 b] [r|e]]; [|done].
  destruct Heff as (assistant & _ & _ & _ & _ & -> & _). done.
Qed.

Lemma smart_reset_frame (self : SmartChatbot.t) (w : World) :
  SmartChatbot.previous_moods (SmartChatbot.reset self w).2 =
    SmartChatbot.previous_moods self /\
  SmartChatbot.mood_shift_threshold (SmartChatbot.reset self w).2 =
    SmartChatbot.mood_shift_threshold self /\
  SmartChatbot.base (SmartChatbot.reset self w).2 =
    (Chatbot.reset (SmartChatbot.base self) w).2.
Proof.
  unfold SmartChatbot.reset. by destruct (Chatbot.reset (SmartChatbot.base self) w).
Qed.

Lemma reset_clears (self : Chatbot.t) (w : World) :
  SentimentAnalyzer.history (Chatbot.sentiment_analyzer (Chatbot.reset self w).2) = [] /\
  Chatbot.state (Chatbot.reset self w).2 = ConversationState.init.
Proof.
  unfold Chatbot.reset, Chatbot._add_system_message, Message.new.
  by destruct (datetime_now w).
Qed.

End SmartTurn.

(** C10.  The inherited [reset] clears the history, the sentiment history and
    the conversation state of a [SmartChatbot] and leaves [previous_moods] as
    it was.  The first completed turn after it appends its label to the labels
    recorded before the reset and reports the shift over that sequence: with
    the window of 2, the shift from the last label recorded before the reset
    to the new one.  The first turn of a fresh agent reports no shift. *)
Theorem reset_keeps_previous_moods `{Externals} (self : SmartChatbot.t) (w : World) :
  let after := (SmartChatbot.reset self w).2 in
  let w1 := (SmartChatbot.reset self w).1 in
  SmartChatbot.previous_moods after = SmartChatbot.previous_moods self /\
  SmartChatbot.mood_shift_threshold after = SmartChatbot.mood_shift_threshold self /\
  length (Chatbot.history (SmartChatbot.base after)) = 1%nat /\
  SentimentAnalyzer.history (Chatbot.sentiment_analyzer (SmartChatbot.base after)) = [] /\
  Chatbot.state (SmartChatbot.base after) = ConversationState.init /\
  (forall (user_message : string) (w2 : World) (self2 : SmartChatbot.t)
          (r : SmartChatbot.ChatResult),
     SmartChatbot.chat after user_message w1 = (w2, self2, Return r) ->
     let label := SentimentResult.sentiment (classify user_message w1).2 in
     SmartChatbot.previous_moods self2 = SmartChatbot.previous_moods self ++ [label] /\
     SmartChatbot.mood_shift_detected r = SmartChatbot._detect_mood_shift self2 /\
     (forall (pre : list string) (a : string),
        SmartChatbot.mood_shift_threshold self = 2%nat ->
        SmartChatbot.previous_moods self = pre ++ [a] ->
        SmartChatbot.mood_shift_detected r =
          if bool_decide (a = label) then None
          else if (SmartChatbot.mood_values a <? SmartChatbot.mood_values label)%Z
               then Some (improving a label)
          else if (SmartChatbot.mood_values label <? SmartChatbot.mood_values a)%Z
               then Some (declining a label)
          else None)) /\
  (forall (user_message : string) (w0 w2 : World) (self2 : SmartChatbot.t)
          (r : SmartChatbot.ChatResult),
     SmartChatbot.chat (SmartChatbot.init w0).2 user_message (SmartChatbot.init w0).1
       = (w2, self2, Return r) ->
     SmartChatbot.mood_shift_detected r = None).
Proof.
  cbn zeta.
  destruct (smart_reset_frame self w) as (Hmoods & Hn & Hbase).
  split; [done|]. split; [done|]. rewrite Hbase.
  split; [apply reset_history_length|].
  split; [apply reset_clears|]. split; [apply reset_clears|].
  split.
  - intros user_message w2 self2 r Hchat.
    pose proof (smart_chat_effect (SmartChatbot.reset self w).2 user_message
                  (SmartChatbot.reset self w).1) as Heff.
    cbn zeta in Heff. rewrite Hchat in Heff.
    destruct Heff as (Hmoods2 & Hn2 & Hshift).
    rewrite Hmoods in Hmoods2. rewrite Hn in Hn2.
    split; [done|]. split; [done|].
    intros pre a Htwo Hpre. rewrite Hshift.
    apply (detect_mood_shift_last_two self2 pre); [congruence|].
    rewrite Hmoods2, Hpre. by rewrite <- app_assoc.
  - intros user_message w0 w2 self2 r Hchat.
    pose proof (smart_chat_effect (SmartChatbot.init w0).2 user_message
                  (SmartChatbot.init w0).1) as Heff.
    cbn zeta in Heff. rewrite Hchat in Heff.
    destruct Heff as (Hmoods2 & Hn2 & ->).
    apply detect_mood_shift_short.
    + rewrite Hn2. unfold SmartChatbot.init. by destruct (Chatbot.init None w0).
    + rewrite Hmoods2. unfold SmartChatbot.init.
      destruct (Chatbot.init None w0). cbn. lia.
Qed.

(** A turn classified as negative, a reset, a turn classified as positive: the
    detector reports the improvement across the reset. *)
Lemma reset_keeps_previous_moods_witness :
  exists (w2 : nat) (self2 : SmartChatbot.t) (r : SmartChatbot.ChatResult),
    SmartChatbot.chat (H := Scripted.externals)
      (SmartChatbot.reset (H := Scripted.externals) Scripted.gloomy 3%nat).2
      "positive" 4%nat = (w2, self2, Return r) /\
    SmartChatbot.mood_shift_detected r = Some (improving "negative" "positive").
Proof.
  set (turn := SmartChatbot.chat (H := Scripted.externals)
                 (SmartChatbot.reset (H := Scripted.externals) Scripted.gloomy 3%nat).2
                 "positive" 4%nat).
  assert (exists r, turn = (turn.1.1, turn.1.2, Return r)) as [r Hr]
    by (vm_compute; eexists; reflexivity).
  exists turn.1.1, turn.1.2, r. split; [exact Hr|].
  destruct (reset_keeps_previous_moods (H := Scripted.externals)
              Scripted.gloomy 3%nat) as (_ & _ & _ & _ & _ & Hturn & _).
  destruct (Hturn "positive" _ _ _ Hr) as (_ & _ & Hshift).
  rewrite (Hshift [] "negative"); [|vm_compute; reflexivity..].
  vm_compute. reflexivity.
Defined.

(** ** [generate_text_report] *)

(** [str.join] accepts the items that are all texts, and no others. *)
Lemma texts_from_returns (i : nat) (items : list value) (texts : list string) :
  texts_from i items = Return texts <-> items = VStr <$> texts.
Proof.
  revert i texts. induction items as [|v items IH]; intros i texts.
  - cbn. split.
    + intros ?; simplify_eq. done.
    + by destruct texts.
  - destruct v as [|b|n|x|s|l|d]; cbn [texts_from];
      try (split; [done|by destruct texts]).
    specialize (IH (S i)).
    destruct (texts_from (S i) items) as [rest|e].
    + split.
      * intros ?; simplify_eq. cbn. f_equal. by apply IH.
      * destruct texts as [|t texts]; [done|]. cbn. intros Heq.
        injection Heq as -> Hitems. apply IH in Hitems. by simplify_eq.
    + split; [done|].
      destruct texts as [|t texts]; [done|]. cbn. intros Heq.
      injection Heq as -> Hitems. by apply IH in Hitems.
Qed.

Section Rendering.
Context `{Externals}.

Lemma bullets_returned (heading bullet : string) (o : option value) :
  returned (ReportGenerator.bullets heading bullet o) <->
  (truthy o = true -> returned (iterate (default (VList []) o))).
Proof.
  unfold ReportGenerator.bullets.
  destruct (truthy o); [|by split].
  destruct (iterate _) as [points|e]; cbn; split; auto.
Qed.

Lemma bullets_length (heading bullet : string) (o : option value)
    (lines : list string) :
  ReportGenerator.bullets heading bullet o = Return lines ->
  exists points : list value,
    (truthy o = true -> iterate (default (VList []) o) = Return points) /\
    length lines = if truthy o then S (length points) else 0%nat.
Proof.
  unfold ReportGenerator.bullets. destruct (truthy o).
  - destruct (iterate _) as [points|e]; [|done]. cbn. intros ?; simplify_eq.
    exists points. split; [done|]. cbn. by rewrite length_fmap.
  - intros ?; simplify_eq. by exists [].
Qed.

Lemma listing_returned (label : string) (o : option value) :
  returned (ReportGenerator.listing label o) <->
  (truthy o = true ->
   exists texts : list string,
     iterate (default (VList []) o) = Return (VStr <$> texts)).
Proof.
  unfold ReportGenerator.listing, join_value.
  destruct (truthy o); [|by split].
  destruct (iterate _) as [items|e]; cbn.
  - destruct (texts_from 0 items) as [texts|e] eqn:Htexts; cbn.
    + apply texts_from_returns in Htexts as ->. split; [|done].
      intros _ _. by exists texts.
    + split; [done|]. intros Hall. destruct (Hall eq_refl) as [texts Htexts'].
      simplify_eq. assert (texts_from 0 (VStr <$> texts) = Return texts) as Hok
        by by apply texts_from_returns.
      congruence.
  - split; [done|]. intros Hall. by destruct (Hall eq_refl).
Qed.

Lemma listing_length (label : string) (o : option value) (lines : list string) :
  ReportGenerator.listing label o = Return lines ->
  length lines = if truthy o then 1%nat else 0%nat.
Proof.
  unfold ReportGenerator.listing. destruct (truthy o).
  - destruct (join_value _ _) as [text|e]; [|done]. cbn. by intros ?; simplify_eq.
  - by intros ?; simplify_eq.
Qed.

(** The lines are those around the lines of the four statements that can
    raise, when none of them does. *)
Lemma report_lines_returns (report : Report.t) (lines : list string) :
  let summary := default ReportGenerator.no_summary (Report.summary report) in
  let keywords := default ReportGenerator.no_keywords (Report.keywords report) in
  ReportGenerator.report_lines report = Return lines <->
  exists key_points keyword_line theme_line topic_line : list string,
    ReportGenerator.bullets "Key Points:" "  • " (SummaryDict.key_points summary)
      = Return key_points /\
    ReportGenerator.listing "Keywords: " (KeywordsDict.keywords keywords)
      = Return keyword_line /\
    ReportGenerator.listing "Themes: " (KeywordsDict.themes keywords)
      = Return theme_line /\
    ReportGenerator.listing "Topics of Interest: "
      (KeywordsDict.topics_of_interest keywords) = Return topic_line /\
    lines = ReportGenerator.lines_around report key_points keyword_line
              theme_line topic_line.
Proof.
  cbn zeta. unfold ReportGenerator.report_lines.
  destruct (ReportGenerator.bullets _ _ _) as [kp|e1]; cbn;
    [|split; [done|by intros (? & ? & ? & ? & ? & _)]].
  destruct (ReportGenerator.listing "Keywords: " _) as [kw|e2]; cbn;
    [|split; [done|by intros (? & ? & ? & ? & _ & ? & _)]].
  destruct (ReportGenerator.listing "Themes: " _) as [th|e3]; cbn;
    [|split; [done|by intros (? & ? & ? & ? & _ & _ & ? & _)]].
  destruct (ReportGenerator.listing "Topics of Interest: " _) as [tp|e4]; cbn;
    [|split; [done|by intros (? & ? & ? & ? & _ & _ & _ & ? & _)]].
  split.
  - intros ?; simplify_eq. by exists kp, kw, th, tp.
  - intros (? & ? & ? & ? & ? & ? & ? & ? & ->). by simplify_eq.
Qed.

(** Membership in the list of lines, section by section. *)
Lemma lines_around_elem (report : Report.t)
    (key_points keyword_line theme_line topic_line : list string) (line : string) :
  let summary := default ReportGenerator.no_summary (Report.summary report) in
  let trends := default ReportGenerator.no_trends (Report.trends report) in
  let stats := default ReportGenerator.no_statistics (Report.statistics report) in
  line ∈ [ ("Summary: " ++
              format_value (default (VStr "N/A") (SummaryDict.summary summary)))%string;
           ("Overall Tone: " ++
              format_value
                (default (VStr "N/A") (SummaryDict.overall_tone summary)))%string;
           ("Mood Journey: " ++
              format_value
                (default (VStr "N/A") (SummaryDict.user_mood_journey summary)))%string;
           ("Trend: " ++ default "N/A" (TrendDict.trend trends))%string;
           ("Direction: " ++ default "N/A" (TrendDict.direction trends))%string;
           ("Analysis: " ++ default "N/A" (TrendDict.analysis trends))%string;
           ("Prediction: " ++ default "N/A" (TrendDict.prediction trends))%string;
           ("Total Messages Analyzed: " ++
              pretty (default 0%nat (StatsDict.total_messages stats)))%string;
           ("Average Confidence: " ++
              format_percent (default 0%float (StatsDict.average_confidence stats)))%string;
           ("Dominant Sentiment: " ++
              default "N/A" (StatsDict.dominant_sentiment stats))%string;
           ("Dominant Emotion: " ++
              default "N/A" (StatsDict.dominant_emotion stats))%string;
           default "No visualization available." (Report.mood_graph report);
           default "No profile available." (Report.emotion_profile report) ] ->
  line ∈ ReportGenerator.lines_around report key_points keyword_line theme_line
           topic_line.
Proof.
  cbn zeta. unfold ReportGenerator.lines_around.
  rewrite !elem_of_cons, !elem_of_app, !elem_of_cons.
  intros Hline.
  repeat (destruct Hline as [->|Hline]; [tauto|]).
  by apply elem_of_nil in Hline.
Qed.

(** The number of lines: the 38 every report has, and those of the
    sections. *)
Lemma lines_around_length (report : Report.t)
    (key_points keyword_line theme_line topic_line : list string) :
  let trends := default ReportGenerator.no_trends (Report.trends report) in
  let stats := default ReportGenerator.no_statistics (Report.statistics report) in
  let sentiment_dist := default [] (StatsDict.sentiment_distribution stats) in
  let emotion_dist := default [] (StatsDict.emotion_distribution stats) in
  length (ReportGenerator.lines_around report key_points keyword_line theme_line
            topic_line) =
  (38 + length key_points
   + (if ReportGenerator.nonempty (TrendDict.mood_shifts trends)
      then S (length (ReportGenerator.items (TrendDict.mood_shifts trends)))
      else 0)
   + length keyword_line + length theme_line + length topic_line
   + (match sentiment_dist with [] => 0 | _ :: _ => S (length sentiment_dist) end)
   + (match emotion_dist with
      | [] => 0
      | _ :: _ => S (5 `min` length emotion_dist)
      end))%nat.
Proof.
  cbn zeta. unfold ReportGenerator.lines_around, ReportGenerator.text_bullets.
  rewrite !length_app. cbn [length].
  assert (forall d : counter,
            length (match d with
                    | [] => []
                    | _ :: _ =>
                        (nl ++ "Sentiment Distribution:")%string
                        :: (ReportGenerator.count_line <$> d)
                    end)
            = match d with [] => 0 | _ :: _ => S (length d) end)%nat as Hs.
  { intros [|x d]; [done|]. cbn [length]. by rewrite length_fmap. }
  assert (forall d : counter,
            length (match d with
                    | [] => []
                    | _ :: _ =>
                        (nl ++ "Emotion Distribution:")%string
                        :: (ReportGenerator.count_line <$>
                              take 5 (sorted_by_count_desc d))
                    end)
            = match d with [] => 0 | _ :: _ => S (5 `min` length d) end)%nat as He.
  { intros [|x d]; [done|]. cbn [length].
    rewrite length_fmap, length_take.
    assert (length (sorted_by_count_desc (x :: d)) = length (x :: d)) as ->; [|done].
    generalize (x :: d). intros l. unfold sorted_by_count_desc.
    induction l as [|y l IH]; [done|]. cbn [foldr length]. rewrite <- IH.
    generalize (foldr insert_by_count [] l). intros r.
    induction r as [|z r IHr]; [done|]. cbn [insert_by_count].
    destruct (y.2 <? z.2)%nat; cbn [length]; [by rewrite IHr|done]. }
  rewrite Hs, He.
  destruct (ReportGenerator.nonempty _); cbn [length];
    rewrite ?length_fmap; lia.
Qed.

End Rendering.

(** C8, as the code has it.  [generate_text_report] raises what a call of the
    service raised before the rendering, and the rendering of a report returns
    a text exactly when the value under [key_points] is false or can be
    iterated over, and each of the values under [keywords], [themes] and
    [topics_of_interest] is false or iterates over texts; otherwise the loop
    or [join] raises.  In the lines of a rendered report, an absent summary,
    overall tone, mood journey, trend, direction, analysis, prediction,
    dominant sentiment or dominant emotion is printed as N/A; an absent
    message count as 0, an absent average confidence as 0.0%, an absent mood
    graph as "No visualization available." and an absent emotion profile as
    "No profile available.".  A list or distribution that is absent or empty
    adds no line: the report has its 38 lines and, for each list and
    distribution that is present and not empty, the lines of that section.
    The text for the report without any key is the example. *)
Theorem report_renders_placeholders `{Externals} :
  (forall (conversation_history : list MessageDict.t)
          (sentiment_history : list SentimentDict.t) (w : World),
     match ConversationAnalytics.get_full_report conversation_history
             sentiment_history w with
     | (w', Return report) =>
         ReportGenerator.generate_text_report conversation_history
           sentiment_history w = (w', ReportGenerator.render report)
     | (w', Raise e) =>
         ReportGenerator.generate_text_report conversation_history
           sentiment_history w = (w', Raise e)
     end) /\
  (forall report : Report.t,
     let summary := default ReportGenerator.no_summary (Report.summary report) in
     let keywords := default ReportGenerator.no_keywords (Report.keywords report) in
     let joins (o : option value) :=
       truthy o = true ->
       exists texts : list string,
         iterate (default (VList []) o) = Return (VStr <$> texts) in
     returned (ReportGenerator.render report) <->
     (truthy (SummaryDict.key_points summary) = true ->
      returned (iterate (default (VList []) (SummaryDict.key_points summary)))) /\
     joins (KeywordsDict.keywords keywords) /\
     joins (KeywordsDict.themes keywords) /\
     joins (KeywordsDict.topics_of_interest keywords)) /\
  (forall (report : Report.t) (text : string),
     ReportGenerator.render report = Return text ->
     let summary := default ReportGenerator.no_summary (Report.summary report) in
     let trends := default ReportGenerator.no_trends (Report.trends report) in
     let keywords := default ReportGenerator.no_keywords (Report.keywords report) in
     let stats := default ReportGenerator.no_statistics (Report.statistics report) in
     let sentiment_dist := default [] (StatsDict.sentiment_distribution stats) in
     let emotion_dist := default [] (StatsDict.emotion_distribution stats) in
     exists (lines : list string) (points : list value),
       text = join nl lines /\
       ReportGenerator.report_lines report = Return lines /\
       (SummaryDict.summary summary = None -> "Summary: N/A" ∈ lines) /\
       (SummaryDict.overall_tone summary = None -> "Overall Tone: N/A" ∈ lines) /\
       (SummaryDict.user_mood_journey summary = None -> "Mood Journey: N/A" ∈ lines) /\
       (TrendDict.trend trends = None -> "Trend: N/A" ∈ lines) /\
       (TrendDict.direction trends = None -> "Direction: N/A" ∈ lines) /\
       (TrendDict.analysis trends = None -> "Analysis: N/A" ∈ lines) /\
       (TrendDict.prediction trends = None -> "Prediction: N/A" ∈ lines) /\
       (StatsDict.dominant_sentiment stats = None ->
          "Dominant Sentiment: N/A" ∈ lines) /\
       (StatsDict.dominant_emotion stats = None -> "Dominant Emotion: N/A" ∈ lines) /\
       (StatsDict.total_messages stats = None ->
          "Total Messages Analyzed: 0" ∈ lines) /\
       (StatsDict.average_confidence stats = None ->
          "Average Confidence: 0.0%" ∈ lines) /\
       (Report.mood_graph report = None -> "No visualization available." ∈ lines) /\
       (Report.emotion_profile report = None -> "No profile available." ∈ lines) /\
       (truthy (SummaryDict.key_points summary) = true ->
        iterate (default (VList []) (SummaryDict.key_points summary))
          = Return points) /\
       length lines =
         (38
          + (if truthy (SummaryDict.key_points summary)
             then S (length points) else 0)
          + (if ReportGenerator.nonempty (TrendDict.mood_shifts trends)
             then S (length (ReportGenerator.items (TrendDict.mood_shifts trends)))
             else 0)
          + (if truthy (KeywordsDict.keywords keywords) then 1 else 0)
          + (if truthy (KeywordsDict.themes keywords) then 1 else 0)
          + (if truthy (KeywordsDict.topics_of_interest keywords) then 1 else 0)
          + (match sentiment_dist with
             | [] => 0
             | _ :: _ => S (length sentiment_dist)
             end)
          + (match emotion_dist with
             | [] => 0
             | _ :: _ => S (5 `min` length emotion_dist)
             end))%nat) /\
  ReportGenerator.render ReportGenerator.no_report = Return (join nl
  [ "============================================================";
    "           CONVERSATION ANALYTICS REPORT";
    "============================================================";
    "";
    "📊 CONVERSATION SUMMARY";
    "----------------------------------------";
    "Summary: N/A";
    "Overall Tone: N/A";
    "Mood Journey: N/A";
    "";
    "📈 SENTIMENT TRENDS";
    "----------------------------------------";
    "Trend: N/A";
    "Direction: N/A";
    "Analysis: N/A";
    "Prediction: N/A";
    "";
    "🔑 KEYWORDS & THEMES";
    "----------------------------------------";
    "";
    "📉 STATISTICS";
    "----------------------------------------";
    "Total Messages Analyzed: 0";
    "Average Confidence: 0.0%";
    "Dominant Sentiment: N/A";
    "Dominant Emotion: N/A";
    "";
    "📊 MOOD VISUALIZATION";
    "----------------------------------------";
    "No visualization available.";
    "";
    "🎭 EMOTION PROFILE";
    "----------------------------------------";
    "No profile available.";
    "";
    "============================================================";
    "           END OF REPORT";
    "============================================================" ]).
Proof.
  split; [|split; [|split]].
  - intros conversation_history sentiment_history w.
    unfold ReportGenerator.generate_text_report, ConversationAnalytics.bind.
    by destruct (ConversationAnalytics.get_full_report _ _ w) as [w' [report|e]].
  - intros report. cbn zeta.
    rewrite <- bullets_returned with (heading := "Key Points:") (bullet := "  • ").
    rewrite <- (listing_returned "Keywords: "), <- (listing_returned "Themes: "),
      <- (listing_returned "Topics of Interest: ").
    unfold ReportGenerator.render, ReportGenerator.report_lines.
    destruct (ReportGenerator.bullets _ _ _) as [kp|e1]; cbn; [|tauto].
    destruct (ReportGenerator.listing "Keywords: " _) as [kw|e2]; cbn; [|tauto].
    destruct (ReportGenerator.listing "Themes: " _) as [th|e3]; cbn; [|tauto].
    destruct (ReportGenerator.listing "Topics of Interest: " _) as [tp|e4]; cbn; tauto.
  - intros report text Hrender. cbn zeta.
    unfold ReportGenerator.render in Hrender.
    destruct (ReportGenerator.report_lines report) as [lines|e] eqn:Hlines; [|done].
    cbn in Hrender. simplify_eq.
    apply report_lines_returns in Hlines
      as (kp & kw & th & tp & Hkp & Hkw & Hth & Htp & ->).
    destruct (bullets_length _ _ _ _ Hkp) as (points & Hpoints & Hlen).
    exists (ReportGenerator.lines_around report kp kw th tp), points.
    split; [done|]. split; [done|].
    repeat match goal with
           | |- (_ = None -> _) /\ _ =>
               split; [intros Habsent; apply lines_around_elem; cbn zeta;
                       rewrite Habsent; cbn [default format_value];
                       rewrite !elem_of_cons; tauto|]
           end.
    split; [done|].
    rewrite lines_around_length, Hlen.
    by rewrite (listing_length _ _ _ Hkw), (listing_length _ _ _ Htp),
      (listing_length _ _ _ Hth).
  - vm_compute. reflexivity.
Qed.

(** C8, as stated, fails twice.  The report is not rendered for every record:
    when the service answers the keywords with a list that holds a number,
    every call of the service returns and [join] raises [TypeError].  And
    absent fields are not all printed as N/A: in the text for the report
    without any key, the line of the mood graph reads "No visualization
    available.", the line of the emotion profile "No profile available.", the
    count 0 and the confidence 0.0%; and when the service answers the trend
    analysis with an empty dictionary, the report prints the defaults of
    [analyze_trends] (stable, neutral, ...), not N/A. *)
Lemma report_can_raise_and_not_all_na :
  (exists report : Report.t,
     ConversationAnalytics.get_full_report (H := Scripted.externals)
       [Scripted.greeting] [] 0%nat = (0%nat, Return report) /\
     Report.keywords report
       = Some {| KeywordsDict.keywords := Some (VList [VInt 1]);
                 KeywordsDict.themes := None;
                 KeywordsDict.topics_of_interest := None |} /\
     ReportGenerator.generate_text_report (H := Scripted.externals)
       [Scripted.greeting] [] 0%nat
       = (0%nat,
          Raise (Error "sequence item 0: expected str instance, int found"))) /\
  (exists lines : list string,
     ReportGenerator.report_lines (H := Scripted.externals)
       ReportGenerator.no_report = Return lines /\
     lines !! 22%nat = Some "Total Messages Analyzed: 0" /\
     lines !! 23%nat = Some "Average Confidence: 0.0%" /\
     lines !! 29%nat = Some "No visualization available." /\
     lines !! 33%nat = Some "No profile available." /\
     filter (fun line => mentions "N/A" line = true) (drop 26 lines) = []) /\
  (exists text : string,
     ReportGenerator.generate_text_report (H := Scripted.externals) [] [] 0%nat
       = (0%nat, Return text) /\
     mentions "Trend: stable" text = true /\
     mentions "Direction: neutral" text = true /\
     mentions "Analysis: No analysis available." text = true /\
     mentions "Prediction: Unable to predict." text = true /\
     mentions "Trend: N/A" text = false /\
     mentions "Direction: N/A" text = false /\
     mentions "Analysis: N/A" text = false /\
     mentions "Prediction: N/A" text = false).
Proof.
  split; [|split].
  - eexists. split; [vm_compute; reflexivity|].
    split; vm_compute; reflexivity.
  - eexists. split; [vm_compute; reflexivity|].
    vm_compute. repeat split.
  - eexists. split; [vm_compute; reflexivity|].
    vm_compute. repeat split.
Qed.

(** ** The roles in the history, and the tallies of [get_statistics] *)

Lemma roles_after_succ (n : nat) :
  Session.roles_after n ++ [USER; ASSISTANT] = Session.roles_after (S n).
Proof.
  unfold Session.roles_after. cbn [app]. f_equal.
  induction n as [|n IH]; [done|].
  cbn [replicate concat]. rewrite <- app_assoc, IH. done.
Qed.

Section Roles.
Context `{Externals}.

Lemma init_roles (system_prompt : option string) (w : World) :
  Message.role <$> Chatbot.history (Chatbot.init system_prompt w).2 = [SYSTEM].
Proof.
  unfold Chatbot.init, Chatbot._add_system_message, Message.new.
  by destruct (datetime_now w).
Qed.

Lemma reset_roles (self : Chatbot.t) (w : World) :
  Message.role <$> Chatbot.history (Chatbot.reset self w).2 = [SYSTEM].
Proof.
  unfold Chatbot.reset, Chatbot._add_system_message, Message.new.
  by destruct (datetime_now w).
Qed.

Lemma run_roles (ops : list Session.op) (self self' : Chatbot.t)
    (w w' : World) (n : nat) :
  Message.role <$> Chatbot.history self = Session.roles_after n ->
  Session.run ops self w = (w', self', Return ()) ->
  Message.role <$> Chatbot.history self' =
    Session.roles_after (foldl Session.count_turn n ops).
Proof.
  revert self w n. induction ops as [|o ops IH]; intros self w n Hroles Hrun.
  - cbn in Hrun. by simplify_eq.
  - cbn [Session.run] in Hrun. cbn [foldl].
    destruct (Session.step self o w) as [[w1 self1] [[]|e]] eqn:Hstep; [|done].
    refine (IH self1 w1 _ _ Hrun). clear IH Hrun.
    destruct o as [user_message| |personality];
      cbn [Session.step] in Hstep; cbn [Session.count_turn].
    + destruct (chat_effect self user_message w) as (user & Hu & _ & _ & Heff).
      destruct (Chatbot.chat self user_message w) as [[w2 self2] [r|e]]; [|done].
      simplify_eq. destruct Heff as (assistant & -> & Ha & _).
      rewrite fmap_app, Hroles. cbn [fmap list_fmap].
      rewrite Hu, Ha. apply roles_after_succ.
    + pose proof (reset_roles self w) as Hreset.
      destruct (Chatbot.reset self w) as [w2 self2]. by simplify_eq.
    + revert Hstep. unfold Chatbot.set_personality, Message.new.
      destruct self as [analyzer [|first rest] state prompt];
        cbn in Hroles |- *; [done|].
      case_bool_decide as Hfirst.
      * destruct (datetime_now w) as [w2 t]. intros ?; simplify_eq. cbn.
        rewrite <- Hroles, Hfirst. done.
      * intros ?; simplify_eq. done.
Qed.

Lemma tallies_of_roles (h : list Message.t) (n : nat) :
  Message.role <$> h = concat (replicate n [USER; ASSISTANT]) ->
  length (filter (fun m => Message.role m = USER) h) = n /\
  length (filter (fun m => Message.role m = ASSISTANT) h) = n /\
  length h = (2 * n)%nat.
Proof.
  revert h. induction n as [|n IH]; intros h Hroles.
  - destruct h; [done|discriminate].
  - destruct h as [|user [|assistant h]]; [discriminate..|].
    cbn in Hroles. injection Hroles as Hu Ha Hrest.
    destruct (IH h Hrest) as (IHu & IHa & IHl).
    rewrite !filter_cons, Hu, Ha.
    repeat case_decide; try done. cbn [length]. lia.
Qed.

End Roles.

(** X1.  After a run of completed turns from a fresh [Chatbot], the history is the
    system message followed by the pairs of a user message and an assistant
    message of the turns since the last reset, and [get_statistics] tallies
    that many user messages, that many assistant messages and twice as many
    messages in total. *)
Theorem statistics_tally_completed_turns `{Externals}
    (system_prompt : option string) (ops : list Session.op)
    (w w' : World) (self' : Chatbot.t) :
  Session.run ops (Chatbot.init system_prompt w).2 (Chatbot.init system_prompt w).1
    = (w', self', Return ()) ->
  let n := Session.turns_since_reset ops in
  Message.role <$> Chatbot.history self' = Session.roles_after n /\
  Chatbot.user_messages (Chatbot.get_statistics self') = n /\
  Chatbot.assistant_messages (Chatbot.get_statistics self') = n /\
  Chatbot.total_messages (Chatbot.get_statistics self') = (2 * Z.of_nat n)%Z.
Proof.
  intros Hrun. cbn zeta.
  assert (Message.role <$> Chatbot.history self' =
          Session.roles_after (Session.turns_since_reset ops)) as Hroles.
  { exact (run_roles ops _ _ _ _ 0 (init_roles system_prompt w) Hrun). }
  split; [done|].
  unfold Chatbot.get_statistics; cbn.
  destruct (Chatbot.history self') as [|first rest]; [discriminate|].
  cbn in Hroles. unfold Session.roles_after in Hroles.
  injection Hroles as Hfirst Hrest.
  destruct (tallies_of_roles rest _ Hrest) as (Hu & Ha & Hl).
  rewrite !filter_cons, Hfirst.
  repeat case_decide; try done.
  rewrite Hu, Ha. cbn [length]. repeat split; try done. lia.
Qed.

(** The scripted session ends with one turn since its reset. *)
Lemma statistics_tally_completed_turns_witness :
  Chatbot.user_messages
    (Chatbot.get_statistics
       (Session.run (H := Scripted.externals) Scripted.script
          Scripted.fresh 1%nat).1.2)
  = Session.turns_since_reset Scripted.script.
Proof.
  apply (statistics_tally_completed_turns (H := Scripted.externals)
           None Scripted.script 0%nat
           (Session.run (H := Scripted.externals) Scripted.script
              Scripted.fresh 1%nat).1.1).
  vm_compute. reflexivity.
Defined.

(** ** The constructor and the empty prompt *)

(** X2.  The constructor stores the prompt it is given, and the default one when it
    is given none or the empty string; [reset] seeds the history with the
    stored prompt.  So after [set_personality] with the empty string, [reset]
    seeds an empty system message, while a constructor call with the empty
    string seeds the default prompt. *)
Theorem init_defaults_empty_prompt `{Externals} (self : Chatbot.t) (w w1 w2 : World) :
  Chatbot.system_prompt (Chatbot.init None w).2 = Chatbot.default_system_prompt /\
  Chatbot.system_prompt (Chatbot.init (Some "") w).2 = Chatbot.default_system_prompt /\
  (forall p : string, p <> "" -> Chatbot.system_prompt (Chatbot.init (Some p) w).2 = p) /\
  Message.content <$> Chatbot.history (Chatbot.init (Some "") w).2
    = [Chatbot.default_system_prompt] /\
  Message.content <$>
    Chatbot.history
      (Chatbot.reset (Chatbot.set_personality self "" w1).2 w2).2
    = [""].
Proof.
  split; [|split; [|split; [|split]]].
  5: { assert (forall (b : Chatbot.t) (v : World),
                 Message.content <$> Chatbot.history (Chatbot.reset b v).2
                 = [Chatbot.system_prompt b]) as Hseed.
       { intros b v.
         unfold Chatbot.reset, Chatbot._add_system_message, Message.new.
         by destruct (datetime_now v). }
       by rewrite Hseed, set_personality_prompt. }
  all: unfold Chatbot.init, Chatbot._add_system_message, Message.new.
  - by destruct (datetime_now w).
  - by destruct (datetime_now w).
  - intros p Hp. rewrite bool_decide_eq_false_2 by done. by destruct (datetime_now w).
  - by destruct (datetime_now w).
Qed.

(** ** The shape of an agent across requests *)

Section Consistency.
Context `{Externals}.

Lemma init_consistent (system_prompt : option string) (w : World) :
  Requests.consistent (Chatbot.init system_prompt w).2.
Proof.
  unfold Chatbot.init, Chatbot._add_system_message, Message.new.
  destruct (datetime_now w) as [w1 t]. cbn.
  split; cbn; [|done..].
  eexists _, []. by repeat split.
Qed.

Lemma reset_consistent (self : Chatbot.t) (w : World) :
  Requests.consistent (Chatbot.reset self w).2.
Proof.
  unfold Chatbot.reset, Chatbot._add_system_message, Message.new.
  destruct (datetime_now w) as [w1 t]. cbn.
  split; cbn; [|done..].
  eexists _, []. by repeat split.
Qed.

Lemma set_personality_consistent (self : Chatbot.t) (personality : string)
    (w : World) :
  Requests.consistent self ->
  Requests.consistent (Chatbot.set_personality self personality w).2.
Proof.
  intros [(system & turns & Hhist & Hrole & Hcontent & Hnone & Hturns) Hsent Hstate].
  unfold Chatbot.set_personality, Message.new.
  destruct self as [analyzer history state prompt]; cbn in *. subst history.
  rewrite bool_decide_eq_true_2 by done.
  destruct (datetime_now w) as [w1 t]. cbn.
  split; cbn; [|by cbn in Hsent; rewrite Hnone in Hsent|done].
  eexists _, turns. by repeat split.
Qed.

Lemma chat_consistent (self : Chatbot.t) (user_message : string) (w : World) :
  Requests.consistent self ->
  Requests.consistent (Chatbot.chat self user_message w).1.2.
Proof.
  intros [(system & turns & Hhist & Hrole & Hcontent & Hnone & Hturns) Hsent Hstate].
  destruct (chat_effect self user_message w) as (user & Hu & _ & Hus & Heff).
  destruct (Chatbot.chat self user_message w) as [[w1 self1] [r|e]]; cbn [fst snd].
  - destruct Heff as (assistant & Hhist1 & Ha & _ & Has & _ & Hst & Hrec & Hprompt).
    split.
    + exists system, (turns ++ [[user; assistant]]).
      rewrite Hhist1, Hhist, concat_app. cbn [concat]. rewrite app_nil_r.
      repeat split; try done; [congruence|].
      apply Forall_app. split; [done|]. apply Forall_singleton. cbn.
      rewrite Hus. by repeat split.
    + rewrite Hhist1, omap_app, Hsent, Hrec. cbn. by rewrite Hus, Has.
    + rewrite Hst, Hrec, foldl_app, <- Hstate. done.
  - destruct Heff as (Hhist1 & Hst & Hrec & Hprompt).
    split.
    + exists system, (turns ++ [[user]]).
      rewrite Hhist1, Hhist, concat_app. cbn [concat]. rewrite app_nil_r.
      repeat split; try done; [congruence|].
      apply Forall_app. split; [done|]. apply Forall_singleton. cbn.
      rewrite Hus. by repeat split.
    + rewrite Hhist1, omap_app, Hsent, Hrec. cbn. by rewrite Hus.
    + rewrite Hst, Hrec, foldl_app, <- Hstate. done.
Qed.

Lemma serve_consistent (self : Chatbot.t) (o : Session.op) (w : World) :
  Requests.consistent self -> Requests.consistent (Requests.serve self o w).2.
Proof.
  intros Hself. unfold Requests.serve.
  destruct o as [user_message| |personality]; cbn [Session.step].
  - pose proof (chat_consistent self user_message w Hself) as Hchat.
    by destruct (Chatbot.chat self user_message w) as [[w1 self1] [r|e]].
  - pose proof (reset_consistent self w) as Hreset.
    by destruct (Chatbot.reset self w).
  - pose proof (set_personality_consistent self personality w Hself) as Hset.
    by destruct (Chatbot.set_personality self personality w).
Qed.

Lemma serve_all_consistent (ops : list Session.op) (self : Chatbot.t) (w : World) :
  Requests.consistent self -> Requests.consistent (Requests.serve_all ops self w).2.
Proof.
  revert self w. induction ops as [|o ops IH]; intros self w Hself; [done|].
  cbn [Requests.serve_all].
  pose proof (serve_consistent self o w Hself) as Hserve.
  destruct (Requests.serve self o w) as [w1 self1]. by apply IH.
Qed.

End Consistency.

Section AcrossRequests.
Context `{Externals}.

Lemma turns_tally (turns : list (list Message.t)) :
  Forall Requests.is_turn turns ->
  length (filter (fun m => Message.role m = USER) (concat turns)) = length turns /\
  length (omap Message.sentiment (concat turns)) = length turns /\
  (length (filter (fun m => Message.role m = ASSISTANT) (concat turns))
     <= length turns)%nat /\
  Forall (fun m => Message.role m <> SYSTEM) (concat turns).
Proof.
  induction 1 as [|t turns Ht _ (IHu & IHs & IHa & IHn)]; [done|].
  destruct t as [|user [|assistant [|]]]; try done; cbn in Ht.
  - destruct Ht as (Hu & [result Hs]).
    cbn - [filter]. rewrite !filter_cons, Hu, Hs. cbn.
    repeat case_decide; try done.
    split; [cbn; lia|]. split; [cbn; lia|]. split; [cbn; lia|].
    apply Forall_cons. split; [by rewrite Hu|done].
  - destruct Ht as (Hu & [result Hs] & Ha & Has).
    cbn - [filter]. rewrite !filter_cons, Hu, Ha, Hs, Has. cbn.
    repeat case_decide; try done.
    split; [cbn; lia|]. split; [cbn; lia|]. split; [cbn; lia|].
    repeat (apply Forall_cons; split); [by rewrite Hu|by rewrite Ha|done].
Qed.

Lemma chat_user_messages (self : Chatbot.t) (user_message : string) (w : World) :
  Chatbot.get_user_messages (Chatbot.chat self user_message w).1.2 =
  Chatbot.get_user_messages self ++ [user_message].
Proof.
  unfold Chatbot.get_user_messages.
  destruct (chat_effect self user_message w) as (user & Hu & Hc & _ & Heff).
  destruct (Chatbot.chat self user_message w) as [[w1 self1] [r|e]]; cbn [fst snd].
  - destruct Heff as (assistant & -> & Ha & _).
    rewrite filter_app, fmap_app, !filter_cons, filter_nil, Hu, Ha.
    repeat case_decide; try done. cbn. by rewrite Hc.
  - destruct Heff as (-> & _).
    rewrite filter_app, fmap_app, !filter_cons, filter_nil, Hu.
    repeat case_decide; try done. cbn. by rewrite Hc.
Qed.

Lemma reset_user_messages (self : Chatbot.t) (w : World) :
  Chatbot.get_user_messages (Chatbot.reset self w).2 = [].
Proof.
  unfold Chatbot.get_user_messages, Chatbot.reset, Chatbot._add_system_message,
    Message.new.
  by destruct (datetime_now w) as [w1 t].
Qed.

Lemma init_user_messages (system_prompt : option string) (w : World) :
  Chatbot.get_user_messages (Chatbot.init system_prompt w).2 = [].
Proof.
  unfold Chatbot.get_user_messages, Chatbot.init, Chatbot._add_system_message,
    Message.new.
  by destruct (datetime_now w) as [w1 t].
Qed.

Lemma set_personality_user_messages (self : Chatbot.t) (personality : string)
    (w : World) :
  Chatbot.get_user_messages (Chatbot.set_personality self personality w).2 =
  Chatbot.get_user_messages self.
Proof.
  unfold Chatbot.get_user_messages, Chatbot.set_personality, Message.new.
  destruct self as [analyzer [|first rest] state prompt]; cbn - [filter]; [done|].
  case_bool_decide as Hfirst; [|done].
  destruct (datetime_now w) as [w1 t]. cbn - [filter].
  rewrite !filter_cons. cbn. rewrite Hfirst. by repeat case_decide.
Qed.

Lemma serve_all_user_messages (ops : list Session.op) (self : Chatbot.t) (w : World) :
  Chatbot.get_user_messages (Requests.serve_all ops self w).2 =
  foldl Requests.record_text (Chatbot.get_user_messages self) ops.
Proof.
  revert self w. induction ops as [|o ops IH]; intros self w; [done|].
  cbn [Requests.serve_all foldl]. unfold Requests.serve.
  destruct o as [user_message| |personality]; cbn [Session.step Requests.record_text].
  - rewrite <- chat_user_messages with (w := w).
    destruct (Chatbot.chat self user_message w) as [[w1 self1] [r|e]]; apply IH.
  - rewrite <- (reset_user_messages self w).
    destruct (Chatbot.reset self w) as [w1 self1]. apply IH.
  - rewrite <- (set_personality_user_messages self personality w).
    destruct (Chatbot.set_personality self personality w) as [w1 self1]. apply IH.
Qed.

Lemma update_reserved (st : ConversationState.t) (results : list SentimentResult.t) :
  ConversationState.topics_discussed (foldl ConversationState.update st results) =
    ConversationState.topics_discussed st /\
  ConversationState.sentiment_trend (foldl ConversationState.update st results) =
    ConversationState.sentiment_trend st.
Proof.
  revert st. induction results as [|r results IH]; intros st; [done|].
  cbn [foldl]. destruct (IH (ConversationState.update st r)) as [-> ->]. done.
Qed.

End AcrossRequests.

(** X3.  However the calls of a session went (turns completed or failed, resets,
    changes of personality), the history of the agent is one system message,
    which carries the stored system prompt, followed by turns: a user message
    with its sentiment, and after it the assistant message without sentiment
    unless the reply failed.  No other system message occurs. *)
Theorem history_is_system_then_turns `{Externals}
    (system_prompt : option string) (ops : list Session.op) (w : World) :
  let self :=
    (Requests.serve_all ops (Chatbot.init system_prompt w).2
       (Chatbot.init system_prompt w).1).2 in
  exists (system : Message.t) (turns : list (list Message.t)),
    Chatbot.history self = system :: concat turns /\
    Message.role system = SYSTEM /\
    Message.content system = Chatbot.system_prompt self /\
    Message.sentiment system = None /\
    Forall Requests.is_turn turns /\
    Forall (fun m => Message.role m <> SYSTEM) (concat turns).
Proof.
  cbn zeta.
  destruct (serve_all_consistent ops _ (Chatbot.init system_prompt w).1
              (init_consistent system_prompt w))
    as [(system & turns & Hhist & Hrole & Hcontent & Hnone & Hturns) _ _].
  exists system, turns. repeat split; try done.
  by apply turns_tally.
Qed.

Lemma attached_sentiment_dicts `{Externals} (h : list Message.t) :
  omap MessageDict.sentiment (Message.to_dict <$> h) =
  SentimentResult_to_dict <$> omap Message.sentiment h.
Proof.
  induction h as [|m h IH]; [done|]. cbn.
  destruct (Message.sentiment m); cbn; by rewrite IH.
Qed.

(** X4.  However the calls of a session went, the sentiments that [get_history]
    shows on the messages are, in order, the entries of
    [get_sentiment_history]; [get_statistics] counts as many user messages as
    the sentiment statistics count messages, and no more assistant messages
    than user messages. *)
Theorem history_sentiments_are_sentiment_history `{Externals}
    (system_prompt : option string) (ops : list Session.op) (w : World) :
  let self :=
    (Requests.serve_all ops (Chatbot.init system_prompt w).2
       (Chatbot.init system_prompt w).1).2 in
  omap MessageDict.sentiment (Chatbot.get_history self) =
    Chatbot.get_sentiment_history self /\
  Chatbot.user_messages (Chatbot.get_statistics self) =
    SentimentAnalyzer.total_messages
      (Chatbot.sentiment_stats (Chatbot.get_statistics self)) /\
  (Chatbot.assistant_messages (Chatbot.get_statistics self)
     <= Chatbot.user_messages (Chatbot.get_statistics self))%nat.
Proof.
  cbn zeta.
  destruct (serve_all_consistent ops _ (Chatbot.init system_prompt w).1
              (init_consistent system_prompt w))
    as [(system & turns & Hhist & Hrole & Hcontent & Hnone & Hturns) Hsent _].
  set (self := (Requests.serve_all ops _ _).2) in *.
  destruct (turns_tally turns Hturns) as (Hu & Hs & Ha & _).
  split.
  { unfold Chatbot.get_history, Chatbot.get_sentiment_history,
      SentimentAnalyzer.get_history_dicts.
    by rewrite attached_sentiment_dicts, Hsent. }
  unfold Chatbot.get_statistics, SentimentAnalyzer.get_summary_stats; cbn.
  rewrite <- Hsent, Hhist. cbn - [filter].
  rewrite !filter_cons, Hrole, Hnone.
  repeat case_decide; try done. lia.
Qed.

(** X5.  However the calls of a session went, the conversation state is the one
    the last sentiment result left: mood and last emotion are those of the last
    entry of the sentiment history (neutral when it is empty), and the two
    reserved fields keep their initial values, no topics and a stable trend. *)
Theorem state_reflects_last_sentiment `{Externals}
    (system_prompt : option string) (ops : list Session.op) (w : World) :
  let self :=
    (Requests.serve_all ops (Chatbot.init system_prompt w).2
       (Chatbot.init system_prompt w).1).2 in
  let results := SentimentAnalyzer.history (Chatbot.sentiment_analyzer self) in
  ConversationState.mood (Chatbot.state self) =
    default "neutral" (SentimentResult.sentiment <$> last results) /\
  ConversationState.last_emotion (Chatbot.state self) =
    default "neutral" (SentimentResult.emotion <$> last results) /\
  ConversationState.topics_discussed (Chatbot.state self) = [] /\
  ConversationState.sentiment_trend (Chatbot.state self) = "stable".
Proof.
  cbn zeta.
  destruct (serve_all_consistent ops _ (Chatbot.init system_prompt w).1
              (init_consistent system_prompt w)) as [_ _ ->].
  set (results := SentimentAnalyzer.history _).
  destruct (update_reserved ConversationState.init results) as [-> ->].
  destruct results as [|r results _] using rev_ind; [done|].
  rewrite foldl_app, last_snoc. done.
Qed.

(** X6.  However the calls of a session went, [get_user_messages] returns the texts
    given to [chat] since the construction or the last reset, in order, those
    of the turns whose reply failed included. *)
Theorem user_messages_are_texts_since_reset `{Externals}
    (system_prompt : option string) (ops : list Session.op) (w : World) :
  Chatbot.get_user_messages
    (Requests.serve_all ops (Chatbot.init system_prompt w).2
       (Chatbot.init system_prompt w).1).2
  = Requests.texts_since_reset ops.
Proof.
  rewrite serve_all_user_messages, init_user_messages. done.
Qed.

(** ** What [chat] asks of the service and what it returns *)

Lemma last_items_length {A} (n : nat) (l : list A) :
  n <> 0%nat -> length (last_items n l) = (n `min` length l)%nat.
Proof.
  intros Hn. unfold last_items. destruct n as [|n]; [done|].
  rewrite length_drop. lia.
Qed.

Lemma last_items_suffix {A} (n : nat) (l : list A) : last_items n l `suffix_of` l.
Proof. unfold last_items. destruct n; [done|]. apply suffix_drop. Qed.

Lemma last_items_last {A} (n : nat) (l : list A) (x : A) :
  n <> 0%nat -> last (last_items n (l ++ [x])) = Some x.
Proof.
  intros Hn. unfold last_items. destruct n as [|n]; [done|].
  rewrite last_lookup, length_drop, lookup_drop, length_app. cbn [length].
  replace (length l + 1 - S n + Init.Nat.pred (length l + 1 - (length l + 1 - S n)))%nat
    with (length l) by lia.
  by apply list_lookup_middle.
Qed.

(** [strip] removes white space of any script and nothing else: a
    no-break space (U+00A0) and an em space (U+2003) go with the blanks and
    the line feed around a text; a zero-width space (U+200B), which
    [str.isspace] rejects, stays, and so does white space inside the text. *)
Lemma strip_white_space_of_any_script :
  let nbsp := String "194" (String "160" "") in
  let em_space := String "226" (String "128" (String "131" "")) in
  let zero_width := String "226" (String "128" (String "139" "")) in
  strip (nbsp ++ " hi there" ++ em_space ++ nl)%string = "hi there" /\
  strip nbsp = "" /\
  strip (em_space ++ nbsp)%string = "" /\
  strip (" " ++ zero_width ++ "hi ")%string = (zero_width ++ "hi")%string /\
  strip ("a" ++ nbsp ++ "b")%string = ("a" ++ nbsp ++ "b")%string.
Proof. vm_compute. repeat split. Qed.

(** X7.  The reply of a turn is asked for with: the text of the user; a context of
    at most 10 entries, the last entries of the history once the user message
    is appended, so that its last entry is the user message itself; and as
    current mood the sentiment of this very message.  The turn returns the
    reply stripped of surrounding whitespace, or raises what the service
    raised. *)
Theorem reply_is_asked_with_bounded_context `{Externals}
    (self : Chatbot.t) (user_message : string) (w : World) :
  exists (context : list (string * string)) (sentiment_context : string)
         (w1 : World) (user : Message.t),
    length context = (10 `min` S (length (Chatbot.history self)))%nat /\
    last context = Some ("user", user_message) /\
    context `suffix_of`
      ((fun m => (role_value (Message.role m), Message.content m))
         <$> (Chatbot.history self ++ [user])) /\
    match generate_reply user_message context
            (SentimentResult.sentiment (classify user_message w).2)
            sentiment_context w1 with
    | (_, Return reply) =>
        exists r : Chatbot.ChatResult,
          (Chatbot.chat self user_message w).2 = Return r /\
          Chatbot.response r = strip reply
    | (_, Raise e) => (Chatbot.chat self user_message w).2 = Raise e
    end.
Proof.
  unfold Chatbot.chat, SentimentAnalyzer.analyze, Chatbot._add_message,
    Chatbot._generate_response, Message.new.
  destruct (classify user_message w) as [w1 result]; cbn [snd].
  destruct (datetime_now w1) as [w2 t1]. cbn [Chatbot.history Chatbot.set_history
    Chatbot.state Chatbot.set_state Chatbot.set_sentiment_analyzer
    ConversationState.mood ConversationState.update].
  set (user := {| Message.role := USER; Message.content := user_message;
                  Message.timestamp := t1; Message.sentiment := Some result |}).
  match goal with
  | |- context [generate_reply ?a ?b ?c ?d ?e] =>
      exists b, d, e, user
  end.
  split; [|split; [|split]].
  - rewrite length_fmap, last_items_length by done.
    rewrite length_app. cbn [length]. lia.
  - rewrite fmap_last, last_items_last by done. done.
  - destruct (last_items_suffix 10 (Chatbot.history self ++ [user])) as [k Hk].
    exists ((fun m => (role_value (Message.role m), Message.content m)) <$> k).
    by rewrite <- fmap_app, <- Hk.
  - match goal with
    | |- context [generate_reply ?a ?b ?c ?d ?e] =>
        destruct (generate_reply a b c d e) as [w3 [reply|e']]
    end.
    + destruct (datetime_now w3) as [w4 t2]. cbn. by eexists.
    + done.
Qed.

Lemma chat_result_state `{Externals} (self self' : Chatbot.t) (user_message : string)
    (w w' : World) (r : Chatbot.ChatResult) :
  Chatbot.chat self user_message w = (w', self', Return r) ->
  Chatbot.result_state r = Chatbot.state self' /\
  Chatbot.mood_context r = Chatbot._get_mood_context self'.
Proof.
  unfold Chatbot.chat, SentimentAnalyzer.analyze, Chatbot._add_message,
    Chatbot._generate_response, Message.new.
  destruct (classify user_message w) as [w1 result].
  destruct (datetime_now w1) as [w2 t1].
  match goal with
  | |- context [generate_reply ?a ?b ?c ?d ?e] =>
      destruct (generate_reply a b c d e) as [w3 [reply|e']]
  end; [|done].
  destruct (datetime_now w3) as [w4 t2]. intros ?; simplify_eq. done.
Qed.

(** X8.  The bundle a completed turn returns agrees with what the agent shows
    afterwards: the last entry of [get_history] is the assistant message with
    the returned response and no sentiment, the last entry of
    [get_sentiment_history] is the returned sentiment, the conversation state
    of [get_statistics] is the returned state, whose mood is the sentiment
    label of the turn, and the mood context is the one the agent computes. *)
Theorem completed_turn_bundle_agrees_with_agent `{Externals}
    (self self' : Chatbot.t) (user_message : string) (w w' : World)
    (r : Chatbot.ChatResult) :
  Chatbot.chat self user_message w = (w', self', Return r) ->
  (exists d : MessageDict.t,
     last (Chatbot.get_history self') = Some d /\
     MessageDict.role d = "assistant" /\
     MessageDict.content d = Chatbot.response r /\
     MessageDict.sentiment d = None) /\
  last (Chatbot.get_sentiment_history self') = Some (Chatbot.sentiment r) /\
  Chatbot.conversation_state (Chatbot.get_statistics self') = Chatbot.result_state r /\
  SentimentDict.sentiment (Chatbot.sentiment r) =
    Some (ConversationState.mood (Chatbot.result_state r)) /\
  Chatbot.mood_context r = Chatbot._get_mood_context self'.
Proof.
  intros Hchat.
  destruct (chat_result_state _ _ _ _ _ _ Hchat) as [Hstate Hcontext].
  destruct (chat_effect self user_message w) as (user & _ & _ & _ & Heff).
  rewrite Hchat in Heff.
  destruct Heff as (assistant & Hhist & Ha & Hc & Hs & Hsent & Hst & Hrec & _).
  split; [|split; [|split; [|split]]].
  - exists (Message.to_dict assistant).
    unfold Chatbot.get_history. rewrite Hhist, fmap_last.
    replace (Chatbot.history self ++ [user; assistant])
      with ((Chatbot.history self ++ [user]) ++ [assistant])
      by (by rewrite <- app_assoc).
    rewrite last_snoc. cbn. by rewrite Ha, Hc, Hs.
  - unfold Chatbot.get_sentiment_history, SentimentAnalyzer.get_history_dicts.
    by rewrite Hrec, fmap_last, last_snoc, Hsent.
  - by rewrite Hstate.
  - by rewrite Hsent, Hstate, Hst.
  - done.
Qed.

(** A completed turn of the scripted service. *)
Lemma completed_turn_bundle_agrees_with_agent_witness :
  last (Chatbot.get_sentiment_history (H := Scripted.externals)
          (Chatbot.chat (H := Scripted.externals) Scripted.fresh "positive" 1%nat).1.2)
  = Some (SentimentResult_to_dict (Scripted.classify_text "positive")).
Proof.
  refine (proj1 (proj2 (completed_turn_bundle_agrees_with_agent
            (H := Scripted.externals) Scripted.fresh _ "positive" 1%nat
            (Chatbot.chat (H := Scripted.externals) Scripted.fresh "positive" 1%nat).1.1
            {| Chatbot.response := "You said: positive";
               Chatbot.sentiment := SentimentResult_to_dict (Scripted.classify_text "positive");
               Chatbot.result_state :=
                 ConversationState.update ConversationState.init
                   (Scripted.classify_text "positive");
               Chatbot.mood_context :=
                 "Current mood: positive | Emotion: neutral | Engagement: normal | Messages: 1" |}
            _))).
  vm_compute. reflexivity.
Defined.

(** ** The detection window of [_detect_mood_shift] *)

Lemma last_items_keeps_two {A} (n : nat) (pre : list A) (a b : A) :
  (2 <= n)%nat -> exists pre', last_items n (pre ++ [a; b]) = pre' ++ [a; b].
Proof.
  intros Hn. unfold last_items. destruct n as [|n]; [lia|].
  exists (drop (length (pre ++ [a; b]) - S n) pre).
  rewrite drop_app_le; [done|]. rewrite length_app. cbn [length]. lia.
Qed.

Lemma item_from_end_two {A} (pre : list A) (a b : A) :
  item_from_end 2 (pre ++ [a; b]) = Some a /\
  item_from_end 1 (pre ++ [a; b]) = Some b.
Proof.
  unfold item_from_end. rewrite length_app. cbn [length].
  replace (2 <=? length pre + 2)%nat with true by (symmetry; apply Nat.leb_le; lia).
  replace (1 <=? length pre + 2)%nat with true by (symmetry; apply Nat.leb_le; lia).
  replace (length pre + 2 - 2)%nat with (length pre) by lia.
  replace (length pre + 2 - 1)%nat with (S (length pre)) by lia.
  split.
  - by apply list_lookup_middle.
  - replace (pre ++ [a; b]) with ((pre ++ [a]) ++ [b]) by (by rewrite <- app_assoc).
    apply list_lookup_middle. rewrite length_app. cbn. lia.
Qed.

Lemma one_label_two_equal (recent : list string) (a b : string) :
  a ∈ recent -> b ∈ recent ->
  size (list_to_set recent : gset string) = 1%nat -> a = b.
Proof.
  intros Ha Hb Hsize.
  apply size_1_elem_of in Hsize as [x Hx].
  assert (a ∈ (list_to_set recent : gset string)) as Ha' by (by apply elem_of_list_to_set).
  assert (b ∈ (list_to_set recent : gset string)) as Hb' by (by apply elem_of_list_to_set).
  rewrite Hx in Ha', Hb'. apply elem_of_singleton in Ha', Hb'. congruence.
Qed.

(** X9.  For any detection window of at least 2 labels: with fewer labels than the
    window there is no shift, whatever the labels, none or one included.
    Once that many labels are recorded there are a last and a second-to-last
    label, and the verdict depends on these two alone: improving when the
    ordinal rises, declining when it falls, no shift when it stays (the
    earlier labels of the window never change it). *)
Theorem detect_mood_shift_reads_last_two `{Externals} (self : SmartChatbot.t) :
  (2 <= SmartChatbot.mood_shift_threshold self)%nat ->
  ((length (SmartChatbot.previous_moods self)
      < SmartChatbot.mood_shift_threshold self)%nat ->
   SmartChatbot._detect_mood_shift self = None) /\
  ((SmartChatbot.mood_shift_threshold self
      <= length (SmartChatbot.previous_moods self))%nat ->
   exists (pre : list string) (a b : string),
     SmartChatbot.previous_moods self = pre ++ [a; b]) /\
  (forall (pre : list string) (a b : string),
     SmartChatbot.previous_moods self = pre ++ [a; b] ->
     SmartChatbot._detect_mood_shift self =
       if (length (SmartChatbot.previous_moods self)
             <? SmartChatbot.mood_shift_threshold self)%nat then None
       else if (SmartChatbot.mood_values a <? SmartChatbot.mood_values b)%Z
            then Some (improving a b)
       else if (SmartChatbot.mood_values b <? SmartChatbot.mood_values a)%Z
            then Some (declining a b)
       else None).
Proof.
  intros Hn. split; [|split].
  - intros Hshort. unfold SmartChatbot._detect_mood_shift.
    by apply Nat.ltb_lt in Hshort as ->.
  - intros Hlong.
    destruct (SmartChatbot.previous_moods self) as [|x moods] using rev_ind;
      [cbn in Hlong; lia|].
    clear IHmoods.
    destruct moods as [|y moods _] using rev_ind.
    + cbn in Hlong. lia.
    + exists moods, y, x. by rewrite <- app_assoc.
  - intros pre a b Hmoods. unfold SmartChatbot._detect_mood_shift.
    destruct (_ <? _)%nat; [done|]. rewrite Hmoods.
    destruct (last_items_keeps_two (SmartChatbot.mood_shift_threshold self) pre a b Hn)
      as [pre' ->].
    destruct (item_from_end_two pre' a b) as [-> ->].
    replace (2 <=? length (pre' ++ [a; b]))%nat with true
      by (symmetry; apply Nat.leb_le; rewrite length_app; cbn; lia).
    destruct (size _ =? 1)%nat eqn:Hsize; [|done].
    apply Nat.eqb_eq in Hsize.
    assert (a = b) as ->.
    { apply (one_label_two_equal (pre' ++ [a; b])); [| |done];
        rewrite elem_of_app, !elem_of_cons; tauto. }
    by rewrite Z.ltb_irrefl.
Qed.

(** A window of 3 over negative, neutral, positive: the shift from neutral. *)
Lemma detect_mood_shift_reads_last_two_witness :
  SmartChatbot._detect_mood_shift (H := Scripted.externals) Scripted.patient
  = Some (improving "neutral" "positive").
Proof.
  rewrite (proj2 (proj2 (detect_mood_shift_reads_last_two (H := Scripted.externals)
                           Scripted.patient ltac:(vm_compute; lia)))
             ["negative"] "neutral" "positive").
  - reflexivity.
  - reflexivity.
Defined.

(** ** A failed turn of a [SmartChatbot] *)

(** X10.  When a turn of a [SmartChatbot] raises, no mood label is recorded for it,
    although the sentiment history has recorded its result and the state has
    taken its mood: shift detection skips the turns whose reply failed. *)
Theorem failed_turn_records_no_mood `{Externals}
    (self self' : SmartChatbot.t) (user_message : string) (w w' : World) (e : exn) :
  SmartChatbot.chat self user_message w = (w', self', Raise e) ->
  SmartChatbot.previous_moods self' = SmartChatbot.previous_moods self /\
  SentimentAnalyzer.history (Chatbot.sentiment_analyzer (SmartChatbot.base self')) =
    SentimentAnalyzer.history (Chatbot.sentiment_analyzer (SmartChatbot.base self))
      ++ [(classify user_message w).2] /\
  ConversationState.mood (Chatbot.state (SmartChatbot.base self')) =
    SentimentResult.sentiment (classify user_message w).2.
Proof.
  unfold SmartChatbot.chat.
  destruct (chat_effect (SmartChatbot.base self) user_message w)
    as (user & _ & _ & _ & Heff).
  destruct (Chatbot.chat (SmartChatbot.base self) user_message w)
    as [[w1 b] [r|e']].
  - destruct Heff as (assistant & _ & _ & _ & _ & -> & _). done.
  - destruct Heff as (_ & Hst & Hrec & _). intros ?; simplify_eq.
    cbn. by rewrite Hst, Hrec.
Qed.

(** The scripted service fails on the message ["fail"]. *)
Lemma failed_turn_records_no_mood_witness :
  SmartChatbot.previous_moods
    (SmartChatbot.chat (H := Scripted.externals) Scripted.gloomy "fail" 3%nat).1.2
  = SmartChatbot.previous_moods Scripted.gloomy.
Proof.
  apply (failed_turn_records_no_mood (H := Scripted.externals)
           Scripted.gloomy _ "fail" 3%nat
           (SmartChatbot.chat (H := Scripted.externals) Scripted.gloomy "fail" 3%nat).1.1
           (Error "service unavailable")).
  vm_compute. reflexivity.
Defined.

(** ** [_generate_ui_hints] *)

Lemma table_get_unknown {A} (key : string) (table : list (string * A)) (fallback : A) :
  key ∉ table.*1 -> UiHints.table_get key table fallback = fallback.
Proof.
  induction table as [|[k v] table IH]; [done|]. cbn. intros Hkey.
  apply not_elem_of_cons in Hkey as [Hne Hkey].
  rewrite bool_decide_eq_false_2 by done. by apply IH.
Qed.

Lemma table_get_all {A} (P : A -> Prop) (key : string) (table : list (string * A))
    (fallback : A) :
  Forall P table.*2 -> P fallback -> P (UiHints.table_get key table fallback).
Proof.
  induction table as [|[k v] table IH]; [done|]. cbn. intros Hall Hfb.
  apply Forall_cons in Hall as [Hv Hall]. case_bool_decide; [done|]. by apply IH.
Qed.

Lemma table_get_known {A} (key : string) (table : list (string * A)) (fallback : A) :
  key ∈ table.*1 -> (key, UiHints.table_get key table fallback) ∈ table.
Proof.
  induction table as [|[k v] table IH]; cbn; [by intros ?%elem_of_nil|].
  intros Hkey. case_bool_decide as Hk.
  - subst k. left.
  - right. apply IH. apply elem_of_cons in Hkey as [->|Hkey]; done.
Qed.

(** X11.  The UI hints of any sentiment dictionary: the colour is always a [#] and
    six more characters; the level is 1 for the intensity low, 3 for high and 2
    for anything else, an absent intensity included.  The two tables have the
    same ten distinct emotions; an emotion of the tables gets its entries of
    the two tables, and an emotion outside the tables, like an absent one,
    gets the colour #9E9E9E and the icon of neutral. *)
Theorem ui_hints_defaults (sentiment : SentimentDict.t) :
  let hints := UiHints._generate_ui_hints sentiment in
  let of_neutral :=
    UiHints.suggested_color hints = "#9E9E9E" /\
    ("neutral", UiHints.suggested_color hints) ∈ UiHints.color_map /\
    ("neutral", UiHints.emotion_icon hints) ∈ UiHints.icon_map in
  (exists rest : string,
     UiHints.suggested_color hints = String "#"%char rest /\ String.length rest = 6%nat) /\
  (SentimentDict.emotion_intensity sentiment = Some "low" ->
     UiHints.intensity_level hints = 1%Z) /\
  (SentimentDict.emotion_intensity sentiment = Some "high" ->
     UiHints.intensity_level hints = 3%Z) /\
  (SentimentDict.emotion_intensity sentiment <> Some "low" ->
   SentimentDict.emotion_intensity sentiment <> Some "high" ->
     UiHints.intensity_level hints = 2%Z) /\
  (NoDup UiHints.color_map.*1 /\ UiHints.icon_map.*1 = UiHints.color_map.*1 /\
   length UiHints.color_map = 10%nat) /\
  (forall emotion : string,
     SentimentDict.emotion sentiment = Some emotion ->
     emotion ∈ UiHints.color_map.*1 ->
     (emotion, UiHints.suggested_color hints) ∈ UiHints.color_map /\
     (emotion, UiHints.emotion_icon hints) ∈ UiHints.icon_map) /\
  (forall emotion : string,
     SentimentDict.emotion sentiment = Some emotion ->
     emotion ∉ UiHints.color_map.*1 -> of_neutral) /\
  (SentimentDict.emotion sentiment = None -> of_neutral).
Proof.
  cbn zeta. unfold UiHints._generate_ui_hints; cbn [UiHints.suggested_color
    UiHints.emotion_icon UiHints.intensity_level].
  split; [|split; [|split; [|split; [|split; [|split; [|split]]]]]].
  - apply (table_get_all
             (fun c => exists rest, c = String "#"%char rest /\ String.length rest = 6%nat)).
    + repeat (apply Forall_cons; split; [by eexists|]). apply Forall_nil_2.
    + by eexists.
  - by intros ->.
  - by intros ->.
  - intros Hlow Hhigh.
    destruct (SentimentDict.emotion_intensity sentiment) as [i|]; [|done].
    cbn. repeat case_bool_decide; simplify_eq; done.
  - split; [|done]. by apply (bool_decide_unpack _).
  - intros emotion -> Hknown. cbn [default]. split.
    + by apply table_get_known.
    + by apply table_get_known.
  - intros emotion -> Hunknown. cbn [default].
    rewrite !table_get_unknown by done.
    split; [done|]. split; set_solver.
  - intros ->. cbn [default]. split; [done|]. split; set_solver.
Qed.

(** ** More on the distributions *)

Lemma counter_set_total (k : string) (v : nat) (d : counter) :
  (sum_list (counter_set k v d).*2 + counter_get k d = sum_list d.*2 + v)%nat.
Proof.
  induction d as [|[k0 c0] d IH]; cbn; [lia|].
  case_bool_decide; cbn; lia.
Qed.

Lemma count_labels_total (labels : list string) (d : counter) :
  sum_list (foldl count_label d labels).*2 = (sum_list d.*2 + length labels)%nat.
Proof.
  revert d. induction labels as [|l labels IH]; intros d; cbn; [lia|].
  rewrite IH. unfold count_label.
  pose proof (counter_set_total l (counter_get l d + 1) d). lia.
Qed.

Lemma counter_set_key_order (k : string) (v : nat) (d : counter) :
  (counter_set k v d).*1 = note_label d.*1 k.
Proof.
  unfold note_label. induction d as [|[k0 c0] d IH]; cbn.
  - rewrite bool_decide_eq_false_2; [done|]. apply not_elem_of_nil.
  - destruct (decide (k0 = k)) as [->|Hk0].
    + rewrite (bool_decide_eq_true_2 (k = k)) by done. cbn.
      rewrite bool_decide_eq_true_2; [done|]. left.
    + rewrite (bool_decide_eq_false_2 (k0 = k)) by done. cbn.
      rewrite IH. destruct (decide (k ∈ d.*1)) as [Hin|Hin].
      * rewrite !bool_decide_eq_true_2; [done| |done]. by right.
      * rewrite !bool_decide_eq_false_2; [done| |done].
        rewrite not_elem_of_cons. split; [congruence|done].
Qed.

Lemma count_labels_key_order (labels : list string) (d : counter) :
  (foldl count_label d labels).*1 = foldl note_label d.*1 labels.
Proof.
  revert d. induction labels as [|l labels IH]; intros d; cbn; [done|].
  rewrite IH. unfold count_label. by rewrite counter_set_key_order.
Qed.

Lemma distinct_in_order_elem (labels : list string) (l : string) :
  l ∈ distinct_in_order labels <-> l ∈ labels.
Proof.
  unfold distinct_in_order.
  induction labels as [|x labels IH] using rev_ind.
  - done.
  - rewrite foldl_app. cbn. unfold note_label at 1.
    rewrite elem_of_app, list_elem_of_singleton.
    case_bool_decide as Hin.
    + rewrite IH. split; [tauto|]. intros [?| ->]; [done|]. by apply IH.
    + rewrite elem_of_app, list_elem_of_singleton, IH. tauto.
Qed.

(** In the list of distinct labels, a label that stands before another one
    occurs in the original list before any occurrence of the other. *)
Lemma distinct_in_order_before (labels : list string) (i j : nat) (a b : string) :
  (i < j)%nat ->
  distinct_in_order labels !! i = Some a ->
  distinct_in_order labels !! j = Some b ->
  exists p : nat, labels !! p = Some a /\ b ∉ take p labels.
Proof.
  revert i j a b. induction labels as [|x labels IH] using rev_ind;
    intros i j a b Hij Ha Hb; [done|].
  unfold distinct_in_order in Ha, Hb. rewrite foldl_app in Ha, Hb.
  cbn in Ha, Hb. fold (distinct_in_order labels) in Ha, Hb.
  unfold note_label in Ha, Hb.
  assert (forall p, labels !! p = Some a -> b ∉ take p labels ->
            exists p, (labels ++ [x]) !! p = Some a /\ b ∉ take p (labels ++ [x]))
    as Hlift.
  { intros p Hp Hnot. exists p. pose proof (lookup_lt_Some _ _ _ Hp).
    split; [by rewrite lookup_app_l|]. rewrite take_app_le by lia. done. }
  case_bool_decide as Hin.
  - destruct (IH i j a b Hij Ha Hb) as (p & Hp & Hnot). by eapply Hlift.
  - destruct (decide (j < length (distinct_in_order labels))%nat) as [Hj|Hj].
    + rewrite lookup_app_l in Ha, Hb by lia.
      destruct (IH i j a b Hij Ha Hb) as (p & Hp & Hnot). by eapply Hlift.
    + pose proof (lookup_lt_Some _ _ _ Hb) as Hjl.
      rewrite length_app in Hjl. cbn in Hjl.
      assert (j = length (distinct_in_order labels)) as -> by lia.
      rewrite list_lookup_middle in Hb by done. simplify_eq.
      rewrite lookup_app_l in Ha by lia.
      assert (a ∈ labels) as Hal.
      { apply distinct_in_order_elem. by eapply list_elem_of_lookup_2. }
      apply list_elem_of_lookup_1 in Hal as [p Hp].
      apply (Hlift p Hp). intros Hb'. apply Hin, distinct_in_order_elem.
      by eapply subseteq_take.
Qed.

(** X12.  In [_calculate_statistics] the counts of each distribution add up to
    [total_messages], the length of the history (on the empty history too). *)
Theorem distribution_counts_sum_to_total (h : list SentimentDict.t) :
  let stats := ConversationAnalytics._calculate_statistics h in
  StatsDict.total_messages stats = Some (length h) /\
  sum_list (default [] (StatsDict.sentiment_distribution stats)).*2 = length h /\
  sum_list (default [] (StatsDict.emotion_distribution stats)).*2 = length h.
Proof.
  cbn zeta. destruct h as [|x h]; [done|].
  unfold ConversationAnalytics._calculate_statistics; cbv beta iota zeta.
  cbn [StatsDict.total_messages StatsDict.sentiment_distribution
       StatsDict.emotion_distribution from_option id].
  rewrite tally_sentiments, tally_emotions, !count_labels_total, !length_fmap.
  done.
Qed.

(** The dominant label of a counter filled from a list of labels occurs most
    often, and a different label that occurs as often has its first occurrence
    later. *)
Lemma dominant_occurs_most_and_first (labels : list string) :
  labels <> [] ->
  let d := foldl count_label [] labels in
  let dom := ConversationAnalytics.dominant d in
  d.*1 = distinct_in_order labels /\
  dom ∈ labels /\
  forall l : string, l ∈ labels ->
    (occurrences l labels <= occurrences dom labels)%nat /\
    (occurrences l labels = occurrences dom labels -> l <> dom ->
       exists p : nat, labels !! p = Some dom /\ l ∉ take p labels).
Proof.
  intros Hne. cbn zeta.
  destruct (frequency_map labels Hne) as (Hnd & Hkeys & Hget & (i & c & Hi & Hmax)).
  pose proof (count_labels_key_order labels []) as Horder.
  change (foldl note_label [].*1 labels) with (distinct_in_order labels) in Horder.
  set (d := foldl count_label [] labels) in *.
  set (dom := ConversationAnalytics.dominant d) in *.
  assert (c = occurrences dom labels) as ->
    by (rewrite <- Hget; symmetry; by eapply counter_get_lookup).
  split; [done|]. split.
  { apply Hkeys. apply list_elem_of_lookup_2 in Hi.
    by apply (list_elem_of_fmap_2 fst) in Hi. }
  intros l Hl. apply Hkeys in Hl.
  apply list_elem_of_lookup_1 in Hl as [j Hj].
  apply list_lookup_fmap_Some in Hj as ([l' c'] & Heq & Hj); cbn in Heq; subst l'.
  assert (c' = occurrences l labels) as ->
    by (rewrite <- Hget; symmetry; by eapply counter_get_lookup).
  destruct (Hmax j l _ Hj) as [Hle Hlt]. split; [done|].
  intros Heq Hneq.
  assert (i < j)%nat as Hij.
  { destruct (decide (j < i)%nat) as [Hji|Hji]; [specialize (Hlt Hji); lia|].
    destruct (decide (j = i)) as [->|]; [|lia].
    rewrite Hi in Hj. by simplify_eq. }
  apply (distinct_in_order_before labels i j); [done|..]; rewrite <- Horder.
  - by rewrite list_lookup_fmap, Hi.
  - by rewrite list_lookup_fmap, Hj.
Qed.

(** X13.  On a non-empty history, each distribution lists the distinct labels in
    the order of their first occurrence in the history, and the dominant label
    is one that occurs most often; among the labels that occur most often it
    is the one the history shows first. *)
Theorem dominant_label_occurs_most_and_first (h : list SentimentDict.t) :
  h <> [] ->
  let stats := ConversationAnalytics._calculate_statistics h in
  let sentiments := ConversationAnalytics.sentiment_of <$> h in
  let emotions := ConversationAnalytics.emotion_of <$> h in
  (default [] (StatsDict.sentiment_distribution stats)).*1 =
    distinct_in_order sentiments /\
  (default [] (StatsDict.emotion_distribution stats)).*1 =
    distinct_in_order emotions /\
  (exists ds : string,
     StatsDict.dominant_sentiment stats = Some ds /\ ds ∈ sentiments /\
     forall l : string, l ∈ sentiments ->
       (occurrences l sentiments <= occurrences ds sentiments)%nat /\
       (occurrences l sentiments = occurrences ds sentiments -> l <> ds ->
          exists p : nat, sentiments !! p = Some ds /\ l ∉ take p sentiments)) /\
  (exists de : string,
     StatsDict.dominant_emotion stats = Some de /\ de ∈ emotions /\
     forall l : string, l ∈ emotions ->
       (occurrences l emotions <= occurrences de emotions)%nat /\
       (occurrences l emotions = occurrences de emotions -> l <> de ->
          exists p : nat, emotions !! p = Some de /\ l ∉ take p emotions)).
Proof.
  intros Hne. cbn zeta. destruct h as [|x h]; [done|].
  unfold ConversationAnalytics._calculate_statistics; cbv beta iota zeta.
  set (l := x :: h) in *.
  cbn [StatsDict.sentiment_distribution StatsDict.dominant_sentiment
       StatsDict.emotion_distribution StatsDict.dominant_emotion from_option id].
  rewrite tally_sentiments, tally_emotions.
  cbn [ConversationAnalytics.sentiment_dist ConversationAnalytics.emotion_dist].
  destruct (dominant_occurs_most_and_first (ConversationAnalytics.sentiment_of <$> l))
    as (Hks & Hds & Hs); [by subst l|].
  destruct (dominant_occurs_most_and_first (ConversationAnalytics.emotion_of <$> l))
    as (Hke & Hde & He); [by subst l|].
  split; [done|]. split; [done|]. split; by eexists.
Qed.

(** Negative and positive tie at two occurrences; negative came first. *)
Lemma dominant_label_occurs_most_and_first_witness :
  exists ds : string,
    StatsDict.dominant_sentiment
      (ConversationAnalytics._calculate_statistics Scripted.tied_turns) = Some ds /\
    ds ∈ ConversationAnalytics.sentiment_of <$> Scripted.tied_turns.
Proof.
  destruct (dominant_label_occurs_most_and_first Scripted.tied_turns)
    as (_ & _ & (ds & Hds & Hin & _) & _).
  - discriminate.
  - by exists ds.
Defined.

(** ** The emotion ranking of the report *)





(** ** [get_full_report] *)

(** X15.  A report that [get_full_report] returns comes from the five calls of the
    service, made in the order trend analysis, keywords, summary, mood graph,
    emotion profile, each from the world the one before left, and all
    returned.  It has its six keys.  Its trends have their six keys, the
    answer of the service where it gave one and the default of
    [analyze_trends] elsewhere; its statistics are those calculated over the
    sentiment history, with the dominant labels exactly when the history is
    not empty. *)
Theorem full_report_has_every_key `{Externals}
    (conversation_history : list MessageDict.t)
    (sentiment_history : list SentimentDict.t) (w w' : World) (report : Report.t) :
  ConversationAnalytics.get_full_report conversation_history sentiment_history w
    = (w', Return report) ->
  exists (w1 w2 w3 w4 : World) (answer : TrendDict.t) (keywords : KeywordsDict.t)
         (summary : SummaryDict.t) (graph profile : string),
    generate_trend_analysis sentiment_history w = (w1, Return answer) /\
    extract_keywords conversation_history w1 = (w2, Return keywords) /\
    summarize_conversation conversation_history w2 = (w3, Return summary) /\
    generate_ascii_mood_graph sentiment_history w3 = (w4, Return graph) /\
    generate_emotion_profile sentiment_history w4 = (w', Return profile) /\
    Report.summary report = Some summary /\
    Report.keywords report = Some keywords /\
    Report.mood_graph report = Some graph /\
    Report.emotion_profile report = Some profile /\
    Report.trends report =
      Some {| TrendDict.trend := Some (default "stable" (TrendDict.trend answer));
              TrendDict.direction :=
                Some (default "neutral" (TrendDict.direction answer));
              TrendDict.mood_shifts := Some (default [] (TrendDict.mood_shifts answer));
              TrendDict.emotional_peaks :=
                Some (default [] (TrendDict.emotional_peaks answer));
              TrendDict.analysis :=
                Some (default "No analysis available." (TrendDict.analysis answer));
              TrendDict.prediction :=
                Some (default "Unable to predict." (TrendDict.prediction answer)) |} /\
    Report.statistics report =
      Some (ConversationAnalytics._calculate_statistics sentiment_history) /\
    (is_Some (StatsDict.dominant_sentiment
                (ConversationAnalytics._calculate_statistics sentiment_history))
       <-> sentiment_history <> []) /\
    (is_Some (StatsDict.dominant_emotion
                (ConversationAnalytics._calculate_statistics sentiment_history))
       <-> sentiment_history <> []).
Proof.
  unfold ConversationAnalytics.get_full_report, ConversationAnalytics.analyze_trends,
    ConversationAnalytics.bind, ConversationAnalytics.ret.
  destruct (generate_trend_analysis sentiment_history w)
    as [w1 [answer|e]] eqn:Htrend; [|done].
  destruct (extract_keywords conversation_history w1)
    as [w2 [keywords|e]] eqn:Hkeywords; [|done].
  destruct (summarize_conversation conversation_history w2)
    as [w3 [summary|e]] eqn:Hsummary; [|done].
  destruct (generate_ascii_mood_graph sentiment_history w3)
    as [w4 [graph|e]] eqn:Hgraph; [|done].
  destruct (generate_emotion_profile sentiment_history w4)
    as [w5 [profile|e]] eqn:Hprofile; [|done].
  intros ?; simplify_eq.
  exists w1, w2, w3, w4, answer, keywords, summary, graph, profile.
  do 11 (split; [done|]).
  destruct sentiment_history as [|x h]; cbn.
  - split; (split; [by intros [? ?]|done]).
  - split; (split; [done|by eexists]).
Qed.


(** The scripted service answers every call. *)
Lemma full_report_has_every_key_witness :
  exists report : Report.t,
    ConversationAnalytics.get_full_report (H := Scripted.externals) []
      Scripted.three_turns 0%nat = (0%nat, Return report) /\
    Report.statistics report =
      Some (ConversationAnalytics._calculate_statistics Scripted.three_turns).
Proof.
  assert (exists r, ConversationAnalytics.get_full_report (H := Scripted.externals) []
                      Scripted.three_turns 0%nat = (0%nat, Return r)) as [r Hr]
    by (vm_compute; eexists; reflexivity).
  exists r. split; [exact Hr|].
  destruct (full_report_has_every_key (H := Scripted.externals) _ _ _ _ _ Hr)
    as (w1 & w2 & w3 & w4 & answer & keywords & summary & graph & profile & Hrest).
  apply Hrest.
Defined.

(** ** [create_simple_ascii_graph] *)

Lemma str_app_assoc (s1 s2 s3 : string) :
  ((s1 ++ s2) ++ s3)%string = (s1 ++ s2 ++ s3)%string.
Proof.
  induction s1 as [|a s1 IH]; [done|].
  change (String a ((s1 ++ s2) ++ s3)%string = String a (s1 ++ s2 ++ s3)%string).
  by rewrite IH.
Qed.

Lemma str_app_empty (s : string) : (s ++ "")%string = s.
Proof.
  induction s as [|a s IH]; [done|].
  change (String a (s ++ "")%string = String a s). by rewrite IH.
Qed.

Lemma normalize_raises (values : list float) (min_val range_val : float) (e : exn) :
  AsciiGraph.normalize values min_val range_val = Raise e ->
  e = Error "float division by zero".
Proof.
  induction values as [|v values IH]; cbn; [done|].
  unfold AsciiGraph.float_truediv.
  destruct (PrimFloat.eqb range_val 0); [by intros ?; simplify_eq|].
  destruct (AsciiGraph.normalize values min_val range_val); [done|].
  intros ?; simplify_eq. by apply IH.
Qed.

Lemma normalize_length (values normalized : list float) (min_val range_val : float) :
  AsciiGraph.normalize values min_val range_val = Return normalized ->
  length normalized = length values.
Proof.
  revert normalized. induction values as [|v values IH]; intros normalized; cbn.
  - by intros ?; simplify_eq.
  - destruct (AsciiGraph.float_truediv _ _); [|done].
    destruct (AsciiGraph.normalize values min_val range_val); [|done].
    intros ?; simplify_eq. cbn. by rewrite (IH _ eq_refl).
Qed.

(** A row is the bar followed by one cell, full or blank, for each value. *)
Lemma draw_row_cells (threshold : float) (normalized : list float) :
  exists cells : list string,
    AsciiGraph.draw_row threshold normalized = ("│" ++ String.concat "" cells)%string /\
    length cells = length normalized /\
    Forall (fun c => c = "█" \/ c = " ") cells.
Proof.
  unfold AsciiGraph.draw_row. generalize "│".
  induction normalized as [|n normalized IH]; intros line.
  - exists []. cbn. by rewrite str_app_empty.
  - cbn [foldl].
    destruct (PrimFloat.leb threshold n).
    + destruct (IH (line ++ "█")%string) as (cells & -> & Hlen & Hcells).
      exists ("█" :: cells). split; [|split].
      * rewrite str_app_assoc. f_equal. by destruct cells.
      * cbn. by rewrite Hlen.
      * constructor; [by left|done].
    + destruct (IH (line ++ " ")%string) as (cells & -> & Hlen & Hcells).
      exists (" " :: cells). split; [|split].
      * rewrite str_app_assoc. f_equal. by destruct cells.
      * cbn. by rewrite Hlen.
      * constructor; [by right|done].
Qed.

Lemma draw_rows_shape (remaining : list Z) (height : Z) (normalized : list float)
    (lines : list string) :
  AsciiGraph.draw_rows remaining height normalized = Return lines ->
  (remaining <> [] -> height <> 0%Z) /\
  length lines = length remaining /\
  Forall (fun line =>
            exists cells : list string,
              line = ("│" ++ String.concat "" cells)%string /\
              length cells = length normalized /\
              Forall (fun c => c = "█" \/ c = " ") cells) lines.
Proof.
  revert lines. induction remaining as [|row remaining IH]; intros lines; cbn.
  - intros ?; simplify_eq. by repeat split.
  - unfold AsciiGraph.int_truediv. destruct (height =? 0)%Z eqn:Hh; [done|].
    apply Z.eqb_neq in Hh.
    destruct (AsciiGraph.draw_rows remaining height normalized) as [lines'|];
      [|done].
    intros ?; simplify_eq.
    destruct (IH _ eq_refl) as (_ & Hlen & Hlines).
    split; [done|]. split; [cbn; by rewrite Hlen|].
    constructor; [apply draw_row_cells|done].
Qed.

Lemma draw_rows_zero_height (remaining : list Z) (normalized : list float) :
  remaining <> [] ->
  AsciiGraph.draw_rows remaining 0 normalized = Raise (Error "division by zero").
Proof. by destruct remaining. Qed.

(** X16.  The edge cases of [create_simple_ascii_graph]: no values give the text
    "No data to display." whatever the sizes; the width is never read; with
    values and a height of 0 the call raises [ZeroDivisionError]; with values
    and a negative height no row is drawn, the text is the axis alone.  The
    only other exception is that of the float division of the
    normalisation. *)
Theorem ascii_graph_edge_cases :
  (forall width height : Z,
     AsciiGraph.create_simple_ascii_graph [] width height
       = Return "No data to display.") /\
  (forall (values : list float) (width width' height : Z),
     AsciiGraph.create_simple_ascii_graph values width height =
     AsciiGraph.create_simple_ascii_graph values width' height) /\
  (forall (values : list float) (width : Z),
     values <> [] ->
     AsciiGraph.create_simple_ascii_graph values width 0
       = Raise (Error "division by zero") \/
     AsciiGraph.create_simple_ascii_graph values width 0
       = Raise (Error "float division by zero")) /\
  (forall (values : list float) (width height : Z),
     values <> [] -> (height < 0)%Z ->
     AsciiGraph.create_simple_ascii_graph values width height
       = Return (AsciiGraph.axis values) \/
     AsciiGraph.create_simple_ascii_graph values width height
       = Raise (Error "float division by zero")).
Proof.
  split; [done|]. split; [done|]. split.
  - intros [|first others] width Hne; [done|].
    unfold AsciiGraph.create_simple_ascii_graph. cbv zeta.
    destruct (AsciiGraph.normalize _ _ _) as [normalized|e] eqn:Hnorm.
    + left. by rewrite draw_rows_zero_height.
    + right. by rewrite (normalize_raises _ _ _ _ Hnorm).
  - intros [|first others] width height Hne Hneg; [done|].
    unfold AsciiGraph.create_simple_ascii_graph. cbv zeta.
    destruct (AsciiGraph.normalize _ _ _) as [normalized|e] eqn:Hnorm.
    + left. unfold AsciiGraph.rows. rewrite seqZ_nil by lia. done.
    + right. by rewrite (normalize_raises _ _ _ _ Hnorm).
Qed.

(** X17.  When [create_simple_ascii_graph] returns a text for some values, the
    height is not 0 and the text is, joined by line feeds, one row for each
    level from the height down to 0 and then the axis; a row is the bar
    followed by one cell for each value, full or blank. *)
Theorem ascii_graph_shape (values : list float) (width height : Z) (text : string) :
  values <> [] ->
  AsciiGraph.create_simple_ascii_graph values width height = Return text ->
  height <> 0%Z /\
  exists lines : list string,
    text = join nl (lines ++ [AsciiGraph.axis values]) /\
    length lines = Z.to_nat (height + 1) /\
    Forall (fun line =>
              exists cells : list string,
                line = ("│" ++ String.concat "" cells)%string /\
                length cells = length values /\
                Forall (fun c => c = "█" \/ c = " ") cells) lines.
Proof.
  intros Hne. destruct values as [|first others]; [done|].
  unfold AsciiGraph.create_simple_ascii_graph. cbv zeta.
  destruct (AsciiGraph.normalize _ _ _) as [normalized|e] eqn:Hnorm; [|done].
  destruct (AsciiGraph.draw_rows _ _ _) as [lines|e] eqn:Hrows; [|done].
  intros ?; simplify_eq.
  destruct (draw_rows_shape _ _ _ _ Hrows) as (Hheight & Hlen & Hlines).
  rewrite (normalize_length _ _ _ _ Hnorm) in Hlines.
  unfold AsciiGraph.rows in Hlen, Hheight.
  rewrite length_reverse, length_seqZ in Hlen.
  split.
  - intros ->. apply Hheight; [|done]. by vm_compute.
  - by exists lines.
Qed.

(** Three values drawn on two levels. *)
Lemma ascii_graph_shape_witness :
  exists lines : list string,
    length lines = 3%nat /\
    AsciiGraph.create_simple_ascii_graph [0.2%float; 0.8%float; 0.5%float] 50 2
      = Return (join nl (lines ++ [AsciiGraph.axis [0.2%float; 0.8%float; 0.5%float]])).
Proof.
  destruct (ascii_graph_shape [0.2%float; 0.8%float; 0.5%float] 50 2
              (join nl ["│ █ "; "│ █ "; "│███"; "└───"]))
    as (_ & lines & Htext & Hlen & _).
  - discriminate.
  - vm_compute. reflexivity.
  - exists lines. split; [exact Hlen|]. rewrite <- Htext. vm_compute. reflexivity.
Defined.

(** ** The request handlers *)

Section Handlers.
Context `{Externals}.

Lemma get_chatbot_frame (session_id : string)
    (instances : gmap string SmartChatbot.t) (w : World) :
  let '(w', instances', chatbot) := WebApp.get_chatbot session_id instances w in
  instances' !! session_id = Some chatbot /\
  (forall k : string, k <> session_id -> instances' !! k = instances !! k) /\
  (forall stored : SmartChatbot.t, instances !! session_id = Some stored ->
     w' = w /\ instances' = instances /\ chatbot = stored) /\
  (instances !! session_id = None ->
     w' = (SmartChatbot.init w).1 /\ chatbot = (SmartChatbot.init w).2 /\
     instances' = <[session_id := chatbot]> instances).
Proof.
  unfold WebApp.get_chatbot.
  destruct (instances !! session_id) as [stored|] eqn:Hstored.
  - split; [done|]. split; [done|]. split; [|done].
    intros stored' ?. by simplify_eq.
  - destruct (SmartChatbot.init w) as [w1 chatbot].
    split; [by rewrite lookup_insert_eq|]. split; [|split; [done|done]].
    intros k Hk. by rewrite lookup_insert_ne.
Qed.

End Handlers.

(** The bodies the handler of [/chat] reads a message from: a dictionary
    whose entry [message], the empty text when there is none, is a text. *)
Lemma message_returns (body : outcome value) (text : string) :
  WebApp.message body = Return text <->
  exists (entries : list (string * value)) (s : string),
    body = Return (VDict entries) /\
    default (VStr "") (dict_get "message" entries) = VStr s /\
    text = strip s.
Proof.
  unfold WebApp.message, WebApp.get_message, WebApp.strip_value.
  split.
  - destruct body as [data|e]; [|done]. destruct data; try done. cbn.
    destruct (default _ _) eqn:Hmessage; try done.
    intros ?; simplify_eq. eauto.
  - intros (entries & s & -> & Hmessage & ->). cbn. by rewrite Hmessage.
Qed.

(** X18.  A [/chat] request without a usable message is answered with status 500
    and changes nothing: the body raises, is no dictionary, or holds under
    [message] a value that is no text.  A request whose message is absent,
    empty or blank (white space of any script) is answered with status 400
    and changes nothing either: no agent is created for the session and the
    service is not called.  Any other request is answered with status 200 or
    500 and leaves an agent stored for its session.  In every case the agents
    of the other sessions are left as they were. *)
Theorem chat_request_effect `{Externals}
    (cookie : option string) (body : outcome value)
    (instances : gmap string SmartChatbot.t) (w : World) :
  let out := WebApp.chat cookie body instances w in
  let unchanged (status : nat) (error : string) :=
    out = (w, instances, WebApp.ErrorJson status error) in
  (forall e : exn, body = Raise e -> unchanged 500%nat (WebApp.exn_str e)) /\
  (forall data : value,
     body = Return data ->
     (forall entries : list (string * value), data <> VDict entries) ->
     unchanged 500%nat
       ("'" ++ type_name data ++ "' object has no attribute 'get'")%string) /\
  (forall (entries : list (string * value)) (v : value),
     body = Return (VDict entries) ->
     dict_get "message" entries = Some v ->
     (forall s : string, v <> VStr s) ->
     unchanged 500%nat
       ("'" ++ type_name v ++ "' object has no attribute 'strip'")%string) /\
  (forall (entries : list (string * value)) (s : string),
     body = Return (VDict entries) ->
     default (VStr "") (dict_get "message" entries) = VStr s ->
     (strip s = "" -> unchanged 400%nat "Message cannot be empty") /\
     (strip s <> "" ->
        (WebApp.status out.2 = 200%nat \/ WebApp.status out.2 = 500%nat) /\
        is_Some (out.1.2 !! WebApp.session_key cookie))) /\
  (forall k : string, k <> WebApp.session_key cookie ->
     out.1.2 !! k = instances !! k).
Proof.
  cbn zeta. unfold WebApp.chat.
  split; [|split; [|split; [|split]]].
  - by intros e ->.
  - intros data -> Hdata. unfold WebApp.message. cbn.
    destruct data; try done. by destruct (Hdata entries).
  - intros entries v -> Hv Htext. unfold WebApp.message. cbn. rewrite Hv. cbn.
    destruct v; try done. by destruct (Htext s).
  - intros entries s -> Hs.
    assert (WebApp.message (Return (VDict entries)) = Return (strip s)) as ->.
    { apply message_returns. eauto. }
    split.
    + intros ->. done.
    + intros Hblank. rewrite bool_decide_eq_false_2 by done.
      destruct (WebApp.get_chatbot _ _ _) as [[w1 instances1] chatbot].
      destruct (SmartChatbot.chat chatbot _ w1) as [[w2 chatbot2] [result|e]]; cbn.
      * split; [by left|]. by rewrite lookup_insert_eq.
      * split; [by right|]. by rewrite lookup_insert_eq.
  - intros k Hk.
    destruct (WebApp.message body) as [text|e]; [|done].
    case_bool_decide; [done|].
    pose proof (get_chatbot_frame (WebApp.session_key cookie) instances w) as Hget.
    destruct (WebApp.get_chatbot _ _ _) as [[w1 instances1] chatbot].
    destruct Hget as (_ & Hframe & _).
    destruct (SmartChatbot.chat chatbot _ w1) as [[w2 chatbot2] [result|e]]; cbn;
      rewrite lookup_insert_ne by done; by apply Hframe.
Qed.

(** X19.  A [/chat] request answered with status 500 either had no usable message,
    and then nothing has changed, or has nevertheless changed the
    conversation: its message was a text that is not blank, and the agent
    stored for the session is the one that was stored before (a fresh one for
    a new session) with the stripped user message appended to its history,
    and with no mood label recorded for the turn. *)
Theorem failed_chat_request_keeps_user_message `{Externals}
    (cookie : option string) (body : outcome value)
    (instances instances' : gmap string SmartChatbot.t)
    (w w' : World) (error : string) :
  WebApp.chat cookie body instances w = (w', instances', WebApp.ErrorJson 500 error) ->
  (exists e : exn,
     WebApp.message body = Raise e /\ error = WebApp.exn_str e /\
     w' = w /\ instances' = instances) \/
  (exists (entries : list (string * value)) (s : string)
          (before after : SmartChatbot.t) (user : Message.t),
     body = Return (VDict entries) /\
     default (VStr "") (dict_get "message" entries) = VStr s /\
     strip s <> "" /\
     (instances !! WebApp.session_key cookie = Some before \/
      instances !! WebApp.session_key cookie = None /\
      before = (SmartChatbot.init w).2) /\
     instances' !! WebApp.session_key cookie = Some after /\
     Chatbot.history (SmartChatbot.base after) =
       Chatbot.history (SmartChatbot.base before) ++ [user] /\
     Message.role user = USER /\
     Message.content user = strip s /\
     SmartChatbot.previous_moods after = SmartChatbot.previous_moods before).
Proof.
  unfold WebApp.chat.
  destruct (WebApp.message body) as [text|e0] eqn:Hmessage.
  2: { intros ?; simplify_eq. left. by exists e0. }
  apply message_returns in Hmessage as (entries & s & -> & Hs & ->).
  case_bool_decide as Hblank; [done|].
  pose proof (get_chatbot_frame (WebApp.session_key cookie) instances w) as Hget.
  destruct (WebApp.get_chatbot (WebApp.session_key cookie) instances w)
    as [[w1 instances1] chatbot].
  destruct Hget as (_ & _ & Hknown & Hnew).
  pose proof (smart_chat_effect chatbot (strip s) w1) as Hsmart.
  cbn zeta in Hsmart. unfold SmartChatbot.chat in Hsmart |- *.
  destruct (chat_effect (SmartChatbot.base chatbot) (strip s) w1)
    as (user & Hrole & Hcontent & _ & Heff).
  destruct (Chatbot.chat (SmartChatbot.base chatbot) _ w1) as [[w2 b] [r|e]].
  - destruct Heff as (assistant & _ & _ & _ & _ & Hsent & _).
    rewrite Hsent in Hsmart |- *. done.
  - intros ?; simplify_eq. destruct Heff as (Hhist & _). destruct Hsmart as (Hmoods & _).
    right. exists entries, s, chatbot, (SmartChatbot.set_base b chatbot), user.
    split; [done|]. split; [done|]. split; [done|].
    split; [|by rewrite lookup_insert_eq].
    destruct (instances !! WebApp.session_key cookie) as [stored|] eqn:Hstored.
    + left. by destruct (Hknown stored eq_refl) as (_ & _ & ->).
    + right. by destruct (Hnew eq_refl) as (_ & -> & _).
Qed.

(** A first request of a session, on which the scripted service fails. *)
Lemma failed_chat_request_keeps_user_message_witness :
  exists after : SmartChatbot.t,
    (WebApp.chat (H := Scripted.externals) None
       (Return (VDict [("message", VStr " fail ")])) ∅ 0%nat).1.2
      !! "default" = Some after /\
    length (Chatbot.history (SmartChatbot.base after)) = 2%nat.
Proof.
  set (out := WebApp.chat (H := Scripted.externals) None
                (Return (VDict [("message", VStr " fail ")])) ∅ 0%nat).
  assert (out = (out.1.1, out.1.2, WebApp.ErrorJson 500 "service unavailable")) as Hout
    by (vm_compute; reflexivity).
  destruct (failed_chat_request_keeps_user_message (H := Scripted.externals)
              _ _ _ _ _ _ _ Hout)
    as [(e & Hraise & _)
       |(entries & s & before & after & user & _ & _ & _ & Hbefore & Hafter & Hhist & _)].
  { vm_compute in Hraise. discriminate. }
  exists after. split; [exact Hafter|].
  rewrite Hhist, length_app.
  destruct Hbefore as [Hstored|[_ ->]]; [by rewrite lookup_empty in Hstored|].
  reflexivity.
Defined.

(** X20.  No handler touches the agent of another session: after a request, the
    agent stored under any key other than that of the request's session is
    the one stored before. *)
Theorem requests_leave_other_sessions_alone `{Externals}
    (cookie : option string) (body : outcome value)
    (instances : gmap string SmartChatbot.t) (w : World) (k : string) :
  k <> WebApp.session_key cookie ->
  (WebApp.chat cookie body instances w).1.2 !! k = instances !! k /\
  (WebApp.get_stats cookie instances w).1.2 !! k = instances !! k /\
  (WebApp.get_history cookie instances w).1.2 !! k = instances !! k /\
  (WebApp.reset_chat cookie instances w).1.2 !! k = instances !! k /\
  (WebApp.get_graph cookie instances w).1.2 !! k = instances !! k /\
  (WebApp.get_profile cookie instances w).1.2 !! k = instances !! k /\
  (WebApp.get_trends cookie instances w).1.2 !! k = instances !! k /\
  (WebApp.get_report cookie instances w).1.2 !! k = instances !! k.
Proof.
  intros Hk.
  pose proof (get_chatbot_frame (WebApp.session_key cookie) instances w) as Hget.
  unfold WebApp.chat, WebApp.get_stats, WebApp.get_history, WebApp.reset_chat,
    WebApp.get_graph, WebApp.get_profile, WebApp.get_trends, WebApp.get_report.
  destruct (WebApp.get_chatbot (WebApp.session_key cookie) instances w)
    as [[w1 instances1] chatbot].
  destruct Hget as (_ & Hframe & _). specialize (Hframe k Hk).
  repeat split.
  - destruct (WebApp.message body) as [text|e0]; [|done].
    case_bool_decide; [done|].
    destruct (SmartChatbot.chat chatbot _ w1) as [[w2 chatbot2] [result|e]]; cbn;
      by rewrite lookup_insert_ne.
  - done.
  - done.
  - destruct (instances !! WebApp.session_key cookie) as [stored|]; [|done].
    destruct (SmartChatbot.reset stored w) as [w2 chatbot2]. cbn.
    by rewrite lookup_insert_ne.
  - destruct (Chatbot.get_sentiment_history _) as [|x h]; [done|].
    by destruct (Delegations.generate_mood_graph _ _) as [w2 [graph|e]].
  - by destruct (Delegations.generate_emotion_profile _ _) as [w2 [profile|e]].
  - by destruct (ConversationAnalytics.analyze_trends _ _) as [w2 [trends|e]].
  - by destruct (ReportGenerator.generate_json_report _ _ _) as [w2 [report|e]].
Qed.

(** Two sessions, a request of the first. *)
Lemma requests_leave_other_sessions_alone_witness :
  (WebApp.chat (H := Scripted.externals) (Some "alice")
     (Return (VDict [("message", VStr "positive")]))
     {[ "bob" := Scripted.gloomy ]} 3%nat).1.2 !! "bob" = Some Scripted.gloomy.
Proof.
  rewrite (proj1 (requests_leave_other_sessions_alone (H := Scripted.externals)
                    (Some "alice") (Return (VDict [("message", VStr "positive")]))
                    {[ "bob" := Scripted.gloomy ]}
                    3%nat "bob" ltac:(discriminate))).
  apply lookup_singleton_eq.
Defined.

(** X21.  A read request ([/stats], [/history]) of a session that has no agent
    stores a fresh agent for it, and answers with the statistics and the
    history of that agent: no message but the system message.  For a session
    that has an agent it changes nothing.  [/reset] never stores an agent: for
    a session without one it changes nothing, and for a session with one it
    stores the agent reset, its mood labels kept. *)
Theorem read_requests_register_the_session `{Externals}
    (cookie : option string) (instances : gmap string SmartChatbot.t) (w : World) :
  let key := WebApp.session_key cookie in
  let fresh := (SmartChatbot.init w).2 in
  (instances !! key = None ->
     WebApp.get_stats cookie instances w =
       ((SmartChatbot.init w).1, <[key := fresh]> instances,
        WebApp.Json 200 (Chatbot.get_statistics (SmartChatbot.base fresh))) /\
     Chatbot.total_messages (Chatbot.get_statistics (SmartChatbot.base fresh)) = 0%Z /\
     WebApp.get_history cookie instances w =
       ((SmartChatbot.init w).1, <[key := fresh]> instances,
        WebApp.Json 200 (Chatbot.get_history (SmartChatbot.base fresh))) /\
     length (Chatbot.get_history (SmartChatbot.base fresh)) = 1%nat /\
     WebApp.reset_chat cookie instances w =
       (w, instances, WebApp.Json 200 "Conversation reset")) /\
  (forall stored : SmartChatbot.t, instances !! key = Some stored ->
     WebApp.get_stats cookie instances w =
       (w, instances, WebApp.Json 200 (Chatbot.get_statistics (SmartChatbot.base stored))) /\
     WebApp.get_history cookie instances w =
       (w, instances, WebApp.Json 200 (Chatbot.get_history (SmartChatbot.base stored))) /\
     WebApp.reset_chat cookie instances w =
       ((SmartChatbot.reset stored w).1,
        <[key := (SmartChatbot.reset stored w).2]> instances,
        WebApp.Json 200 "Conversation reset") /\
     SmartChatbot.previous_moods (SmartChatbot.reset stored w).2 =
       SmartChatbot.previous_moods stored).
Proof.
  cbn zeta.
  unfold WebApp.get_stats, WebApp.get_history, WebApp.reset_chat, WebApp.get_chatbot.
  split.
  - intros ->.
    pose proof (init_history_length None w) as Hlen.
    unfold SmartChatbot.init in *.
    destruct (Chatbot.init None w) as [w1 b]. cbn in *.
    unfold Chatbot.get_statistics, Chatbot.get_history.
    rewrite length_fmap, Hlen. by repeat split.
  - intros stored ->. repeat split.
    + by destruct (SmartChatbot.reset stored w).
    + apply smart_reset_frame.
Qed.

(** X22.  [/graph] never answers with an error status: whatever the service does,
    the status is 200 (an exception becomes the text of the graph).  A session
    without sentiment history, so a new one, gets the fixed invitation text
    and the service is not called. *)
Theorem graph_request_always_answers_200 `{Externals}
    (cookie : option string) (instances : gmap string SmartChatbot.t) (w : World) :
  let key := WebApp.session_key cookie in
  WebApp.status (WebApp.get_graph cookie instances w).2 = 200%nat /\
  (forall stored : SmartChatbot.t,
     instances !! key = Some stored ->
     Chatbot.get_sentiment_history (SmartChatbot.base stored) = [] ->
     WebApp.get_graph cookie instances w =
       (w, instances, WebApp.Json 200 WebApp.no_graph_yet)) /\
  (instances !! key = None ->
     WebApp.get_graph cookie instances w =
       ((SmartChatbot.init w).1, <[key := (SmartChatbot.init w).2]> instances,
        WebApp.Json 200 WebApp.no_graph_yet)).
Proof.
  cbn zeta. unfold WebApp.get_graph, WebApp.get_chatbot. split; [|split].
  - destruct (instances !! WebApp.session_key cookie) as [stored|].
    + destruct (Chatbot.get_sentiment_history _) as [|x h]; [done|].
      by destruct (Delegations.generate_mood_graph _ _) as [w2 [graph|e]].
    + destruct (SmartChatbot.init w) as [w1 chatbot].
      destruct (Chatbot.get_sentiment_history _) as [|x h]; [done|].
      by destruct (Delegations.generate_mood_graph _ _) as [w2 [graph|e]].
  - intros stored -> ->. done.
  - intros ->.
    assert (Chatbot.get_sentiment_history (SmartChatbot.base (SmartChatbot.init w).2) = [])
      as Hempty.
    { unfold SmartChatbot.init, Chatbot.init, Chatbot._add_system_message, Message.new.
      by destruct (datetime_now w). }
    destruct (SmartChatbot.init w) as [w1 chatbot]. cbn in Hempty |- *.
    by rewrite Hempty.
Qed.

(** ** What the summary and the keywords are asked on *)

Lemma non_system_tally `{Externals} (l : list Message.t) :
  Forall (fun m => Message.role m <> SYSTEM) l ->
  filter (fun msg => Message.role msg <> SYSTEM) l = l /\
  length l =
    (length (filter (fun m => Message.role m = USER) l) +
     length (filter (fun m => Message.role m = ASSISTANT) l))%nat.
Proof.
  induction 1 as [|m l Hm _ [IHf IHl]]; [done|].
  rewrite !filter_cons, IHf. cbn [length]. rewrite IHl.
  destruct (Message.role m); repeat case_decide; try done; cbn [length]; split; lia || done.
Qed.

(** X23.  However the calls of a session went, [get_conversation_summary] and
    [get_keywords] send the service the whole history but its first entry,
    the system message, as entries of role and content in the order of the
    history. *)
Theorem summary_is_asked_on_all_but_system `{TurnServices}
    (system_prompt : option string) (ops : list Session.op) (w w1 : World) :
  let self :=
    (Requests.serve_all ops (Chatbot.init system_prompt w).2
       (Chatbot.init system_prompt w).1).2 in
  let sent :=
    (fun msg => (role_value (Message.role msg), Message.content msg))
      <$> drop 1 (Chatbot.history self) in
  Summaries.get_conversation_summary self w1 = summarize_turns sent w1 /\
  Summaries.get_keywords self w1 = keywords_of_turns sent w1 /\
  length sent = (Chatbot.user_messages (Chatbot.get_statistics self) +
                 Chatbot.assistant_messages (Chatbot.get_statistics self))%nat.
Proof.
  cbn zeta.
  destruct (serve_all_consistent ops _ (Chatbot.init system_prompt w).1
              (init_consistent system_prompt w))
    as [(system & turns & Hhist & Hrole & _ & _ & Hturns) _ _].
  set (self := (Requests.serve_all ops _ _).2) in *.
  destruct (turns_tally turns Hturns) as (_ & _ & _ & Hnone).
  destruct (non_system_tally _ Hnone) as [Hfilter Hlen].
  unfold Summaries.get_conversation_summary, Summaries.get_keywords,
    Chatbot.get_statistics; cbn [Chatbot.user_messages Chatbot.assistant_messages].
  rewrite Hhist, length_fmap, !filter_cons, Hrole.
  change (drop 1 (system :: concat turns)) with (concat turns).
  repeat case_decide; try done. by rewrite Hfilter.
Qed.
